(** * Retail operations copilot: retrieval engine and verification pipeline

    A shallow embedding of the Python sources
    - [retrieval/config.py], [retrieval/ingestion.py], [retrieval/retrieval.py],
      [retrieval/prompting.py],
    - [copilot_agents/models.py], [copilot_agents/tools.py],
    together with the properties the specification states about them.

    Conventions of the embedding.
    - A Python [str] is a Rocq [string]; one [ascii] stands for one code
      point, so the model covers strings over the Latin-1 range.
    - A Python [int] is a [Z].
    - A similarity score or a cosine distance is a finite Python [float],
      an IEEE 754 binary64 number; it is held by its value, a rational
      number [Q]. Floats are compared by their values; a subtraction of
      floats and a decimal literal are rounded to the nearest float
      (module Float).
    - A call that may raise returns an [outcome]; code that reads or
      updates module-level state runs in the monad [M] of section
      Retrieval.
    - A [while] loop is a function with a fuel argument that returns
      [None] when the fuel runs out. *)

From Stdlib Require Import ZArith QArith List String Ascii Lia Lqa Bool DecimalString.
From Stdlib Require Import Permutation Sorted.
From Stdlib Require DecimalPos DecimalZ.
From Stdlib Require SpecFloat.
From stdpp Require Import base gmap strings list.
Import ListNotations.

#[local] Open Scope string_scope.
#[local] Open Scope list_scope.
#[local] Open Scope Z_scope.

(** ** Exceptions *)

(** The result of a Python call: a value, or a raised exception (by the
    name of its class). *)
Inductive outcome (A : Type) : Type :=
| Ok (a : A)
| Raise (exn : string).
Arguments Ok {A} a.
Arguments Raise {A} exn.

(** ** Python built-ins used by the sources *)

Module Py.

(** [len(s)] *)
Definition len (s : string) : Z := Z.of_nat (String.length s).

(** [str(n)] and [f"{n}"] for an [int]. *)
Definition str_of_int (n : Z) : string := NilZero.string_of_int (Z.to_int n).

(** [c.isspace()] on the Latin-1 range: TAB, LF, VT, FF, CR, the four
    separators FS, GS, RS, US, the space, NEL and the no-break space. *)
Definition isspace (c : ascii) : bool :=
  let n := Z.of_nat (nat_of_ascii c) in
  ((9 <=? n) && (n <=? 13)) || ((28 <=? n) && (n <=? 32))
  || (n =? 133) || (n =? 160).

(** [s.lstrip()] *)
Fixpoint lstrip (s : string) : string :=
  match s with
  | EmptyString => EmptyString
  | String c s' => if isspace c then lstrip s' else s
  end.

(** [s.rstrip()] *)
Fixpoint rstrip (s : string) : string :=
  match s with
  | EmptyString => EmptyString
  | String c s' =>
      match rstrip s' with
      | EmptyString => if isspace c then EmptyString else String c EmptyString
      | r => String c r
      end
  end.

(** [s.strip()] *)
Definition strip (s : string) : string := rstrip (lstrip s).

(** How a slice bound [i] is clipped against a sequence of length [n]:
    a negative bound counts from the end. *)
Definition norm_index (i n : Z) : Z :=
  if i <? 0 then Z.max (i + n) 0 else Z.min i n.

(** [s[a:b]] *)
Definition slice (s : string) (a b : Z) : string :=
  let n := len s in
  let a' := norm_index a n in
  let b' := norm_index b n in
  substring (Z.to_nat a') (Z.to_nat (b' - a')) s.

(** [s[i]]: raises [IndexError] out of range. *)
Definition getitem (s : string) (i : Z) : outcome ascii :=
  let n := len s in
  let j := if i <? 0 then i + n else i in
  if (0 <=? j) && (j <? n) then
    match String.get (Z.to_nat j) s with
    | Some c => Ok c
    | None => Raise "IndexError"
    end
  else Raise "IndexError".

(** The highest index [j] with [lo <= j < hi] at which [s], whose head
    has index [i], holds the character [c]; [-1] when there is none. *)
Fixpoint rfind_from (c : ascii) (s : string) (i lo hi : Z) : Z :=
  match s with
  | EmptyString => -1
  | String x s' =>
      let r := rfind_from c s' (i + 1) lo hi in
      if 0 <=? r then r
      else if (lo <=? i) && (i <? hi) && Ascii.eqb x c then i
      else -1
  end.

(** [s.rfind(c, a, b)] for a one-character string [c]. *)
Definition rfind_char (c : ascii) (s : string) (a b : Z) : Z :=
  let n := len s in
  rfind_from c s 0 (norm_index a n) (norm_index b n).

(** [sep.join(parts)] *)
Fixpoint join (sep : string) (parts : list string) : string :=
  match parts with
  | [] => EmptyString
  | [p] => p
  | p :: ps => p +:+ sep +:+ join sep ps
  end.

(** The newline character, as a string. *)
Definition nl : string := String "010" EmptyString.

(** [s.split(sep)] for a one-character separator. *)
Fixpoint split (sep : ascii) (s : string) : list string :=
  match s with
  | EmptyString => [EmptyString]
  | String c s' =>
      if Ascii.eqb c sep then EmptyString :: split sep s'
      else
        match split sep s' with
        | piece :: pieces => String c piece :: pieces
        | [] => [String c EmptyString]
        end
  end.

(** The truth value of a string: it is not empty. *)
Definition truthy (s : string) : bool :=
  match s with
  | EmptyString => false
  | String _ _ => true
  end.

(** [sub in s] *)
Fixpoint contains (sub s : string) : bool :=
  String.prefix sub s
  || match s with
     | EmptyString => false
     | String _ s' => contains sub s'
     end.

(** The integer nearest to [a / d], ties to the even one, for [0 <= a]
    and [0 < d]. *)
Definition round_half_even (a d : Z) : Z :=
  let k := a / d in
  let r := a mod d in
  if 2 * r <? d then k
  else if d <? 2 * r then k + 1
  else if Z.even k then k else k + 1.

Definition pad3 (n : Z) : string :=
  if n <? 10 then "00" +:+ str_of_int n
  else if n <? 100 then "0" +:+ str_of_int n
  else str_of_int n.

(** [f"{x:.3f}"] for a finite float of exact value [x]. *)
Definition format_3f (x : Q) : string :=
  let n := round_half_even (Z.abs (Qnum x) * 1000) (Zpos (Qden x)) in
  (if Qnum x <? 0 then "-" else "")
  +:+ str_of_int (n / 1000) +:+ "." +:+ pad3 (n mod 1000).

(** [list(set(xs))]: the order in which a set of strings is iterated is
    fixed by the interpreter (hash values, table size), not by the order
    of insertion. The model takes the enumeration as a parameter and asks
    of it what every set guarantees: each member once, nothing else. *)
Definition set_enumeration : Type := list string -> list string.

Definition set_enumeration_lawful (enum : set_enumeration) : Prop :=
  forall xs, List.NoDup (enum xs) /\ forall x, In x (enum xs) <-> In x xs.

(** Two enumerations: members in the order of first insertion, and
    members in the opposite order. *)
Fixpoint first_occurrences (seen xs : list string) : list string :=
  match xs with
  | [] => []
  | x :: xs' =>
      if existsb (String.eqb x) seen then first_occurrences seen xs'
      else x :: first_occurrences (x :: seen) xs'
  end.

(** The position of the first occurrence of [x] in [xs]. *)
Fixpoint index_of (x : string) (xs : list string) : nat :=
  match xs with
  | [] => 0%nat
  | y :: xs' => if String.eqb x y then 0%nat else S (index_of x xs')
  end.

(** [res] is [xs] deduplicated in first-seen order: it holds each
    distinct member of [xs] exactly once, and its members come in the
    order of their first occurrences in [xs]. *)
Definition first_seen_order (xs res : list string) : Prop :=
  List.NoDup res /\
  (forall x, In x res <-> In x xs) /\
  StronglySorted lt (map (fun x => index_of x xs) res).

Definition enum_insertion : set_enumeration := first_occurrences [].
Definition enum_reversed : set_enumeration := fun xs => rev (first_occurrences [] xs).

End Py.

(** ** Python floats

    A finite [float] is a number [m * 2^e] with [|m| < 2^53] and
    [-1074 <= e <= 971]. The result of an operation is the float nearest
    to the exact result, ties to the even significand. *)

Module Float.

(** The number of bits of the significand, and the exponent of the
    smallest positive float. *)
Definition prec : Z := 53.
Definition emin : Z := -1074.

(** [floor (log2 (n / d))] for positive [n] and [d]. *)
Definition log2_floor (n d : Z) : Z :=
  let k := Z.log2 n - Z.log2 d in
  if (if 0 <=? k then d * 2 ^ k <=? n else d <=? n * 2 ^ (- k)) then k else k - 1.

(** The exponent of the last place of the floats of the magnitude of
    [n / d]: significands have [prec] bits, down to the subnormal range,
    where the exponent stays at [emin]. *)
Definition exponent (n d : Z) : Z := Z.max emin (log2_floor n d - (prec - 1)).

(** [m * 2^e], in lowest terms. *)
Definition scale (m e : Z) : Q :=
  if 0 <=? e then inject_Z (m * 2 ^ e) else Qred (m # Z.to_pos (2 ^ (- e))).

(** The float nearest to a rational [x] below the overflow threshold,
    ties to the even significand. *)
Definition round (x : Q) : Q :=
  let n := Z.abs (Qnum x) in
  let d := Zpos (Qden x) in
  if n =? 0 then 0%Q
  else
    let e := exponent n d in
    let m := if 0 <=? e then Py.round_half_even n (d * 2 ^ e)
             else Py.round_half_even (n * 2 ^ (- e)) d in
    scale (Z.sgn (Qnum x) * m) e.

(** A decimal literal of the sources, such as [0.3]: the float nearest
    to the decimal number. *)
Definition lit (decimal : Q) : Q := round decimal.

(** [x - y] on floats. An [int] operand, as the [1] of [1 - distance], is
    converted to the float of the same value first. A result beyond the
    largest float would be an infinity, which the model does not hold;
    [1 - d] is in range for every float [d]. *)
Definition sub (x y : Q) : Q := round (x - y)%Q.

(** [x] is the value of a finite float. *)
Definition is_float (x : Q) : bool :=
  Qeq_bool (round x) x
  && Qle_bool (Z.abs (Qnum x) # Qden x) (inject_Z ((2 ^ prec - 1) * 2 ^ 971)).

(** The unit roundoff [2^-53]: the largest distance between a number of
    magnitude at most 1 and the float nearest to it. *)
Definition unit_roundoff : Q := 1 # 9007199254740992.

Arguments round : simpl never.
Arguments lit : simpl never.
Arguments sub : simpl never.

(** The value of a finite float of the IEEE 754 specification of the
    standard library, and the float [m * 2^e] in that specification. *)
Definition value (f : SpecFloat.spec_float) : option Q :=
  match f with
  | SpecFloat.S754_zero _ => Some 0%Q
  | SpecFloat.S754_finite s m e => Some (scale (if s then Zneg m else Zpos m) e)
  | _ => None
  end.

Definition binary64 (m e : Z) : SpecFloat.spec_float :=
  SpecFloat.binary_normalize 53 1024 m e false.

End Float.

(** ** retrieval/config.py *)

Module Config.
Definition CHUNK_SIZE : Z := 1000.
Definition CHUNK_OVERLAP : Z := 200.
Definition MIN_CHUNK_SIZE : Z := 100.
Definition EMBEDDING_MODEL : string := "text-embedding-3-small".
Definition TOP_K_RESULTS : Z := 5.
Definition MIN_SIMILARITY_SCORE : Q := Float.lit (1 # 2).
Definition COLLECTION_NAME : string := "retail_operations_docs".
End Config.

(** ** retrieval/ingestion.py *)

Module Ingestion.
Import Config.

(** The right edge of the window that starts at [start]: the hard cut
    [start + chunk_size], retracted to the last space of the window when
    the cut falls inside the text on a character other than a space and
    that space lies strictly after [start]. *)
Definition window_end (text : string) (chunk_size start : Z) : outcome Z :=
  let text_length := Py.len text in
  let end_ := start + chunk_size in
  if end_ <? text_length then
    match Py.getitem text end_ with
    | Raise e => Raise e
    | Ok c =>
        if negb (Ascii.eqb c " ") then
          let last_space := Py.rfind_char " " text start end_ in
          if start <? last_space then Ok last_space else Ok end_
        else Ok end_
    end
  else Ok end_.

(** One iteration of the [while] loop of [chunk_text]: from the window
    start and the chunks collected so far to the next window start and
    the chunks collected then. *)
Definition chunk_body (text : string) (chunk_size chunk_overlap : Z)
    (start : Z) (chunks : list string) : outcome (Z * list string) :=
  match window_end text chunk_size start with
  | Raise e => Raise e
  | Ok end_ =>
      let chunk := Py.slice text start end_ in
      let chunks' :=
        if MIN_CHUNK_SIZE <=? Py.len (Py.strip chunk)
        then chunks ++ [Py.strip chunk]
        else chunks in
      Ok (start + (chunk_size - chunk_overlap), chunks')
  end.

(** [while start < text_length: ...], at most [fuel] iterations. *)
Fixpoint chunk_loop (fuel : nat) (text : string) (chunk_size chunk_overlap : Z)
    (start : Z) (chunks : list string) : option (outcome (list string)) :=
  match fuel with
  | O => None
  | S fuel' =>
      if start <? Py.len text then
        match chunk_body text chunk_size chunk_overlap start chunks with
        | Raise e => Some (Raise e)
        | Ok (start', chunks') =>
            chunk_loop fuel' text chunk_size chunk_overlap start' chunks'
        end
      else Some (Ok chunks)
  end.

(** [chunk_text(text, chunk_size, chunk_overlap)] *)
Definition chunk_text (fuel : nat) (text : string)
    (chunk_size chunk_overlap : Z) : option (outcome (list string)) :=
  chunk_loop fuel text chunk_size chunk_overlap 0 [].

End Ingestion.

(** ** Ordered dictionaries *)

(** A Python [dict] keeps its keys in insertion order; setting a key that
    is present keeps its place. The model is an association list without
    repeated keys. *)
Module PyDict.
Section Dict.
Context {V : Type}.

Definition dict : Type := list (string * V).

(** [k in d] *)
Definition contains (k : string) (d : dict) : bool :=
  existsb (fun kv => String.eqb (fst kv) k) d.

(** [d[k] = v] *)
Fixpoint set (k : string) (v : V) (d : dict) : dict :=
  match d with
  | [] => [(k, v)]
  | (k', v') :: d' =>
      if String.eqb k' k then (k', v) :: d' else (k', v') :: set k v d'
  end.

(** [d[k] = f(d[k])] for a key that is present. *)
Fixpoint update (k : string) (f : V -> V) (d : dict) : dict :=
  match d with
  | [] => []
  | (k', v') :: d' =>
      if String.eqb k' k then (k', f v') :: d' else (k', v') :: update k f d'
  end.

(** [list(d)] *)
Definition keys (d : dict) : list string := map fst d.
End Dict.
Arguments dict V : clear implicits.

(** [dict.fromkeys(ks)] *)
Definition fromkeys (ks : list string) : dict unit :=
  fold_left (fun d k => set k tt d) ks [].
End PyDict.

(** ** retrieval/retrieval.py *)

Module Retrieval.
Import Config.

(** The metadata mapping the index returns with a hit, by the keys that
    [search_documents] reads; [None] stands for an absent key. *)
Record Metadata : Type := {
  md_document_name : option string;
  md_page_number : option Z;
  md_chunk_index : option Z;
  md_citation : option string
}.

Record RetrievedChunk : Type := {
  text : string;
  document_name : string;
  page_number : Z;
  chunk_index : Z;
  citation : string;
  similarity_score : Q;
  metadata : Metadata
}.

Definition Embedding : Type := list Q.

(** What [collection.query] returns for one query embedding: each field
    may be absent, and a hit may come without metadata. *)
Record QueryResult : Type := {
  documents : option (list (list string));
  metadatas : option (list (list (option Metadata)));
  distances : option (list (list Q))
}.

(** A collection handle; [query c e k] is
    [c.query(query_embeddings=[e], n_results=k, include=[...])]. *)
Record Collection : Type := {
  query : Embedding -> Z -> outcome QueryResult
}.

(** The external services: the vector store client and the embedding
    call of [retrieval/indexing.py]. *)
Record Env : Type := {
  (** [get_chroma_client().get_collection(name=...)] *)
  client_get_collection : string -> outcome Collection;
  (** [generate_embeddings(texts, model=...)] *)
  generate_embeddings : list string -> string -> outcome (list Embedding)
}.

(** The calls made to the external services, in order. *)
Inductive Call : Type :=
| CallGetCollection (name : string)
| CallGenerateEmbeddings (texts : list string) (model : string)
| CallQuery (query_embedding : Embedding) (n_results : Z).

(** The module-level state: [_collection_cache], and the record of the
    external calls made so far. *)
Record State : Type := {
  collection_cache : gmap string Collection;
  calls : list Call
}.

(** *** The monad of state and exceptions *)

Definition M (A : Type) : Type := State -> outcome A * State.

Definition ret {A} (a : A) : M A := fun st => (Ok a, st).

Definition bind {A B} (m : M A) (k : A -> M B) : M B :=
  fun st =>
    match m st with
    | (Ok a, st') => k a st'
    | (Raise e, st') => (Raise e, st')
    end.

(** [try: m except Exception: h] *)
Definition try_except {A} (m : M A) (h : string -> M A) : M A :=
  fun st =>
    match m st with
    | (Ok a, st') => (Ok a, st')
    | (Raise e, st') => h e st'
    end.

Definition lift {A} (o : outcome A) : M A := fun st => (o, st).

Definition record_call (c : Call) : M unit :=
  fun st => (Ok tt, {| collection_cache := collection_cache st;
                       calls := calls st ++ [c] |}).

Definition cache_lookup (name : string) : M (option Collection) :=
  fun st => (Ok (collection_cache st !! name), st).

Definition cache_store (name : string) (c : Collection) : M unit :=
  fun st => (Ok tt, {| collection_cache := <[name := c]> (collection_cache st);
                       calls := calls st |}).

Notation "'do' x <- m ; k" := (bind m (fun x => k))
  (at level 60, x name, m at next level, right associativity).
Notation "'do_' m ; k" := (bind m (fun _ => k))
  (at level 60, m at next level, right associativity).

Section WithEnv.
Variable env : Env.

(** [get_collection(collection_name)]: the cached handle, or the one
    fetched from the client and cached; [None] when the fetch fails. *)
Definition get_collection (collection_name : string) : M (option Collection) :=
  do cached <- cache_lookup collection_name;
  match cached with
  | Some collection => ret (Some collection)
  | None =>
      try_except
        (do_ record_call (CallGetCollection collection_name);
         do collection <- lift (client_get_collection env collection_name);
         do_ cache_store collection_name collection;
         ret (Some collection))
        (fun _ => ret None)
  end.

(** [generate_embeddings([query], model=EMBEDDING_MODEL)[0]] *)
Definition embed_query (query_text : string) : M Embedding :=
  do_ record_call (CallGenerateEmbeddings [query_text] EMBEDDING_MODEL);
  do embeddings <- lift (generate_embeddings env [query_text] EMBEDDING_MODEL);
  match embeddings with
  | e :: _ => ret e
  | [] => lift (Raise "IndexError")
  end.

(** [collection.query(query_embeddings=[query_embedding], n_results=top_k, ...)] *)
Definition run_query (collection : Collection) (query_embedding : Embedding)
    (top_k : Z) : M QueryResult :=
  do_ record_call (CallQuery query_embedding top_k);
  lift (query collection query_embedding top_k).

(** [xs[0] if xs else []] *)
Definition first_or_empty {A} (xs : option (list (list A))) : list A :=
  match xs with
  | Some (x :: _) => x
  | _ => []
  end.

(** [x < y] on scores. *)
Definition score_lt (x y : Q) : bool := negb (Qle_bool y x).

Definition make_chunk (doc : string) (md : Metadata) (similarity : Q) : RetrievedChunk :=
  {| text := doc;
     document_name := default "Unknown" (md_document_name md);
     page_number := default 0 (md_page_number md);
     chunk_index := default 0 (md_chunk_index md);
     citation := default "No citation available" (md_citation md);
     similarity_score := similarity;
     metadata := md |}.

(** The loop over [zip(documents[0], metadatas[0], distances[0])]. The
    similarity of a hit is the float [1 - distance]; a hit below
    [min_score] is skipped; a kept hit without metadata raises at
    [metadata.get]. *)
Fixpoint collect_chunks (rows : list (string * (option Metadata * Q)))
    (min_score : Q) (retrieved_chunks : list RetrievedChunk)
    : outcome (list RetrievedChunk) :=
  match rows with
  | [] => Ok retrieved_chunks
  | (doc, (md, distance)) :: rows' =>
      let similarity := Float.sub 1 distance in
      if score_lt similarity min_score then
        collect_chunks rows' min_score retrieved_chunks
      else
        match md with
        | None => Raise "AttributeError"
        | Some md =>
            collect_chunks rows' min_score
              (retrieved_chunks ++ [make_chunk doc md similarity])
        end
  end.

(** The part of [search_documents] after the query returned. *)
Definition chunks_of_results (results : QueryResult) (min_score : Q)
    : outcome (list RetrievedChunk) :=
  match documents results with
  | None | Some [] | Some ([] :: _) => Ok []
  | Some (docs :: _) =>
      collect_chunks
        (combine docs
           (combine (first_or_empty (metadatas results))
                    (first_or_empty (distances results))))
        min_score []
  end.

(** [search_documents(query, top_k, min_score, collection_name)] *)
Definition search_documents (query_text : string) (top_k : Z) (min_score : Q)
    (collection_name : string) : M (list RetrievedChunk) :=
  do collection <- get_collection collection_name;
  match collection with
  | None => ret []
  | Some collection =>
      do query_embedding <-
        try_except (do e <- embed_query query_text; ret (Some e))
                   (fun _ => ret None);
      match query_embedding with
      | None => ret []
      | Some query_embedding =>
          do results <-
            try_except
              (do r <- run_query collection query_embedding top_k; ret (Some r))
              (fun _ => ret None);
          match results with
          | None => ret []
          | Some results => lift (chunks_of_results results min_score)
          end
      end
  end.

(** The dictionary that [retrieve_with_context] and
    [multi_query_retrieval] return; [chunks_by_document] is [None] where
    the key is absent. *)
Record RetrievalResult : Type := {
  found : bool;
  message : string;
  chunks : list RetrievedChunk;
  context : string;
  citations : list string;
  chunks_by_document : option (PyDict.dict (list RetrievedChunk))
}.

(** [chunks_by_doc]: the chunks under their document name, documents in
    the order of their first chunk. *)
Definition group_by_document (chunks : list RetrievedChunk)
    : PyDict.dict (list RetrievedChunk) :=
  fold_left
    (fun d chunk =>
       let doc_name := document_name chunk in
       let d' := if PyDict.contains doc_name d then d else PyDict.set doc_name [] d in
       PyDict.update doc_name (fun l => l ++ [chunk]) d')
    chunks [].

(** [f"[Source {i}] {chunk.citation}\n{chunk.text}\n"] for the chunks
    numbered from [i]. *)
Fixpoint source_parts (i : Z) (chunks : list RetrievedChunk) : list string :=
  match chunks with
  | [] => []
  | chunk :: chunks' =>
      ("[Source " +:+ Py.str_of_int i +:+ "] " +:+ citation chunk +:+ Py.nl
       +:+ text chunk +:+ Py.nl)
      :: source_parts (i + 1) chunks'
  end.

Definition context_separator : string := Py.nl +:+ "---" +:+ Py.nl.

(** [list(dict.fromkeys(citations))] *)
Definition unique_citations (chunks : list RetrievedChunk) : list string :=
  PyDict.keys (PyDict.fromkeys (map citation chunks)).

Definition NOT_FOUND_MESSAGE : string :=
  "Not found in sources. The available documents do not contain information to answer this query.".

(** [retrieve_with_context(query, top_k, min_score)] *)
Definition retrieve_with_context (query_text : string) (top_k : Z) (min_score : Q)
    : M RetrievalResult :=
  do chunks <- search_documents query_text top_k min_score COLLECTION_NAME;
  match chunks with
  | [] =>
      ret {| found := false;
             message := NOT_FOUND_MESSAGE;
             chunks := [];
             context := "";
             citations := [];
             chunks_by_document := None |}
  | _ :: _ =>
      let chunks_by_doc := group_by_document chunks in
      ret {| found := true;
             message :=
               "Found " +:+ Py.str_of_int (Z.of_nat (length chunks))
               +:+ " relevant chunks from "
               +:+ Py.str_of_int (Z.of_nat (length chunks_by_doc))
               +:+ " documents.";
             chunks := chunks;
             context := Py.join context_separator (source_parts 1 chunks);
             citations := unique_citations chunks;
             chunks_by_document := Some chunks_by_doc |}
  end.

(** [f"{chunk.document_name}_{chunk.page_number}_{chunk.chunk_index}"] *)
Definition chunk_id (chunk : RetrievedChunk) : string :=
  document_name chunk +:+ "_" +:+ Py.str_of_int (page_number chunk)
  +:+ "_" +:+ Py.str_of_int (chunk_index chunk).

(** The identifier of a chunk as the specification names it: document,
    page and index in the page. [chunk_id] is a function of it. *)
Definition chunk_key (chunk : RetrievedChunk) : string * Z * Z :=
  (document_name chunk, page_number chunk, chunk_index chunk).

Definition id_of_key (key : string * Z * Z) : string :=
  let '(doc, page, index) := key in
  doc +:+ "_" +:+ Py.str_of_int page +:+ "_" +:+ Py.str_of_int index.

(** Sorted by similarity, highest first: every chunk scores at least as
    high as every chunk after it. *)
Definition sorted_by_score_desc (l : list RetrievedChunk) : Prop :=
  StronglySorted (fun a b => (similarity_score b <= similarity_score a)%Q) l.

(** The body of the inner loop of [multi_query_retrieval] on
    [(all_chunks, seen_ids)]. *)
Definition add_unseen (acc : list RetrievedChunk * gset string)
    (chunk : RetrievedChunk) : list RetrievedChunk * gset string :=
  let '(all_chunks, seen_ids) := acc in
  if decide (chunk_id chunk ∈ seen_ids) then acc
  else (all_chunks ++ [chunk], seen_ids ∪ {[chunk_id chunk]}).

(** The invariant of the loops of [multi_query_retrieval]: the identifiers of [all_chunks] are pairwise
    distinct, and [seen_ids] is the set of them. *)
Definition merge_inv (acc : list RetrievedChunk * gset string) : Prop :=
  List.NoDup (map chunk_id (fst acc)) /\
  forall x, x ∈ snd acc <-> In x (map chunk_id (fst acc)).

(** The outer loop of [multi_query_retrieval]. *)
Fixpoint collect_queries (queries : list string) (top_k_per_query : Z)
    (min_score : Q) (acc : list RetrievedChunk * gset string)
    : M (list RetrievedChunk * gset string) :=
  match queries with
  | [] => ret acc
  | query_text :: queries' =>
      do chunks <- search_documents query_text top_k_per_query min_score COLLECTION_NAME;
      collect_queries queries' top_k_per_query min_score (fold_left add_unseen chunks acc)
  end.

(** [l.sort(key=lambda x: x.similarity_score, reverse=True)]. The sort of
    Python is stable, also under [reverse=True]: chunks of equal score keep
    their order. Every stable sort returns the same list; the model is the
    insertion sort that puts each chunk after the chunks of a score at
    least as high. *)
Fixpoint insert_by_score (chunk : RetrievedChunk) (sorted : list RetrievedChunk)
    : list RetrievedChunk :=
  match sorted with
  | [] => [chunk]
  | c :: sorted' =>
      if Qle_bool (similarity_score chunk) (similarity_score c)
      then c :: insert_by_score chunk sorted'
      else chunk :: c :: sorted'
  end.

Definition sort_by_score_desc (l : list RetrievedChunk) : list RetrievedChunk :=
  fold_left (fun sorted chunk => insert_by_score chunk sorted) l [].

(** [multi_query_retrieval(queries, top_k_per_query, min_score)] *)
Definition multi_query_retrieval (queries : list string) (top_k_per_query : Z)
    (min_score : Q) : M RetrievalResult :=
  do acc <- collect_queries queries top_k_per_query min_score ([], ∅);
  let all_chunks := sort_by_score_desc (fst acc) in
  match all_chunks with
  | [] =>
      ret {| found := false;
             message := "Not found in sources.";
             chunks := [];
             context := "";
             citations := [];
             chunks_by_document := None |}
  | _ :: _ =>
      ret {| found := true;
             message :=
               "Found " +:+ Py.str_of_int (Z.of_nat (length all_chunks))
               +:+ " unique chunks across "
               +:+ Py.str_of_int (Z.of_nat (length queries)) +:+ " queries.";
             chunks := all_chunks;
             context := Py.join context_separator (source_parts 1 all_chunks);
             citations := unique_citations all_chunks;
             chunks_by_document := None |}
  end.

End WithEnv.
End Retrieval.

(** ** retrieval/prompting.py *)

Module Prompting.
Import Retrieval.

(** The parts that [format_context_for_agent] appends for the chunks
    numbered from [i]. *)
Fixpoint source_sections (include_scores : bool) (i : Z)
    (chunks : list RetrievedChunk) : list string :=
  match chunks with
  | [] => []
  | chunk :: chunks' =>
      [Py.nl +:+ "## Source " +:+ Py.str_of_int i;
       "**Citation:** " +:+ citation chunk]
      ++ (if include_scores
          then ["**Relevance Score:** " +:+ Py.format_3f (similarity_score chunk)]
          else [])
      ++ [Py.nl +:+ "**Content:**" +:+ Py.nl +:+ text chunk;
          Py.nl +:+ "----------------------------------------------------------------------"]
      ++ source_sections include_scores (i + 1) chunks'
  end.

(** [format_context_for_agent(chunks, include_scores)] *)
Definition format_context_for_agent (chunks : list RetrievedChunk)
    (include_scores : bool) : string :=
  match chunks with
  | [] => "No relevant information found in the documents."
  | _ :: _ =>
      Py.join Py.nl
        (["# Retrieved Information" +:+ Py.nl;
          "Found " +:+ Py.str_of_int (Z.of_nat (length chunks))
          +:+ " relevant sources:" +:+ Py.nl]
         ++ source_sections include_scores 1 chunks)
  end.

(** [[f"{i}. {citation}" for i, citation in enumerate(citations, 1)]],
    from the number [i]. *)
Fixpoint numbered (i : Z) (items : list string) : list string :=
  match items with
  | [] => []
  | item :: items' =>
      (Py.str_of_int i +:+ ". " +:+ item) :: numbered (i + 1) items'
  end.

(** The list [citations] of [format_citations]:
    [list(set(chunk.citation for chunk in chunks))]. *)
Definition citation_set (enum : Py.set_enumeration)
    (chunks : list RetrievedChunk) : list string :=
  enum (map citation chunks).

(** [format_citations(chunks)] *)
Definition format_citations (enum : Py.set_enumeration)
    (chunks : list RetrievedChunk) : string :=
  match chunks with
  | [] => "No sources"
  | _ :: _ => Py.join Py.nl (numbered 1 (citation_set enum chunks))
  end.

End Prompting.

(** ** copilot_agents/tools.py *)

Module Tools.
Import Retrieval Prompting.

Section WithEnv.
Variable env : Env.
Variable enum : Py.set_enumeration.

(** [search_retail_documents(query, top_k)] *)
Definition search_retail_documents (query_text : string) (top_k : Z) : M string :=
  do results <- retrieve_with_context env query_text top_k (Float.lit (3 # 10));
  if negb (found results) then
    ret "Not found in sources. The available documents do not contain information relevant to this query."
  else
    let context := format_context_for_agent (chunks results) true in
    let citations := format_citations enum (chunks results) in
    ret (context +:+ Py.nl +:+ Py.nl +:+ "## Citations" +:+ Py.nl +:+ citations).

(** [[q.strip() for q in queries.split(",") if q.strip()]] *)
Definition query_list_of (queries : string) : list string :=
  map Py.strip (List.filter (fun q => Py.truthy (Py.strip q)) (Py.split "," queries)).

(** [multi_search_retail_documents(queries)] *)
Definition multi_search_retail_documents (queries : string) : M string :=
  let query_list := query_list_of queries in
  match query_list with
  | [] => ret "No valid queries provided."
  | _ :: _ =>
      do results <- multi_query_retrieval env query_list 3 (Float.lit (3 # 10));
      if negb (found results) then
        ret "Not found in sources. None of the queries returned relevant results from the document set."
      else
        let context := format_context_for_agent (chunks results) true in
        let citations := format_citations enum (chunks results) in
        ret ("Combined results from " +:+ Py.str_of_int (Z.of_nat (length query_list))
             +:+ " queries:" +:+ Py.nl +:+ Py.nl
             +:+ context +:+ Py.nl +:+ Py.nl +:+ "## Citations" +:+ Py.nl +:+ citations)
  end.

End WithEnv.

(** The phrase that the instructions of the agents name for a retrieval
    miss. *)
Definition NOT_FOUND_SENTINEL : string := "Not found in sources".

End Tools.

(** ** copilot_agents/models.py *)

Module Models.

Record ActionItem : Type := {
  action : string;
  owner : string;
  due_date : string;
  confidence : string
}.

Record Deliverable : Type := {
  executive_summary : string;
  client_email : string;
  action_items : list ActionItem;
  sources : list string
}.

Record ClaimVerification : Type := {
  claim : string;
  verdict : string;
  supporting_sources : list string;
  explanation : string
}.

Record VerificationReport : Type := {
  overall_verdict : string;
  verified_claims : list ClaimVerification;
  unsupported_claims : list string;
  suggestions : list string;
  corrected_executive_summary : option string;
  corrected_client_email : option string;
  corrected_action_items : option (list ActionItem)
}.

(** *** Validation of a structured output

    The verifier agent is declared with [output_type=VerificationReport]:
    what the model answers is parsed as JSON and validated against the
    fields of the class. A field declared without a default is required;
    the three [corrected_*] fields are [Optional] with [default=None], so
    they may be missing or null. The class declares no validator besides
    the types of its fields. *)

#[warnings="-register-all"] Inductive json : Type :=
| JNull
| JBool (b : bool)
| JNumber (n : Z)
| JString (s : string)
| JArray (items : list json)
| JObject (fields : list (string * json)).

(** The value of a key of a parsed object. A key may occur more than
    once in the text of an object; the parser keeps the value of its last
    occurrence. *)
Fixpoint get_field (name : string) (fields : list (string * json)) : option json :=
  match fields with
  | [] => None
  | (key, value) :: fields' =>
      match get_field name fields' with
      | Some later => Some later
      | None => if String.eqb key name then Some value else None
      end
  end.



Definition validate_str (j : json) : option string :=
  match j with
  | JString s => Some s
  | _ => None
  end.

Fixpoint validate_all {A} (f : json -> option A) (items : list json) : option (list A) :=
  match items with
  | [] => Some []
  | j :: items' =>
      match f j, validate_all f items' with
      | Some a, Some l => Some (a :: l)
      | _, _ => None
      end
  end.

Definition validate_list {A} (f : json -> option A) (j : json) : option (list A) :=
  match j with
  | JArray items => validate_all f items
  | _ => None
  end.

(** A field without a default. *)
Definition required {A} (name : string) (f : json -> option A)
    (fields : list (string * json)) : option A :=
  match get_field name fields with
  | Some j => f j
  | None => None
  end.

(** A field of type [Optional[...]] with [default=None]. *)
Definition optional {A} (name : string) (f : json -> option A)
    (fields : list (string * json)) : option (option A) :=
  match get_field name fields with
  | None | Some JNull => Some None
  | Some j =>
      match f j with
      | Some a => Some (Some a)
      | None => None
      end
  end.

Definition validate_ActionItem (j : json) : option ActionItem :=
  match j with
  | JObject fields =>
      match required "action" validate_str fields,
            required "owner" validate_str fields,
            required "due_date" validate_str fields,
            required "confidence" validate_str fields with
      | Some a, Some o, Some d, Some c =>
          Some {| action := a; owner := o; due_date := d; confidence := c |}
      | _, _, _, _ => None
      end
  | _ => None
  end.

Definition validate_ClaimVerification (j : json) : option ClaimVerification :=
  match j with
  | JObject fields =>
      match required "claim" validate_str fields,
            required "verdict" validate_str fields,
            required "supporting_sources" (validate_list validate_str) fields,
            required "explanation" validate_str fields with
      | Some c, Some v, Some s, Some e =>
          Some {| claim := c; verdict := v; supporting_sources := s; explanation := e |}
      | _, _, _, _ => None
      end
  | _ => None
  end.

Definition validate_VerificationReport (j : json) : option VerificationReport :=
  match j with
  | JObject fields =>
      match required "overall_verdict" validate_str fields,
            required "verified_claims" (validate_list validate_ClaimVerification) fields,
            required "unsupported_claims" (validate_list validate_str) fields,
            required "suggestions" (validate_list validate_str) fields,
            optional "corrected_executive_summary" validate_str fields,
            optional "corrected_client_email" validate_str fields,
            optional "corrected_action_items" (validate_list validate_ActionItem) fields with
      | Some v, Some vc, Some uc, Some sg, Some ces, Some cce, Some cai =>
          Some {| overall_verdict := v;
                  verified_claims := vc;
                  unsupported_claims := uc;
                  suggestions := sg;
                  corrected_executive_summary := ces;
                  corrected_client_email := cce;
                  corrected_action_items := cai |}
      | _, _, _, _, _, _, _ => None
      end
  | _ => None
  end.

(** *** [model_dump]: a record as JSON *)

Definition dump_strs (l : list string) : json := JArray (map JString l).

Definition dump_opt {A} (f : A -> json) (o : option A) : json :=
  match o with
  | Some a => f a
  | None => JNull
  end.

Definition dump_ActionItem (a : ActionItem) : json :=
  JObject [("action", JString (action a)); ("owner", JString (owner a));
           ("due_date", JString (due_date a)); ("confidence", JString (confidence a))].

Definition dump_ClaimVerification (c : ClaimVerification) : json :=
  JObject [("claim", JString (claim c)); ("verdict", JString (verdict c));
           ("supporting_sources", dump_strs (supporting_sources c));
           ("explanation", JString (explanation c))].

Definition dump_VerificationReport (r : VerificationReport) : json :=
  JObject
    [("overall_verdict", JString (overall_verdict r));
     ("verified_claims", JArray (map dump_ClaimVerification (verified_claims r)));
     ("unsupported_claims", dump_strs (unsupported_claims r));
     ("suggestions", dump_strs (suggestions r));
     ("corrected_executive_summary", dump_opt JString (corrected_executive_summary r));
     ("corrected_client_email", dump_opt JString (corrected_client_email r));
     ("corrected_action_items",
      dump_opt (fun l => JArray (map dump_ActionItem l)) (corrected_action_items r))].

(** [o is not None] *)
Definition present {A} (o : option A) : bool :=
  match o with
  | Some _ => true
  | None => false
  end.

(** The rule the specification states for the corrected fields: all
    three present when the verdict is not PASS, all three absent when it
    is. *)
Definition corrections_match_verdict (r : VerificationReport) : bool :=
  if String.eqb (overall_verdict r) "PASS" then
    negb (present (corrected_executive_summary r))
    && negb (present (corrected_client_email r))
    && negb (present (corrected_action_items r))
  else
    present (corrected_executive_summary r)
    && present (corrected_client_email r)
    && present (corrected_action_items r).

End Models.

(** ** The deliver stage *)

Module Orchestrator.
Import Models.

(** The pipeline result of [copilot_agents/models.py], with the plan and
    the research notes kept abstract. *)
Record PipelineResult (Plan Notes : Type) : Type := {
  plan : Plan;
  research : Notes;
  draft : Deliverable;
  verification : VerificationReport;
  final_deliverable : Deliverable
}.
Arguments plan {Plan Notes} _.
Arguments research {Plan Notes} _.
Arguments draft {Plan Notes} _.
Arguments verification {Plan Notes} _.
Arguments final_deliverable {Plan Notes} _.

(** Modelled from the spec: the merge of the deliver stage, which lives in
    [copilot_agents/orchestrator.py], a file that is not among the sources
    at hand. If [overall_verdict == PASS] the final deliverable is the
    draft; otherwise it is reconstructed by substituting each corrected
    field where present and falling back to the original field where a
    correction was not supplied. *)
Definition merge_corrections (d : Deliverable) (v : VerificationReport) : Deliverable :=
  if String.eqb (overall_verdict v) "PASS" then d
  else
    {| executive_summary := default (executive_summary d) (corrected_executive_summary v);
       client_email := default (client_email d) (corrected_client_email v);
       action_items := default (action_items d) (corrected_action_items v);
       sources := sources d |}.

(** Modelled from the spec: the deliver stage builds the pipeline result
    from the outputs of the four stages before it. *)
Definition deliver {Plan Notes} (p : Plan) (n : Notes) (d : Deliverable)
    (v : VerificationReport) : PipelineResult Plan Notes :=
  {| plan := p; research := n; draft := d; verification := v;
     final_deliverable := merge_corrections d v |}.

End Orchestrator.

(** ** Sample data *)

Module Samples.
Import Config Retrieval.

Definition page_text : string :=
  "Cycle counts at the store level drifted from the system of record by four percent in the first quarter, and the gap widened wherever returns were restocked without a scan at the service desk or the back room.".

Definition md_inventory : Metadata :=
  {| md_document_name := Some "inventory.pdf";
     md_page_number := Some 3;
     md_chunk_index := Some 0;
     md_citation := Some "inventory.pdf, Page 3, Chunk 0" |}.

Definition md_returns : Metadata :=
  {| md_document_name := Some "returns.pdf";
     md_page_number := Some 7;
     md_chunk_index := Some 2;
     md_citation := Some "returns.pdf, Page 7, Chunk 2" |}.

Definition hits (docs : list string) (mds : list (option Metadata)) (ds : list Q)
    : QueryResult :=
  {| documents := Some [docs]; metadatas := Some [mds]; distances := Some [ds] |}.

(** The embedding gateway of the samples: one number per text. *)
Definition sample_embedding (t : string) : Embedding :=
  if String.eqb t "inventory accuracy" then [1%Q]
  else if String.eqb t "stock counts" then [2%Q]
  else if String.eqb t "restocking returns" then [3%Q]
  else [0%Q].

(** The index of the samples. The chunk of [inventory.pdf] is at distance
    0.1 from the first query and 0.3 from the second; the chunk of
    [returns.pdf] is at distance 0.2 from the third query and 0.58 from
    the first. *)
Definition sample_collection : Collection :=
  {| query := fun e k =>
       if k <=? 0 then Raise "TypeError"
       else
         match e with
         | [x] =>
             if Qeq_bool x 1 then
               Ok (hits ["Cycle counts drifted."; "Returns were restocked."]
                        [Some md_inventory; Some md_returns] [Float.lit (1 # 10); Float.lit (58 # 100)])
             else if Qeq_bool x 2 then
               Ok (hits ["Cycle counts drifted."] [Some md_inventory] [Float.lit (3 # 10)])
             else if Qeq_bool x 3 then
               Ok (hits ["Returns were restocked."] [Some md_returns] [Float.lit (2 # 10)])
             else Ok (hits [] [] [])
         | _ => Raise "ValueError"
         end |}.

Definition sample_env : Env :=
  {| client_get_collection := fun name =>
       if String.eqb name COLLECTION_NAME then Ok sample_collection
       else Raise "ValueError";
     generate_embeddings := fun texts _ => Ok (map sample_embedding texts) |}.

(** An environment without a collection, and one whose embedding call
    fails. *)
Definition env_without_collection : Env :=
  {| client_get_collection := fun _ => Raise "ValueError";
     generate_embeddings := fun texts _ => Ok (map sample_embedding texts) |}.

Definition env_without_embeddings : Env :=
  {| client_get_collection := client_get_collection sample_env;
     generate_embeddings := fun _ _ => Raise "Exception" |}.

(** An index with one chunk, at distance 0.58 from every query. *)
Definition env_single : Env :=
  {| client_get_collection := fun _ =>
       Ok {| query := fun _ _ =>
               Ok (hits ["Returns were restocked."] [Some md_returns] [Float.lit (58 # 100)]) |};
     generate_embeddings := fun texts _ => Ok (map sample_embedding texts) |}.

Definition initial_state : State := {| collection_cache := ∅; calls := [] |}.

Definition chunk_inventory (score : Q) : RetrievedChunk :=
  make_chunk "Cycle counts drifted." md_inventory score.

Definition chunk_returns (score : Q) : RetrievedChunk :=
  make_chunk "Returns were restocked." md_returns score.

Definition sample_draft : Models.Deliverable :=
  {| Models.executive_summary := "Shrink fell by half.";
     Models.client_email := "Dear client, see the summary.";
     Models.action_items := [];
     Models.sources := ["inventory.pdf, Page 3, Chunk 0"] |}.

(** A report with verdict FAIL, a corrected summary and no corrected
    email. *)
Definition sample_report : Models.VerificationReport :=
  {| Models.overall_verdict := "FAIL";
     Models.verified_claims := [];
     Models.unsupported_claims := ["Shrink fell by half."];
     Models.suggestions := [];
     Models.corrected_executive_summary := Some "Not found in sources.";
     Models.corrected_client_email := None;
     Models.corrected_action_items := None |}.

End Samples.

(** ** Lists and ranges of Python *)

Module PyList.

(** [l[a:b]] *)
Definition slice {A} (l : list A) (a b : Z) : list A :=
  let n := Z.of_nat (length l) in
  let a' := Py.norm_index a n in
  let b' := Py.norm_index b n in
  firstn (Z.to_nat (b' - a')) (skipn (Z.to_nat a') l).

(** [list(range(0, n, step))] for a step other than zero and [0 <= n]:
    the multiples of a positive step below [n], nothing for a negative
    step. *)
Definition range_from_zero (n step : Z) : list Z :=
  if 0 <? step
  then map (fun k => Z.of_nat k * step) (seq 0 (Z.to_nat ((n + step - 1) / step)))
  else [].

(** [list(enumerate(l, start=i))] *)
Fixpoint enumerate {A} (i : Z) (l : list A) : list (Z * A) :=
  match l with
  | [] => []
  | x :: l' => (i, x) :: enumerate (i + 1) l'
  end.

(** [c in s] for a character [c]. *)
Fixpoint has_char (c : ascii) (s : string) : bool :=
  match s with
  | EmptyString => false
  | String x s' => Ascii.eqb x c || has_char c s'
  end.

End PyList.

(** ** retrieval/ingestion.py: documents *)

Module Documents.
Import Config Ingestion.

(** A value of a metadata dictionary. *)
Inductive MetaValue : Type :=
| MStr (s : string)
| MInt (n : Z).

Record DocumentChunk : Type := {
  chunk_id : string;
  text : string;
  document_name : string;
  page_number : Z;
  chunk_index : Z;
  metadata : PyDict.dict MetaValue
}.

(** [chunk.get_citation()] *)
Definition get_citation (chunk : DocumentChunk) : string :=
  document_name chunk +:+ ", Page " +:+ Py.str_of_int (page_number chunk)
  +:+ ", Chunk " +:+ Py.str_of_int (chunk_index chunk).

(** [id_string] of [generate_chunk_id]. *)
Definition id_string (name : string) (page index : Z) : string :=
  name +:+ "_" +:+ Py.str_of_int page +:+ "_" +:+ Py.str_of_int index.

(** [generate_chunk_id(document_name, page_number, chunk_index)]; [md5]
    is [lambda s: hashlib.md5(s.encode()).hexdigest()]. *)
Definition generate_chunk_id (md5 : string -> string) (name : string)
    (page index : Z) : string :=
  md5 (id_string name page index).

(** A PDF file as [load_pdf] sees it: its name and path, whether it
    exists, and what reading it gives, the extracted text of each page in
    order or an exception. *)
Record PdfFile : Type := {
  pdf_name : string;
  pdf_path : string;
  pdf_exists : bool;
  pdf_pages : outcome (list string)
}.

(** [load_pdf(pdf_path)]: the pages numbered from 1, without the pages
    whose text is empty or blank. *)
Definition load_pdf (f : PdfFile) : outcome (list (Z * string)) :=
  if negb (pdf_exists f) then Raise "FileNotFoundError"
  else
    match pdf_pages f with
    | Raise _ => Raise "Exception"
    | Ok texts =>
        Ok (List.filter
              (fun page => Py.truthy (snd page) && Py.truthy (Py.strip (snd page)))
              (PyList.enumerate 1 texts))
    end.

(** [chunk_text(page_text)] with the parameters of the configuration.
    A fuel above the length of the text is enough for the loop to return
    its list, so the last branch is not taken. *)
Definition chunk_text_default (page_text : string) : list string :=
  match chunk_text (S (String.length page_text)) page_text CHUNK_SIZE CHUNK_OVERLAP with
  | Some (Ok chunks) => chunks
  | _ => []
  end.

(** The chunks that [process_document] makes of one page. *)
Definition page_chunks (md5 : string -> string) (f : PdfFile)
    (page : Z) (page_text : string) : list DocumentChunk :=
  let text_chunks := chunk_text_default page_text in
  map (fun ic =>
         {| chunk_id := generate_chunk_id md5 (pdf_name f) page (fst ic);
            text := snd ic;
            document_name := pdf_name f;
            page_number := page;
            chunk_index := fst ic;
            metadata :=
              [("file_path", MStr (pdf_path f));
               ("total_chunks_on_page", MInt (Z.of_nat (length text_chunks)));
               ("chunk_size", MInt (Py.len (snd ic)))] |})
      (PyList.enumerate 0 text_chunks).

(** [process_document(pdf_path)]: no chunk when the file cannot be
    loaded. *)
Definition process_document (md5 : string -> string) (f : PdfFile)
    : list DocumentChunk :=
  match load_pdf f with
  | Raise _ => []
  | Ok pages => flat_map (fun page => page_chunks md5 f (fst page) (snd page)) pages
  end.


End Documents.

(** ** retrieval/indexing.py *)

Module Indexing.
Import Config Retrieval.

Section WithEnv.
Variable env : Env.

(** The loop of [batch_generate_embeddings] over the batches. *)
Fixpoint embed_batches (batches : list (list string)) (model : string)
    (all_embeddings : list Embedding) : M (list Embedding) :=
  match batches with
  | [] => ret all_embeddings
  | batch :: batches' =>
      do_ record_call (CallGenerateEmbeddings batch model);
      do embeddings <- lift (generate_embeddings env batch model);
      embed_batches batches' model (all_embeddings ++ embeddings)
  end.

(** [[texts[i:i + batch_size] for i in range(0, len(texts), batch_size)]] *)
Definition batches_of (texts : list string) (batch_size : Z) : list (list string) :=
  map (fun i => PyList.slice texts i (i + batch_size))
      (PyList.range_from_zero (Z.of_nat (length texts)) batch_size).

(** [batch_generate_embeddings(texts, batch_size, model)]. The number of
    batches is computed first, by a division by [batch_size]. *)
Definition batch_generate_embeddings (texts : list string) (batch_size : Z)
    (model : string) : M (list Embedding) :=
  if batch_size =? 0 then lift (Raise "ZeroDivisionError")
  else embed_batches (batches_of texts batch_size) model [].

End WithEnv.

(** The state after the external calls [cs] were made and recorded. *)
Definition after_calls (st : State) (cs : list Call) : State :=
  {| collection_cache := collection_cache st; calls := calls st ++ cs |}.

(** The metadata that [index_chunks] stores with a chunk: the four keys
    of the index, then the keys of the chunk's own metadata, which
    replace the value of a key that is there already. *)
Definition stored_metadata (chunk : Documents.DocumentChunk)
    : PyDict.dict Documents.MetaValue :=
  fold_left (fun d kv => PyDict.set (fst kv) (snd kv) d)
    (Documents.metadata chunk)
    [("document_name", Documents.MStr (Documents.document_name chunk));
     ("page_number", Documents.MInt (Documents.page_number chunk));
     ("chunk_index", Documents.MInt (Documents.chunk_index chunk));
     ("citation", Documents.MStr (Documents.get_citation chunk))].

(** [d.get(k)] *)
Definition dict_get {V} (k : string) (d : PyDict.dict V) : option V :=
  match find (fun kv => String.eqb (fst kv) k) d with
  | Some kv => Some (snd kv)
  | None => None
  end.

(** A key read as a string, or as an integer: [Some None] when the key
    is absent, [None] when its value has the other type. *)
Definition str_field (k : string) (d : PyDict.dict Documents.MetaValue)
    : option (option string) :=
  match dict_get k d with
  | None => Some None
  | Some (Documents.MStr s) => Some (Some s)
  | Some (Documents.MInt _) => None
  end.

Definition int_field (k : string) (d : PyDict.dict Documents.MetaValue)
    : option (option Z) :=
  match dict_get k d with
  | None => Some None
  | Some (Documents.MInt n) => Some (Some n)
  | Some (Documents.MStr _) => None
  end.

(** A stored metadata dictionary as [search_documents] reads it, when
    the four keys it reads hold values of the types it expects. *)
Definition metadata_view (d : PyDict.dict Documents.MetaValue) : option Metadata :=
  match str_field "document_name" d, int_field "page_number" d,
        int_field "chunk_index" d, str_field "citation" d with
  | Some name, Some page, Some index, Some cite =>
      Some {| md_document_name := name;
              md_page_number := page;
              md_chunk_index := index;
              md_citation := cite |}
  | _, _, _, _ => None
  end.

End Indexing.

(** ** retrieval/retrieval.py: the rows of an answer *)

Module RetrievalRows.
Import Retrieval.

(** [zip(documents[0], metadatas[0] if metadatas else [], distances[0] if
    distances else [])], with no row when [documents] is absent or
    empty. *)
Definition rows_of (results : QueryResult) : list (string * (option Metadata * Q)) :=
  combine (first_or_empty (documents results))
          (combine (first_or_empty (metadatas results))
                   (first_or_empty (distances results))).

(** The row passes the threshold: its similarity, the float
    [1 - distance], is not below the minimum score. *)
Definition passes (min_score : Q) (row : string * (option Metadata * Q)) : bool :=
  negb (score_lt (Float.sub 1 (snd (snd row))) min_score).

End RetrievalRows.

(** ** More sample data *)

Module MoreSamples.
Import Documents.

(** A stand-in for the MD5 digest. *)
Definition sample_md5 (s : string) : string := "md5:" +:+ s.

(** A PDF of three pages: an empty page, the sample page, a blank page. *)
Definition sample_pdf : PdfFile :=
  {| pdf_name := "inventory.pdf";
     pdf_path := "data/inventory.pdf";
     pdf_exists := true;
     pdf_pages := Ok [""; Samples.page_text; "   "] |}.

Definition sample_document_chunk : DocumentChunk :=
  {| chunk_id := sample_md5 "inventory.pdf_2_0";
     text := Samples.page_text;
     document_name := "inventory.pdf";
     page_number := 2;
     chunk_index := 0;
     metadata := [("file_path", MStr "data/inventory.pdf");
                  ("total_chunks_on_page", MInt 1);
                  ("chunk_size", MInt 208)] |}.

(** A gateway that fails on every batch that holds the text
    [stock counts]. *)
Definition env_flaky : Retrieval.Env :=
  {| Retrieval.client_get_collection := Retrieval.client_get_collection Samples.sample_env;
     Retrieval.generate_embeddings := fun texts _ =>
       if existsb (String.eqb "stock counts") texts then Raise "RateLimitError"
       else Ok (map Samples.sample_embedding texts) |}.

(** An index whose one hit has no metadata. *)
Definition env_bare_hit : Retrieval.Env :=
  {| Retrieval.client_get_collection := fun _ =>
       Ok {| Retrieval.query := fun _ _ =>
               Ok {| Retrieval.documents := Some [["Cycle counts drifted."]];
                     Retrieval.metadatas := Some [[None]];
                     Retrieval.distances := Some [[Float.lit (1 # 10)]] |} |};
     Retrieval.generate_embeddings := fun texts _ =>
       Ok (map Samples.sample_embedding texts) |}.



End MoreSamples.

(** * Properties *)

(** ** Strings *)

Module PyFacts.
Import Py.

Lemma rstrip_cons c s :
  rstrip (String c s) =
  match rstrip s with
  | EmptyString => if isspace c then EmptyString else String c EmptyString
  | r => String c r
  end.
Proof. reflexivity. Qed.

Lemma rstrip_idem s : rstrip (rstrip s) = rstrip s.
Proof.
  induction s as [|c s IH]; [reflexivity|].
  rewrite rstrip_cons.
  destruct (rstrip s) as [|a r] eqn:E.
  - destruct (isspace c) eqn:Hc; [reflexivity|].
    rewrite rstrip_cons. simpl. now rewrite Hc.
  - rewrite rstrip_cons, IH. reflexivity.
Qed.

Lemma lstrip_head s :
  lstrip s = EmptyString \/
  exists c t, lstrip s = String c t /\ isspace c = false.
Proof.
  induction s as [|c s IH]; [now left|].
  simpl. destruct (isspace c) eqn:Hc; [exact IH|].
  right. now exists c, s.
Qed.

Lemma rstrip_keeps_head c t :
  isspace c = false -> exists t', rstrip (String c t) = String c t'.
Proof.
  intros Hc. rewrite rstrip_cons.
  destruct (rstrip t) as [|a r].
  - rewrite Hc. now exists EmptyString.
  - now exists (String a r).
Qed.

Lemma strip_idem s : strip (strip s) = strip s.
Proof.
  unfold strip.
  destruct (lstrip_head s) as [E | (c & t & E & Hc)]; rewrite E.
  - reflexivity.
  - destruct (rstrip_keeps_head c t Hc) as [t' Et].
    rewrite Et. simpl. rewrite Hc, <- Et. apply rstrip_idem.
Qed.

Lemma length_lstrip s : (String.length (lstrip s) <= String.length s)%nat.
Proof.
  induction s as [|c s IH]; simpl; [lia|].
  destruct (isspace c); simpl; lia.
Qed.

Lemma length_rstrip s : (String.length (rstrip s) <= String.length s)%nat.
Proof.
  induction s as [|c s IH]; [simpl; lia|].
  rewrite rstrip_cons.
  destruct (rstrip s); [destruct (isspace c)|]; simpl in *; lia.
Qed.

Lemma len_strip s : len (strip s) <= len s.
Proof.
  unfold len, strip.
  pose proof (length_rstrip (lstrip s)). pose proof (length_lstrip s). lia.
Qed.

Lemma length_substring_le s :
  forall n m, (String.length (substring n m s) <= String.length s)%nat.
Proof.
  induction s as [|c s IH]; intros [|n] [|m]; simpl; try lia.
  - specialize (IH 0%nat m). lia.
  - specialize (IH n 0%nat). lia.
  - specialize (IH n (S m)). lia.
Qed.

Lemma len_slice s a b : len (slice s a b) <= len s.
Proof.
  unfold slice, len.
  apply Nat2Z.inj_le, length_substring_le.
Qed.

Lemma get_in_range s :
  forall n, (n < String.length s)%nat -> exists c, String.get n s = Some c.
Proof.
  induction s as [|c s IH]; intros n Hn; simpl in Hn; [lia|].
  destruct n as [|n]; simpl; [now exists c|].
  apply IH. lia.
Qed.

Lemma getitem_in_range s i :
  0 <= i < len s -> exists c, getitem s i = Ok c.
Proof.
  intros Hi. unfold getitem.
  destruct (i <? 0) eqn:Hneg; [lia|].
  replace ((0 <=? i) && (i <? len s)) with true
    by (symmetry; apply andb_true_iff; lia).
  destruct (get_in_range s (Z.to_nat i)) as [c Hc]; [unfold len in Hi; lia|].
  rewrite Hc. now exists c.
Qed.

End PyFacts.

(** ** Floats *)

Module FloatFacts.

(** The literals of the samples, as the interpreter reads them. *)
Example lit_samples :
  Float.lit (1 # 10) = 3602879701896397 # 36028797018963968 /\
  Float.lit (9 # 10) = 8106479329266893 # 9007199254740992 /\
  Float.lit (3 # 10) = 5404319552844595 # 18014398509481984 /\
  Float.lit (1 # 2) = 1 # 2.
Proof. repeat split; vm_compute; reflexivity. Qed.

(** A literal is a float; the decimal number it is written as need not
    be one. *)
Example lit_is_float :
  Float.is_float (Float.lit (3 # 10)) = true /\ Float.is_float (3 # 10) = false /\
  Float.is_float (Float.sub 1 (Float.lit (58 # 100))) = true /\
  Float.is_float (1 - Float.lit (1 # 10)) = false.
Proof. repeat split; vm_compute; reflexivity. Qed.

(** The subtraction rounds. [1 - 0.1] is the float [0.9], though the
    exact difference is below it; [1 - 0.58] is the float
    0.42000000000000004, the upper neighbour of the float [0.42]. *)
Example sub_rounds :
  Float.sub 1 (Float.lit (1 # 10)) = Float.lit (9 # 10) /\
  (1 - Float.lit (1 # 10) < Float.lit (9 # 10))%Q /\
  Float.sub 1 (Float.lit (58 # 100)) = 3783023686991217 # 9007199254740992 /\
  (Float.lit (42 # 100) < Float.sub 1 (Float.lit (58 # 100)))%Q.
Proof. repeat split; vm_compute; reflexivity. Qed.

(** On floats [m * 2^e] the subtraction is the one of the IEEE 754
    specification of the standard library, in the format with 53 bits
    and the exponent bound 1024: checked for [1 - d] at the sample
    distances, at the ends of the range of a cosine distance, next to
    1, in the subnormal range and at the largest float. *)
Example sub_agrees_with_binary64 :
  Forall (fun d =>
            Float.value (SpecFloat.SFsub 53 1024 (Float.binary64 1 0)
                           (Float.binary64 (fst d) (snd d)))
            = Some (Float.sub 1 (Float.scale (fst d) (snd d))))
    [(3602879701896397, -55); (5224175567749775, -53); (5404319552844595, -54);
     (3602879701896397, -54); (0, 0); (1, 0); (2, 0); (-1, -20);
     (9007199254740991, -53); (4503599627370497, -52); (1, -53); (1, -54);
     (3, -55); (1, -1074); (-1, -1074); (4503599627370495, -1074);
     (9007199254740991, 971); (-9007199254740991, 971); (123456789, -3)].
Proof. repeat constructor. Qed.

(** *** The error of a rounding *)

Lemma round_half_even_near a d :
  0 <= a -> 0 < d ->
  - d <= 2 * (Py.round_half_even a d * d - a) <= d.
Proof.
  intros Ha Hd. unfold Py.round_half_even.
  pose proof (Z.div_mod a d ltac:(lia)) as Hdiv.
  pose proof (Z.mod_pos_bound a d Hd) as Hmod.
  destruct (2 * (a mod d) <? d) eqn:E1; [apply Z.ltb_lt in E1; nia|].
  apply Z.ltb_ge in E1.
  destruct (d <? 2 * (a mod d)) eqn:E2; [apply Z.ltb_lt in E2; nia|].
  apply Z.ltb_ge in E2.
  destruct (Z.even (a / d)); nia.
Qed.

Lemma log2_floor_le_0 n d : 0 < n <= d -> Float.log2_floor n d <= 0.
Proof.
  intros H. unfold Float.log2_floor.
  pose proof (Z.log2_le_mono n d ltac:(lia)) as Hlog.
  destruct (0 <=? Z.log2 n - Z.log2 d);
    match goal with |- context [if ?b then _ else _] => destruct b end; lia.
Qed.

Lemma exponent_small n d :
  0 < n <= d -> Float.emin <= Float.exponent n d <= -52.
Proof.
  intros H. unfold Float.exponent, Float.emin, Float.prec.
  pose proof (log2_floor_le_0 n d H). lia.
Qed.

(** A rational between -1 and 1 is rounded to a float within [2^-53]
    of it. *)
Lemma round_near x :
  (-1 <= x <= 1)%Q ->
  (x - Float.unit_roundoff <= Float.round x <= x + Float.unit_roundoff)%Q.
Proof.
  unfold Float.unit_roundoff.
  destruct x as [num den]. intros [Hlo Hhi].
  unfold Qle in Hlo, Hhi. simpl in Hlo, Hhi.
  unfold Float.round. simpl Qnum. simpl Qden.
  destruct (Z.abs num =? 0) eqn:E0.
  { apply Z.eqb_eq in E0. assert (num = 0) by lia. subst num.
    unfold Qle, Qminus, Qplus, Qopp. simpl. lia. }
  apply Z.eqb_neq in E0.
  assert (Hn : 0 < Z.abs num <= Zpos den) by lia.
  pose proof (exponent_small _ _ Hn) as He.
  set (e := Float.exponent (Z.abs num) (Zpos den)) in *.
  unfold Float.emin in He.
  replace (0 <=? e) with false by (symmetry; apply Z.leb_gt; lia).
  unfold Float.scale.
  replace (0 <=? e) with false by (symmetry; apply Z.leb_gt; lia).
  rewrite Qred_correct.
  assert (HP : 2 ^ 52 <= 2 ^ (- e)) by (apply Z.pow_le_mono_r; lia).
  set (P := 2 ^ (- e)) in *.
  pose proof (round_half_even_near (Z.abs num * P) (Zpos den) ltac:(nia) ltac:(lia)) as Hm.
  set (m := Py.round_half_even (Z.abs num * P) (Zpos den)) in *.
  change (2 ^ 52) with 4503599627370496 in HP.
  unfold Qle, Qminus, Qplus, Qopp. simpl Qnum. simpl Qden.
  rewrite !Pos2Z.inj_mul, Z2Pos.id by lia.
  change (Zpos 9007199254740992) with 9007199254740992.
  destruct num as [|p|p]; [lia| |].
  - change (Z.sgn (Zpos p)) with 1. change (Z.abs (Zpos p)) with (Zpos p) in *.
    split; nia.
  - change (Z.sgn (Zneg p)) with (-1). change (Z.abs (Zneg p)) with (Zpos p) in *.
    split; nia.
Qed.

(** The float [1 - d] for a cosine distance [d], which lies between 0
    and 2. *)
Lemma sub_one_near d :
  (0 <= d <= 2)%Q ->
  (1 - d - Float.unit_roundoff <= Float.sub 1 d <= 1 - d + Float.unit_roundoff)%Q.
Proof.
  intros H. unfold Float.sub. apply round_near. lra.
Qed.

End FloatFacts.

(** ** Chunker *)

Module IngestionFacts.
Import Config Ingestion.

Lemma window_end_ok text chunk_size start :
  0 <= start -> 0 < chunk_size ->
  exists e, window_end text chunk_size start = Ok e.
Proof.
  intros Hs Hc. unfold window_end.
  destruct (start + chunk_size <? Py.len text) eqn:Hlt; [|eauto].
  apply Z.ltb_lt in Hlt.
  destruct (PyFacts.getitem_in_range text (start + chunk_size)) as [c ->]; [lia|].
  destruct (negb (Ascii.eqb c " ")); [|eauto].
  destruct (start <? Py.rfind_char " " text start (start + chunk_size)); eauto.
Qed.

(** Whatever right edge the window gets, the next window starts
    [chunk_size - chunk_overlap] further. *)
Lemma chunk_body_next text chunk_size chunk_overlap start chunks start' chunks' :
  chunk_body text chunk_size chunk_overlap start chunks = Ok (start', chunks') ->
  start' = start + (chunk_size - chunk_overlap) /\
  (chunks' = chunks \/
   exists c, chunks' = chunks ++ [Py.strip c] /\
             MIN_CHUNK_SIZE <= Py.len (Py.strip c) /\ Py.len c <= Py.len text).
Proof.
  unfold chunk_body.
  destruct (window_end text chunk_size start) as [e|]; [|discriminate].
  intros H. injection H as <- <-. split; [reflexivity|].
  destruct (MIN_CHUNK_SIZE <=? Py.len (Py.strip (Py.slice text start e))) eqn:Hmin;
    [right | now left].
  exists (Py.slice text start e).
  split; [reflexivity|]. split; [now apply Z.leb_le | apply PyFacts.len_slice].
Qed.

Lemma chunk_body_ok text chunk_size chunk_overlap start chunks :
  0 <= start -> 0 < chunk_size ->
  exists chunks',
    chunk_body text chunk_size chunk_overlap start chunks
    = Ok (start + (chunk_size - chunk_overlap), chunks').
Proof.
  intros Hs Hc. unfold chunk_body.
  destruct (window_end_ok text chunk_size start Hs Hc) as [e ->]. eauto.
Qed.

(** A property of chunks that every appended chunk has holds of the
    whole result, whatever the parameters and the fuel. *)
Lemma chunk_loop_invariant (P : string -> Prop) text chunk_size chunk_overlap :
  (forall c, MIN_CHUNK_SIZE <= Py.len (Py.strip c) ->
             Py.len c <= Py.len text -> P (Py.strip c)) ->
  forall fuel start chunks r,
    Forall P chunks ->
    chunk_loop fuel text chunk_size chunk_overlap start chunks = Some (Ok r) ->
    Forall P r.
Proof.
  intros HP. induction fuel as [|fuel IH]; intros start chunks r Hin; simpl; [discriminate|].
  destruct (start <? Py.len text).
  - destruct (chunk_body text chunk_size chunk_overlap start chunks)
      as [[start' chunks']|] eqn:Hb; [|discriminate].
    apply IH. apply chunk_body_next in Hb as [_ [-> | (c & -> & Hmin & Hlen)]]; [exact Hin|].
    apply Forall_app. split; [exact Hin|]. constructor; [now apply HP | constructor].
  - intros H. now injection H as <-.
Qed.

(** With a positive step the loop returns, and with the same list for
    every fuel above the distance left to the end of the text. *)
Lemma chunk_loop_total text chunk_size chunk_overlap :
  0 <= chunk_overlap < chunk_size ->
  forall (m : nat) start chunks,
    0 <= start -> (Z.to_nat (Py.len text - start) <= m)%nat ->
    exists r, forall fuel, (m < fuel)%nat ->
      chunk_loop fuel text chunk_size chunk_overlap start chunks = Some (Ok r).
Proof.
  intros Hcfg. induction m as [|m IH]; intros start chunks Hs Hm.
  - exists chunks. intros [|fuel] Hf; [lia|]. simpl.
    destruct (start <? Py.len text) eqn:Hlt; [apply Z.ltb_lt in Hlt; lia | reflexivity].
  - destruct (start <? Py.len text) eqn:Hlt.
    + apply Z.ltb_lt in Hlt.
      destruct (chunk_body_ok text chunk_size chunk_overlap start chunks Hs)
        as [chunks' Hb]; [lia|].
      destruct (IH (start + (chunk_size - chunk_overlap)) chunks') as [r Hr]; [lia | lia |].
      exists r. intros [|fuel] Hf; [lia|]. simpl.
      apply Z.ltb_lt in Hlt. rewrite Hlt, Hb. apply Hr. lia.
    + exists chunks. intros [|fuel] Hf; [lia|]. simpl. now rewrite Hlt.
Qed.

(** C9. With [0 <= chunk_overlap < chunk_size], every iteration of the
    loop moves the window start forward by the positive amount
    [chunk_size - chunk_overlap], whether or not the right edge was
    retracted, and [chunk_text] returns a list: every fuel above the
    length of the text yields the same result. *)
Theorem chunk_text_terminates text chunk_size chunk_overlap :
  0 <= chunk_overlap < chunk_size ->
  0 < chunk_size - chunk_overlap /\
  (forall start chunks, 0 <= start ->
     exists chunks',
       chunk_body text chunk_size chunk_overlap start chunks
       = Ok (start + (chunk_size - chunk_overlap), chunks')) /\
  exists chunks, forall fuel, (String.length text < fuel)%nat ->
    chunk_text fuel text chunk_size chunk_overlap = Some (Ok chunks).
Proof.
  intros Hcfg. split; [lia|]. split.
  - intros start chunks Hs. apply chunk_body_ok; lia.
  - unfold chunk_text.
    apply (chunk_loop_total text chunk_size chunk_overlap Hcfg (String.length text) 0 []);
      [lia | unfold Py.len; lia].
Qed.

Lemma chunk_text_terminates_witness :
  0 < 5 - 2 /\
  (forall start chunks, 0 <= start ->
     exists chunks',
       chunk_body "stock counts drift" 5 2 start chunks = Ok (start + (5 - 2), chunks')) /\
  exists chunks, forall fuel, (String.length "stock counts drift" < fuel)%nat ->
    chunk_text fuel "stock counts drift" 5 2 = Some (Ok chunks).
Proof. apply (chunk_text_terminates "stock counts drift" 5 2). lia. Defined.

(** C8. Minimum-size floor. Whatever the parameters, every chunk of a
    list that [chunk_text] returns has at least [MIN_CHUNK_SIZE]
    characters after stripping and equals its own strip, and the list is
    empty when the text is shorter than [MIN_CHUNK_SIZE]. With
    [0 <= chunk_overlap < chunk_size], as in the configuration, the call
    does return such a list. *)
Theorem chunk_text_min_size text chunk_size chunk_overlap :
  (forall fuel chunks,
     chunk_text fuel text chunk_size chunk_overlap = Some (Ok chunks) ->
     Forall (fun c => MIN_CHUNK_SIZE <= Py.len (Py.strip c) /\ Py.strip c = c) chunks /\
     (Py.len text < MIN_CHUNK_SIZE -> chunks = [])) /\
  (0 <= chunk_overlap < chunk_size ->
   exists chunks,
     (forall fuel, (String.length text < fuel)%nat ->
        chunk_text fuel text chunk_size chunk_overlap = Some (Ok chunks)) /\
     Forall (fun c => MIN_CHUNK_SIZE <= Py.len (Py.strip c) /\ Py.strip c = c) chunks /\
     (Py.len text < MIN_CHUNK_SIZE -> chunks = [])).
Proof.
  assert (Hpartial : forall fuel chunks,
     chunk_text fuel text chunk_size chunk_overlap = Some (Ok chunks) ->
     Forall (fun c => MIN_CHUNK_SIZE <= Py.len (Py.strip c) /\ Py.strip c = c) chunks /\
     (Py.len text < MIN_CHUNK_SIZE -> chunks = [])).
  { intros fuel chunks H. unfold chunk_text in H. split.
    - eapply chunk_loop_invariant; [| constructor | exact H].
      intros c Hmin _. rewrite PyFacts.strip_idem. now split.
    - intros Hshort.
      assert (Hnone : Forall (fun _ : string => False) chunks).
      { eapply chunk_loop_invariant; [| constructor | exact H].
        intros c Hmin Hlen. pose proof (PyFacts.len_strip c). lia. }
      destruct chunks as [|c chunks]; [reflexivity|]. now inversion Hnone. }
  split; [exact Hpartial|].
  intros Hcfg.
  destruct (chunk_loop_total text chunk_size chunk_overlap Hcfg (String.length text) 0 [])
    as [chunks Hrun]; [lia | unfold Py.len; lia |].
  exists chunks. split; [exact Hrun|].
  apply (Hpartial (S (String.length text))). apply Hrun. lia.
Qed.

End IngestionFacts.

(** ** Retriever *)

Module RetrievalFacts.
Import Config Retrieval.

(** *** The monad *)

Lemma bind_ok {A B} (m : M A) (k : A -> M B) st b st' :
  bind m k st = (Ok b, st') ->
  exists a st1, m st = (Ok a, st1) /\ k a st1 = (Ok b, st').
Proof.
  unfold bind. destruct (m st) as [[a|e] st1]; [eauto | discriminate].
Qed.

Lemma get_collection_total env name st :
  exists oc st1, get_collection env name st = (Ok oc, st1).
Proof.
  unfold get_collection, bind, try_except, cache_lookup, record_call, lift, cache_store, ret.
  simpl. destruct (collection_cache st !! name); [eauto|].
  destruct (client_get_collection env name); eauto.
Qed.

(** *** The threshold of [search_documents] *)

Lemma score_lt_false x y : score_lt x y = false -> (y <= x)%Q.
Proof.
  unfold score_lt. intros H. apply negb_false_iff in H. now apply Qle_bool_iff.
Qed.

Lemma collect_chunks_above rows min_score :
  forall acc r,
    Forall (fun c => (min_score <= similarity_score c)%Q) acc ->
    collect_chunks rows min_score acc = Ok r ->
    Forall (fun c => (min_score <= similarity_score c)%Q) r.
Proof.
  induction rows as [|[doc [md distance]] rows IH]; intros acc r Hacc; simpl.
  - intros H. now injection H as <-.
  - destruct (score_lt (Float.sub 1 distance) min_score) eqn:Hlt; [now apply IH|].
    destruct md as [md|]; [|discriminate].
    apply IH. apply Forall_app. split; [exact Hacc|].
    constructor; [|constructor]. simpl. now apply score_lt_false.
Qed.

Lemma chunks_of_results_above results min_score r :
  chunks_of_results results min_score = Ok r ->
  Forall (fun c => (min_score <= similarity_score c)%Q) r.
Proof.
  unfold chunks_of_results.
  destruct (documents results) as [[|[|doc docs] rest]|];
    try (intros H; injection H as <-; constructor).
  apply collect_chunks_above. constructor.
Qed.

(** What a returning call of [search_documents] returns: nothing, or the
    chunks built from the answer of the index. *)
Lemma search_documents_ok env query_text top_k min_score name st r st' :
  search_documents env query_text top_k min_score name st = (Ok r, st') ->
  r = [] \/ exists results, chunks_of_results results min_score = Ok r.
Proof.
  unfold search_documents. intros H.
  apply bind_ok in H as (oc & st1 & _ & H).
  destruct oc as [c|]; [|injection H as <- _; now left].
  apply bind_ok in H as (oe & st2 & _ & H).
  destruct oe as [e|]; [|injection H as <- _; now left].
  apply bind_ok in H as (ores & st3 & _ & H).
  destruct ores as [results|]; [|injection H as <- _; now left].
  unfold lift in H. injection H as H _. right. now exists results.
Qed.

Lemma search_documents_above env query_text top_k min_score name st r st' :
  search_documents env query_text top_k min_score name st = (Ok r, st') ->
  Forall (fun c => (min_score <= similarity_score c)%Q) r.
Proof.
  intros H. apply search_documents_ok in H as [-> | [results H]]; [constructor|].
  now apply chunks_of_results_above in H.
Qed.

(** *** The sort *)

Lemma insert_by_score_perm c l : Permutation (insert_by_score c l) (c :: l).
Proof.
  induction l as [|h t IH]; simpl; [reflexivity|].
  destruct (Qle_bool (similarity_score c) (similarity_score h)); [|reflexivity].
  rewrite IH. apply perm_swap.
Qed.

Lemma fold_insert_perm l :
  forall acc,
    Permutation (fold_left (fun sorted chunk => insert_by_score chunk sorted) l acc)
                (acc ++ l).
Proof.
  induction l as [|c l IH]; intros acc; simpl.
  - now rewrite app_nil_r.
  - rewrite IH, insert_by_score_perm. now rewrite <- Permutation_middle.
Qed.

Lemma sort_by_score_desc_perm l : Permutation (sort_by_score_desc l) l.
Proof. unfold sort_by_score_desc. now rewrite fold_insert_perm. Qed.

Lemma insert_by_score_sorted c l :
  sorted_by_score_desc l -> sorted_by_score_desc (insert_by_score c l).
Proof.
  unfold sorted_by_score_desc.
  induction l as [|h t IH]; intros Hs; simpl.
  - constructor; constructor.
  - apply StronglySorted_inv in Hs as [Ht Hh].
    destruct (Qle_bool (similarity_score c) (similarity_score h)) eqn:Hle.
    + constructor; [now apply IH|].
      rewrite insert_by_score_perm. constructor; [now apply Qle_bool_iff | exact Hh].
    + assert (Hhc : (similarity_score h <= similarity_score c)%Q).
      { destruct (Qlt_le_dec (similarity_score h) (similarity_score c)) as [Hlt|Hge].
        - now apply Qlt_le_weak.
        - apply Qle_bool_iff in Hge. congruence. }
      constructor; [now constructor|].
      constructor; [exact Hhc|].
      eapply Forall_impl; [exact Hh|]. simpl. intros a Ha.
      eapply Qle_trans; eassumption.
Qed.

Lemma sort_by_score_desc_sorted l : sorted_by_score_desc (sort_by_score_desc l).
Proof.
  unfold sort_by_score_desc.
  assert (H : forall acc, sorted_by_score_desc acc ->
            sorted_by_score_desc
              (fold_left (fun sorted chunk => insert_by_score chunk sorted) l acc)).
  { induction l as [|c l IH]; intros acc Hacc; simpl; [exact Hacc|].
    apply IH. now apply insert_by_score_sorted. }
  apply H. constructor.
Qed.

(** *** The merge of [multi_query_retrieval] *)

Lemma merge_inv_init : merge_inv ([], ∅).
Proof.
  split; simpl; [constructor|]. intros x. split; [|tauto].
  intros H. now apply not_elem_of_empty in H.
Qed.

Lemma add_unseen_inv acc c : merge_inv acc -> merge_inv (add_unseen acc c).
Proof.
  destruct acc as [all seen]. intros [Hnd Hseen]. unfold add_unseen.
  destruct (decide (chunk_id c ∈ seen)) as [Hin|Hout]; [now split|].
  split; simpl in *.
  - rewrite map_app. simpl. apply List.NoDup_app; [exact Hnd | |].
    + constructor; [intros [] | constructor].
    + intros x Hx [<-|[]]. apply Hout. now apply Hseen.
  - intros x. rewrite map_app, in_app_iff, elem_of_union, elem_of_singleton, Hseen.
    simpl. intuition congruence.
Qed.

Lemma fold_add_unseen_inv l :
  forall acc, merge_inv acc -> merge_inv (fold_left add_unseen l acc).
Proof.
  induction l as [|c l IH]; intros acc Hacc; simpl; [exact Hacc|].
  apply IH. now apply add_unseen_inv.
Qed.

(** The loop only appends. *)
Lemma add_unseen_grows acc c x : In x (fst acc) -> In x (fst (add_unseen acc c)).
Proof.
  destruct acc as [all seen]. unfold add_unseen.
  destruct (decide (chunk_id c ∈ seen)); simpl; [tauto|].
  intros H. apply in_app_iff. now left.
Qed.

Lemma fold_add_unseen_grows l :
  forall acc x, In x (fst acc) -> In x (fst (fold_left add_unseen l acc)).
Proof.
  induction l as [|c l IH]; intros acc x Hx; simpl; [exact Hx|].
  apply IH. now apply add_unseen_grows.
Qed.

(** Every chunk of the loop's result was there before or comes from the
    list. *)
Lemma fold_add_unseen_from l :
  forall acc x, In x (fst (fold_left add_unseen l acc)) -> In x (fst acc) \/ In x l.
Proof.
  induction l as [|c l IH]; intros acc x Hx; simpl in *; [now left|].
  apply IH in Hx as [Hx|Hx]; [|now right; right].
  destruct acc as [all seen]. unfold add_unseen in Hx.
  destruct (decide (chunk_id c ∈ seen)); simpl in Hx; [now left|].
  apply in_app_iff in Hx as [Hx|[<-|[]]]; [now left | now right; left].
Qed.

(** The first hit with an identifier that was not seen yet is kept. *)
Lemma fold_add_unseen_first l :
  forall acc X c,
    merge_inv acc ->
    ~ In X (map chunk_id (fst acc)) ->
    find (fun c => String.eqb (chunk_id c) X) l = Some c ->
    In c (fst (fold_left add_unseen l acc)).
Proof.
  induction l as [|h l IH]; intros acc X c Hinv Hnew Hfind; simpl in *; [discriminate|].
  destruct (String.eqb (chunk_id h) X) eqn:Hh.
  - injection Hfind as <-. apply String.eqb_eq in Hh. subst X.
    apply fold_add_unseen_grows.
    destruct acc as [all seen]. destruct Hinv as [_ Hseen]. unfold add_unseen.
    destruct (decide (chunk_id h ∈ seen)) as [Hin|Hout].
    + exfalso. apply Hnew. now apply Hseen.
    + simpl. apply in_app_iff. right. now left.
  - apply String.eqb_neq in Hh.
    apply (IH (add_unseen acc h) X c); [now apply add_unseen_inv | | exact Hfind].
    destruct acc as [all seen]. unfold add_unseen.
    destruct (decide (chunk_id h ∈ seen)); simpl in *; [exact Hnew|].
    rewrite map_app, in_app_iff. simpl. intuition congruence.
Qed.

(** A chunk that is already among [all_chunks] stops every later chunk
    of its identifier: the entry for the identifier stays the same. *)
Lemma filter_unique (l : list RetrievedChunk) c :
  List.NoDup (map chunk_id l) -> In c l ->
  List.filter (fun x => String.eqb (chunk_id x) (chunk_id c)) l = [c].
Proof.
  assert (Hnone : forall t, (forall x, In x t -> chunk_id x <> chunk_id c) ->
            List.filter (fun x => String.eqb (chunk_id x) (chunk_id c)) t = []).
  { induction t as [|y t IHt]; intros Hall; [reflexivity|]. simpl.
    destruct (String.eqb (chunk_id y) (chunk_id c)) eqn:Hy.
    - apply String.eqb_eq in Hy. exfalso. apply (Hall y); [now left | exact Hy].
    - apply IHt. intros x Hx. apply Hall. now right. }
  induction l as [|h t IH]; intros Hnd Hin; [destruct Hin|].
  simpl in Hnd. apply List.NoDup_cons_iff in Hnd as [Hh Ht]. simpl.
  destruct Hin as [->|Hin].
  - rewrite String.eqb_refl. f_equal. apply Hnone.
    intros x Hx Heq. apply Hh. rewrite <- Heq. now apply in_map.
  - destruct (String.eqb (chunk_id h) (chunk_id c)) eqn:Hy.
    + apply String.eqb_eq in Hy. exfalso. apply Hh. rewrite Hy. now apply in_map.
    + now apply IH.
Qed.

(** What the outer loop computes when every search returns. *)
Lemma collect_queries_ok env queries top_k min_score :
  forall acc st acc' st',
    collect_queries env queries top_k min_score acc st = (Ok acc', st') ->
    (merge_inv acc -> merge_inv acc') /\
    (forall P : RetrievedChunk -> Prop,
       (forall q st1 r st2,
          search_documents env q top_k min_score COLLECTION_NAME st1 = (Ok r, st2) ->
          Forall P r) ->
       Forall P (fst acc) -> Forall P (fst acc')).
Proof.
  induction queries as [|q queries IH]; intros acc st acc' st' H; simpl in H.
  - injection H as <- _. tauto.
  - apply bind_ok in H as (r & st1 & Hs & H).
    apply IH in H as [Hinv HP]. split.
    + intros Hacc. apply Hinv. now apply fold_add_unseen_inv.
    + intros P Hsearch Hacc. apply HP; [exact Hsearch|].
      apply List.Forall_forall. intros x Hx.
      apply fold_add_unseen_from in Hx as [Hx|Hx].
      * eapply List.Forall_forall in Hacc; eassumption.
      * apply Hsearch in Hs. eapply List.Forall_forall in Hs; eassumption.
Qed.

(** The chunks of a result of [multi_query_retrieval] are the sorted
    chunks of the loops. *)
Lemma multi_query_retrieval_ok env queries top_k min_score st res st' :
  multi_query_retrieval env queries top_k min_score st = (Ok res, st') ->
  exists acc,
    collect_queries env queries top_k min_score ([], ∅) st = (Ok acc, st') /\
    chunks res = sort_by_score_desc (fst acc).
Proof.
  unfold multi_query_retrieval. intros H.
  apply bind_ok in H as (acc & st1 & Hc & H).
  exists acc.
  destruct (sort_by_score_desc (fst acc)) as [|c l] eqn:Hsort;
    injection H as <- <-; now split.
Qed.

Lemma NoDup_ids_keys (l : list RetrievedChunk) :
  List.NoDup (map chunk_id l) -> List.NoDup (map chunk_key l).
Proof.
  intros H. apply (List.NoDup_map_inv id_of_key).
  rewrite List.map_map.
  erewrite List.map_ext; [exact H|]. now intros [].
Qed.

End RetrievalFacts.

(** ** Retriever: the claims *)

Module RetrievalClaims.
Import Config Retrieval RetrievalFacts Samples.

(** Every kept chunk is built from a row of the answer of the index, with
    similarity the float [1 - distance], at or above the floor. *)
Lemma collect_chunks_rows rows min_score :
  forall acc r,
    collect_chunks rows min_score acc = Ok r ->
    Forall (fun c => In c acc \/
                     exists doc md d, In (doc, (Some md, d)) rows /\
                                      c = make_chunk doc md (Float.sub 1 d) /\
                                      (min_score <= Float.sub 1 d)%Q) r.
Proof.
  induction rows as [|[doc [md d]] rows IH]; intros acc r; simpl.
  - intros H. injection H as <-. apply List.Forall_forall. now left.
  - destruct (score_lt (Float.sub 1 d) min_score) eqn:Hlt.
    + intros H. apply IH in H. eapply Forall_impl; [exact H|]. simpl.
      intros c [Hc|(doc' & md' & d' & Hin & Hc)]; [now left|].
      right. exists doc', md', d'. tauto.
    + destruct md as [md|]; [|discriminate].
      intros H. apply IH in H. eapply Forall_impl; [exact H|]. simpl.
      intros c [Hc|(doc' & md' & d' & Hin & Hc)].
      * apply in_app_iff in Hc as [Hc|[<-|[]]]; [now left|].
        right. exists doc, md, d. split; [now left|]. split; [reflexivity|].
        now apply score_lt_false.
      * right. exists doc', md', d'. tauto.
Qed.

(** C4. Threshold gate: every chunk that [search_documents] returns has
    a similarity score of at least the minimum score, and so has every
    chunk in a result of [retrieve_with_context] and of
    [multi_query_retrieval] built with that minimum; the similarity of a
    kept chunk is one minus the distance the index returned for it, as
    the float subtraction [1 - distance] computes it, and that float is
    not below the minimum score. *)
Theorem threshold_gate env query_text queries top_k s_min collection_name st :
  (forall r st',
     search_documents env query_text top_k s_min collection_name st = (Ok r, st') ->
     Forall (fun c => (s_min <= similarity_score c)%Q) r) /\
  (forall res st',
     retrieve_with_context env query_text top_k s_min st = (Ok res, st') ->
     Forall (fun c => (s_min <= similarity_score c)%Q) (chunks res)) /\
  (forall res st',
     multi_query_retrieval env queries top_k s_min st = (Ok res, st') ->
     Forall (fun c => (s_min <= similarity_score c)%Q) (chunks res)) /\
  (forall rows r,
     collect_chunks rows s_min [] = Ok r ->
     Forall (fun c => exists doc md d,
                        In (doc, (Some md, d)) rows /\
                        similarity_score c = Float.sub 1 d /\
                        (s_min <= Float.sub 1 d)%Q) r).
Proof.
  split; [|split; [|split]].
  - intros r st'. apply search_documents_above.
  - intros res st' H. unfold retrieve_with_context in H.
    apply bind_ok in H as (cs & st1 & Hs & H).
    apply search_documents_above in Hs.
    destruct cs; injection H as <- _; [constructor | exact Hs].
  - intros res st' H.
    apply multi_query_retrieval_ok in H as (acc & Hc & ->).
    apply collect_queries_ok in Hc as [_ HP].
    rewrite sort_by_score_desc_perm.
    apply HP; [|constructor].
    intros q st1 r st2. apply search_documents_above.
  - intros rows r H. apply collect_chunks_rows in H.
    eapply Forall_impl; [exact H|]. simpl.
    intros c [[]|(doc & md & d & Hin & -> & Hle)]. now exists doc, md, d.
Qed.

(** C2. The chunks of a result of [multi_query_retrieval] have pairwise
    distinct identifiers (document name, page number, chunk index) and
    are sorted by similarity score, highest first. *)
Theorem multi_query_distinct_sorted env queries top_k_per_query min_score st res st' :
  multi_query_retrieval env queries top_k_per_query min_score st = (Ok res, st') ->
  List.NoDup (map chunk_key (chunks res)) /\ sorted_by_score_desc (chunks res).
Proof.
  intros H. apply multi_query_retrieval_ok in H as (acc & Hc & ->).
  apply collect_queries_ok in Hc as [Hinv _].
  destruct (Hinv merge_inv_init) as [Hnd _].
  split; [|apply sort_by_score_desc_sorted].
  apply NoDup_ids_keys.
  eapply Permutation.Permutation_NoDup; [|exact Hnd].
  apply Permutation_map. symmetry. apply sort_by_score_desc_perm.
Qed.

Lemma multi_query_distinct_sorted_witness :
  exists res st',
    multi_query_retrieval sample_env
      ["stock counts"; "restocking returns"; "inventory accuracy"] 3 (Float.lit (3 # 10))
      initial_state = (Ok res, st') /\
    map chunk_key (chunks res) = [("returns.pdf", 7, 2); ("inventory.pdf", 3, 0)] /\
    List.NoDup (map chunk_key (chunks res)) /\ sorted_by_score_desc (chunks res).
Proof.
  eexists. eexists. split; [vm_compute; reflexivity|].
  split; [reflexivity|].
  eapply (multi_query_distinct_sorted sample_env
            ["stock counts"; "restocking returns"; "inventory accuracy"] 3 (Float.lit (3 # 10))
            initial_state).
  vm_compute. reflexivity.
Defined.

Lemma threshold_gate_witness :
  exists r st',
    search_documents sample_env "inventory accuracy" 5 (Float.lit (1 # 2)) COLLECTION_NAME
      initial_state = (Ok r, st') /\
    r = [chunk_inventory (Float.lit (9 # 10))] /\
    Forall (fun c => (Float.lit (1 # 2) <= similarity_score c)%Q) r.
Proof.
  eexists. eexists. split; [vm_compute; reflexivity|].
  split; [reflexivity|].
  eapply (proj1 (threshold_gate sample_env "inventory accuracy" [] 5 (Float.lit (1 # 2))
                   COLLECTION_NAME initial_state)).
  vm_compute. reflexivity.
Defined.

(** *** First occurrence wins *)

Lemma collect_two_queries env q1 q2 top_k min_score st l1 st1 l2 st2 :
  search_documents env q1 top_k min_score COLLECTION_NAME st = (Ok l1, st1) ->
  search_documents env q2 top_k min_score COLLECTION_NAME st1 = (Ok l2, st2) ->
  collect_queries env [q1; q2] top_k min_score ([], ∅) st
  = (Ok (fold_left add_unseen l2 (fold_left add_unseen l1 ([], ∅))), st2).
Proof.
  intros H1 H2. cbn [collect_queries]. unfold bind at 1. rewrite H1.
  unfold bind at 1. rewrite H2. reflexivity.
Qed.

(** C3, amended. When two queries both return a chunk identifier, the
    merge has exactly one entry for it, and that entry is the hit of the
    query listed first: with the hit of score 0.9 first the entry scores
    0.9, with the hit of score 0.7 first it scores 0.7. *)
Theorem merge_keeps_first_hit env q1 q2 top_k min_score st l1 st1 l2 st2 X c1 :
  search_documents env q1 top_k min_score COLLECTION_NAME st = (Ok l1, st1) ->
  search_documents env q2 top_k min_score COLLECTION_NAME st1 = (Ok l2, st2) ->
  find (fun c => String.eqb (chunk_id c) X) l1 = Some c1 ->
  exists res,
    multi_query_retrieval env [q1; q2] top_k min_score st = (Ok res, st2) /\
    List.filter (fun c => String.eqb (chunk_id c) X) (chunks res) = [c1].
Proof.
  intros H1 H2 Hfind.
  pose proof (collect_two_queries env q1 q2 top_k min_score st l1 st1 l2 st2 H1 H2) as Hc.
  set (acc := fold_left add_unseen l2 (fold_left add_unseen l1 ([], ∅))) in *.
  assert (HX : chunk_id c1 = X).
  { apply find_some in Hfind as [_ HX]. now apply String.eqb_eq in HX. }
  assert (Hin : In c1 (fst acc)).
  { apply fold_add_unseen_grows.
    apply (fold_add_unseen_first l1 ([], ∅) X c1 merge_inv_init); [intros [] | exact Hfind]. }
  assert (Hnd : List.NoDup (map chunk_id (fst acc))).
  { apply (fold_add_unseen_inv l2), (fold_add_unseen_inv l1), merge_inv_init. }
  assert (Hfilter : List.filter (fun c => String.eqb (chunk_id c) X)
                      (sort_by_score_desc (fst acc)) = [c1]).
  { subst X. apply filter_unique.
    - eapply Permutation.Permutation_NoDup; [|exact Hnd].
      apply Permutation_map. symmetry. apply sort_by_score_desc_perm.
    - eapply Permutation_in; [symmetry; apply sort_by_score_desc_perm | exact Hin]. }
  unfold multi_query_retrieval, bind. rewrite Hc.
  destruct (sort_by_score_desc (fst acc)) as [|c l] eqn:Hsort.
  - discriminate Hfilter.
  - eexists. split; [reflexivity|]. exact Hfilter.
Qed.

Lemma merge_keeps_first_hit_witness :
  exists res st2,
    multi_query_retrieval sample_env ["inventory accuracy"; "stock counts"] 3 (Float.lit (3 # 10))
      initial_state = (Ok res, st2) /\
    List.filter (fun c => String.eqb (chunk_id c) "inventory.pdf_3_0") (chunks res)
    = [chunk_inventory (Float.lit (9 # 10))].
Proof.
  destruct (merge_keeps_first_hit sample_env "inventory accuracy" "stock counts"
              3 (Float.lit (3 # 10)) initial_state
              [chunk_inventory (Float.lit (9 # 10)); chunk_returns (Float.sub 1 (Float.lit (58 # 100)))]
              (snd (search_documents sample_env "inventory accuracy" 3 (Float.lit (3 # 10))
                      COLLECTION_NAME initial_state))
              [chunk_inventory (Float.lit (7 # 10))]
              (snd (search_documents sample_env "stock counts" 3 (Float.lit (3 # 10)) COLLECTION_NAME
                      (snd (search_documents sample_env "inventory accuracy" 3 (Float.lit (3 # 10))
                              COLLECTION_NAME initial_state))))
              "inventory.pdf_3_0" (chunk_inventory (Float.lit (9 # 10))))
    as [res Hres]; [vm_compute; reflexivity .. |].
  exists res. eexists. exact Hres.
Defined.

(** C3 as stated fails: both queries return the chunk
    [inventory.pdf_3_0], one at 0.7 and one at 0.9; with the query of the
    0.7 hit listed first the one merged entry has score 0.7. *)
Lemma merge_keeps_best_score_counterexample :
  fst (search_documents sample_env "stock counts" 3 (Float.lit (3 # 10)) COLLECTION_NAME initial_state)
  = Ok [chunk_inventory (Float.lit (7 # 10))] /\
  fst (search_documents sample_env "inventory accuracy" 3 (Float.lit (3 # 10)) COLLECTION_NAME
         initial_state)
  = Ok [chunk_inventory (Float.lit (9 # 10)); chunk_returns (Float.sub 1 (Float.lit (58 # 100)))] /\
  exists res,
    fst (multi_query_retrieval sample_env ["stock counts"; "inventory accuracy"]
           3 (Float.lit (3 # 10)) initial_state) = Ok res /\
    List.filter (fun c => String.eqb (chunk_id c) "inventory.pdf_3_0") (chunks res)
    = [chunk_inventory (Float.lit (7 # 10))] /\
    ~ (similarity_score (chunk_inventory (Float.lit (7 # 10))) == Float.lit (9 # 10))%Q.
Proof.
  split; [vm_compute; reflexivity|]. split; [vm_compute; reflexivity|].
  eexists. split; [vm_compute; reflexivity|].
  split; [vm_compute; reflexivity|].
  intros H. vm_compute in H. discriminate H.
Qed.

(** *** Absence of evidence *)

Lemma search_without_collection env query_text top_k min_score name st e :
  collection_cache st !! name = None ->
  client_get_collection env name = Raise e ->
  fst (search_documents env query_text top_k min_score name st) = Ok [].
Proof.
  intros Hcache Hclient.
  unfold search_documents, get_collection, bind, try_except, cache_lookup,
    record_call, lift, ret.
  simpl. rewrite Hcache. simpl. rewrite Hclient. reflexivity.
Qed.

Lemma search_without_embedding env query_text top_k min_score name st e :
  generate_embeddings env [query_text] EMBEDDING_MODEL = Raise e ->
  fst (search_documents env query_text top_k min_score name st) = Ok [].
Proof.
  intros Hemb.
  destruct (get_collection_total env name st) as (oc & st1 & Hc).
  unfold search_documents, bind at 1. rewrite Hc.
  destruct oc as [c|]; [|reflexivity].
  unfold bind, try_except, embed_query, bind, record_call, lift, ret.
  simpl. rewrite Hemb. reflexivity.
Qed.

Lemma search_with_failing_query env query_text top_k min_score name st c st1 emb rest e :
  get_collection env name st = (Ok (Some c), st1) ->
  generate_embeddings env [query_text] EMBEDDING_MODEL = Ok (emb :: rest) ->
  query c emb top_k = Raise e ->
  fst (search_documents env query_text top_k min_score name st) = Ok [].
Proof.
  intros Hc Hemb Hq.
  unfold search_documents, bind at 1. rewrite Hc.
  unfold bind, try_except, embed_query, run_query, bind, record_call, lift, ret.
  simpl. rewrite Hemb. simpl. rewrite Hq. reflexivity.
Qed.

(** C5. Absence of evidence is data. [search_documents] returns the
    empty list, and does not raise, when the collection is missing, when
    the embedding call fails and when the query of the index fails; and
    whenever the search returns, [retrieve_with_context] returns a result
    that has [found = False], no chunks, no citations and the fixed
    message when the search found no chunk, and [found = True] with the
    chunks found otherwise. *)
Theorem absence_is_data env query_text top_k min_score st :
  (forall name e,
     collection_cache st !! name = None ->
     client_get_collection env name = Raise e ->
     fst (search_documents env query_text top_k min_score name st) = Ok []) /\
  (forall name e,
     generate_embeddings env [query_text] EMBEDDING_MODEL = Raise e ->
     fst (search_documents env query_text top_k min_score name st) = Ok []) /\
  (forall name c st1 emb rest e,
     get_collection env name st = (Ok (Some c), st1) ->
     generate_embeddings env [query_text] EMBEDDING_MODEL = Ok (emb :: rest) ->
     query c emb top_k = Raise e ->
     fst (search_documents env query_text top_k min_score name st) = Ok []) /\
  (forall cs st',
     search_documents env query_text top_k min_score COLLECTION_NAME st = (Ok cs, st') ->
     exists res,
       retrieve_with_context env query_text top_k min_score st = (Ok res, st') /\
       (found res = false <-> cs = []) /\
       (cs = [] ->
        res = {| found := false;
                 message := "Not found in sources. The available documents do not contain information to answer this query.";
                 chunks := [];
                 context := "";
                 citations := [];
                 chunks_by_document := None |}) /\
       (cs <> [] -> found res = true /\ chunks res = cs)).
Proof.
  split; [|split; [|split]].
  - intros name e. apply search_without_collection.
  - intros name e. apply search_without_embedding.
  - intros name c st1 emb rest e. apply search_with_failing_query.
  - intros cs st' Hs. unfold retrieve_with_context, bind. rewrite Hs.
    destruct cs as [|c cs]; eexists; (split; [reflexivity|]); simpl.
    + split; [tauto|]. split; [reflexivity | congruence].
    + split; [split; discriminate|]. split; [discriminate | tauto].
Qed.

Lemma absence_is_data_witness :
  fst (search_documents env_without_collection "inventory accuracy" 5 (Float.lit (1 # 2))
         COLLECTION_NAME initial_state) = Ok [] /\
  fst (search_documents env_without_embeddings "inventory accuracy" 5 (Float.lit (1 # 2))
         COLLECTION_NAME initial_state) = Ok [] /\
  fst (search_documents sample_env "inventory accuracy" 0 (Float.lit (1 # 2))
         COLLECTION_NAME initial_state) = Ok [] /\
  exists res st',
    retrieve_with_context sample_env "restocking returns" 5 (Float.lit (9 # 10)) initial_state
    = (Ok res, st') /\
    found res = false /\ chunks res = [] /\ citations res = [].
Proof.
  split.
  { apply (proj1 (absence_is_data env_without_collection "inventory accuracy" 5 (Float.lit (1 # 2))
                    initial_state) COLLECTION_NAME "ValueError"); reflexivity. }
  split.
  { apply (proj1 (proj2 (absence_is_data env_without_embeddings "inventory accuracy" 5
                           (Float.lit (1 # 2)) initial_state)) COLLECTION_NAME "Exception").
    reflexivity. }
  split.
  { eapply (proj1 (proj2 (proj2 (absence_is_data sample_env "inventory accuracy" 0
                                   (Float.lit (1 # 2)) initial_state))) COLLECTION_NAME);
      vm_compute; reflexivity. }
  destruct (proj2 (proj2 (proj2 (absence_is_data sample_env "restocking returns" 5
                                   (Float.lit (9 # 10)) initial_state))) []
              (snd (search_documents sample_env "restocking returns" 5 (Float.lit (9 # 10))
                      COLLECTION_NAME initial_state)))
    as (res & Hres & _ & Hnone & _); [vm_compute; reflexivity|].
  exists res. eexists. split; [exact Hres|].
  rewrite (Hnone eq_refl). repeat split.
Defined.

End RetrievalClaims.

(** ** Citations *)

Module CitationFacts.
Import Retrieval Prompting Samples.

Lemma existsb_eqb_In x seen : existsb (String.eqb x) seen = true <-> In x seen.
Proof.
  rewrite existsb_exists. split.
  - intros (y & Hy & Heq). apply String.eqb_eq in Heq. now subst.
  - intros H. exists x. split; [exact H | apply String.eqb_refl].
Qed.

Lemma first_occurrences_In seen xs x :
  In x (Py.first_occurrences seen xs) <-> In x xs /\ ~ In x seen.
Proof.
  revert seen. induction xs as [|y xs IH]; intros seen; simpl; [tauto|].
  destruct (existsb (String.eqb y) seen) eqn:Hy.
  - apply existsb_eqb_In in Hy. rewrite IH. intuition congruence.
  - assert (Hn : ~ In y seen) by (rewrite <- existsb_eqb_In; congruence).
    simpl. rewrite IH. simpl.
    destruct (String.eqb_spec y x) as [->|Hne]; intuition congruence.
Qed.

Lemma first_occurrences_NoDup seen xs : List.NoDup (Py.first_occurrences seen xs).
Proof.
  revert seen. induction xs as [|y xs IH]; intros seen; simpl; [constructor|].
  destruct (existsb (String.eqb y) seen); [apply IH|].
  constructor; [|apply IH].
  rewrite first_occurrences_In. simpl. tauto.
Qed.

Lemma first_occurrences_sorted seen xs :
  StronglySorted lt (map (fun x => Py.index_of x xs) (Py.first_occurrences seen xs)).
Proof.
  revert seen. induction xs as [|y xs IH]; intros seen; simpl; [constructor|].
  assert (Hshift : forall seen',
            In y seen' ->
            map (fun x => Py.index_of x (y :: xs)) (Py.first_occurrences seen' xs)
            = map S (map (fun x => Py.index_of x xs) (Py.first_occurrences seen' xs))).
  { intros seen' Hy. rewrite List.map_map. apply List.map_ext_in.
    intros x Hx. apply first_occurrences_In in Hx as [_ Hx]. simpl.
    destruct (String.eqb_spec x y) as [->|Hne]; [contradiction | reflexivity]. }
  assert (Hmono : forall l, StronglySorted lt l -> StronglySorted lt (map S l)).
  { induction l as [|a l IHl]; intros Hl; simpl; [constructor|].
    apply StronglySorted_inv in Hl as [Hl Ha].
    constructor; [now apply IHl|].
    apply List.Forall_forall. intros b Hb. apply in_map_iff in Hb as (b' & <- & Hb').
    eapply List.Forall_forall in Ha; [|exact Hb']. lia. }
  destruct (existsb (String.eqb y) seen) eqn:Hy.
  - apply existsb_eqb_In in Hy.
    change (StronglySorted lt
              (map (fun x => Py.index_of x (y :: xs)) (Py.first_occurrences seen xs))).
    rewrite (Hshift seen Hy). apply Hmono, IH.
  - change (StronglySorted lt
              (Py.index_of y (y :: xs)
               :: map (fun x => Py.index_of x (y :: xs))
                    (Py.first_occurrences (y :: seen) xs))).
    rewrite (Hshift (y :: seen)) by now left.
    simpl. rewrite String.eqb_refl.
    constructor; [apply Hmono, IH|].
    apply List.Forall_forall. intros b Hb. apply in_map_iff in Hb as (b' & <- & _). lia.
Qed.

(** The first occurrences are the list deduplicated in first-seen order. *)
Lemma first_occurrences_first_seen xs :
  Py.first_seen_order xs (Py.first_occurrences [] xs).
Proof.
  split; [apply first_occurrences_NoDup|]. split; [|apply first_occurrences_sorted].
  intros x. rewrite first_occurrences_In. simpl. tauto.
Qed.

(** *** [dict.fromkeys] *)

Lemma contains_In {V} k (d : PyDict.dict V) :
  PyDict.contains k d = true <-> In k (PyDict.keys d).
Proof.
  unfold PyDict.contains, PyDict.keys. rewrite existsb_exists, in_map_iff.
  split; intros (kv & H1 & H2).
  - apply String.eqb_eq in H2. now exists kv.
  - exists kv. split; [exact H2|]. rewrite H1. apply String.eqb_refl.
Qed.

Lemma keys_set {V} k (v : V) (d : PyDict.dict V) :
  PyDict.keys (PyDict.set k v d)
  = if PyDict.contains k d then PyDict.keys d else PyDict.keys d ++ [k].
Proof.
  induction d as [|[k' v'] d IH]; [reflexivity|].
  unfold PyDict.contains in *. simpl.
  destruct (String.eqb k' k) eqn:Hk; [reflexivity|]. simpl.
  rewrite IH. now destruct (existsb (fun kv => String.eqb (fst kv) k) d).
Qed.

Lemma keys_fold_set ks :
  forall (d : PyDict.dict unit) seen,
    (forall x, In x seen <-> In x (PyDict.keys d)) ->
    PyDict.keys (fold_left (fun d k => PyDict.set k tt d) ks d)
    = PyDict.keys d ++ Py.first_occurrences seen ks.
Proof.
  induction ks as [|k ks IH]; intros d seen Hseen; simpl; [now rewrite app_nil_r|].
  destruct (existsb (String.eqb k) seen) eqn:Hk.
  - apply existsb_eqb_In, Hseen in Hk.
    rewrite (IH (PyDict.set k tt d) seen).
    + rewrite keys_set. apply contains_In in Hk. now rewrite Hk.
    + intros x. rewrite keys_set. apply contains_In in Hk. rewrite Hk. apply Hseen.
  - assert (Hn : PyDict.contains k d = false).
    { destruct (PyDict.contains k d) eqn:Hc; [|reflexivity].
      apply contains_In, Hseen, existsb_eqb_In in Hc. congruence. }
    rewrite (IH (PyDict.set k tt d) (k :: seen)).
    + rewrite keys_set, Hn, <- app_assoc. reflexivity.
    + intros x. rewrite keys_set, Hn, in_app_iff. simpl. rewrite Hseen. tauto.
Qed.

Lemma fromkeys_first_occurrences ks :
  PyDict.keys (PyDict.fromkeys ks) = Py.first_occurrences [] ks.
Proof.
  unfold PyDict.fromkeys. rewrite (keys_fold_set ks [] []); [reflexivity|].
  intros x. simpl. tauto.
Qed.

(** The [citations] of a result of [retrieve_with_context] are the
    citations of its chunks, deduplicated in first-seen order. *)
Lemma retrieve_citations_first_seen env query_text top_k min_score st res st' :
  retrieve_with_context env query_text top_k min_score st = (Ok res, st') ->
  Py.first_seen_order (map citation (chunks res)) (citations res).
Proof.
  unfold retrieve_with_context. intros H.
  apply RetrievalFacts.bind_ok in H as (cs & st1 & _ & H).
  destruct cs as [|c cs]; injection H as <- _; cbn [chunks citations].
  - apply (first_occurrences_first_seen []).
  - unfold unique_citations. rewrite fromkeys_first_occurrences.
    apply first_occurrences_first_seen.
Qed.

(** Under any enumeration of sets, the numbered list of
    [format_citations] holds each distinct citation exactly once. *)
Lemma citation_set_each_once enum chunks :
  Py.set_enumeration_lawful enum ->
  List.NoDup (citation_set enum chunks) /\
  forall x, In x (citation_set enum chunks) <-> In x (map citation chunks).
Proof. intros Hlaw. apply Hlaw. Qed.

Lemma enum_reversed_lawful : Py.set_enumeration_lawful Py.enum_reversed.
Proof.
  intros xs. unfold Py.enum_reversed. split.
  - apply NoDup_rev, first_occurrences_NoDup.
  - intros x. rewrite <- in_rev, first_occurrences_In. simpl. tauto.
Qed.

(** C6, at the input where the code departs from it. The chunks cite
    [inventory.pdf] first and [returns.pdf] second. [format_citations]
    takes the citations through a set; under an enumeration of the set
    that lists [returns.pdf] first, which a set may do, the numbered list
    starts with [returns.pdf]: it is not in first-seen order. *)
Theorem format_citations_follows_set_order :
  Py.set_enumeration_lawful Py.enum_reversed /\
  map citation [chunk_inventory (Float.lit (9 # 10)); chunk_returns (Float.sub 1 (Float.lit (58 # 100)))]
  = ["inventory.pdf, Page 3, Chunk 0"; "returns.pdf, Page 7, Chunk 2"] /\
  format_citations Py.enum_reversed [chunk_inventory (Float.lit (9 # 10)); chunk_returns (Float.sub 1 (Float.lit (58 # 100)))]
  = "1. returns.pdf, Page 7, Chunk 2" +:+ Py.nl +:+ "2. inventory.pdf, Page 3, Chunk 0" /\
  ~ Py.first_seen_order
      (map citation [chunk_inventory (Float.lit (9 # 10)); chunk_returns (Float.sub 1 (Float.lit (58 # 100)))])
      (citation_set Py.enum_reversed [chunk_inventory (Float.lit (9 # 10)); chunk_returns (Float.sub 1 (Float.lit (58 # 100)))]).
Proof.
  split; [apply enum_reversed_lawful|].
  split; [reflexivity|]. split; [reflexivity|].
  intros (_ & _ & Hsorted). vm_compute in Hsorted.
  apply StronglySorted_inv in Hsorted as [_ Hlt].
  apply Forall_inv in Hlt. lia.
Qed.

End CitationFacts.

(** ** The search tools *)

Module ToolsFacts.
Import Retrieval Tools Samples.

Lemma query_list_of_blank queries :
  Forall (fun q => Py.strip q = EmptyString) (Py.split "," queries) ->
  query_list_of queries = [].
Proof.
  unfold query_list_of. intros H.
  induction (Py.split "," queries) as [|q qs IH]; [reflexivity|].
  apply Forall_cons_1 in H as [Hq Hqs]. simpl. rewrite Hq. simpl. now apply IH.
Qed.

(** C10. When every comma-separated component of the input is empty
    after stripping, [multi_search_retail_documents] returns the string
    [No valid queries provided.] and leaves the state as it was: no
    collection is fetched, no embedding computed, no query run. The string
    does not contain the sentinel [Not found in sources]. *)
Theorem no_valid_queries env enum queries st :
  Forall (fun q => Py.strip q = EmptyString) (Py.split "," queries) ->
  multi_search_retail_documents env enum queries st
  = (Ok "No valid queries provided.", st) /\
  calls (snd (multi_search_retail_documents env enum queries st)) = calls st /\
  Py.contains NOT_FOUND_SENTINEL "No valid queries provided." = false.
Proof.
  intros H. unfold multi_search_retail_documents.
  rewrite (query_list_of_blank queries H). repeat split.
Qed.

Lemma no_valid_queries_witness :
  multi_search_retail_documents sample_env Py.enum_insertion " , ,  " initial_state
  = (Ok "No valid queries provided.", initial_state) /\
  calls (snd (multi_search_retail_documents sample_env Py.enum_insertion " , ,  "
                initial_state)) = calls initial_state /\
  Py.contains NOT_FOUND_SENTINEL "No valid queries provided." = false.
Proof.
  apply (no_valid_queries sample_env Py.enum_insertion " , ,  " initial_state).
  vm_compute. repeat constructor.
Defined.

End ToolsFacts.

(** ** The verification report and the deliver stage *)

Module ModelsFacts.
Import Models Orchestrator.

Lemma validate_strs l : validate_all validate_str (map JString l) = Some l.
Proof. induction l as [|s l IH]; simpl; [reflexivity | now rewrite IH]. Qed.

Lemma validate_dump_ActionItem a : validate_ActionItem (dump_ActionItem a) = Some a.
Proof. now destruct a. Qed.

Lemma validate_dump_ActionItems l :
  validate_all validate_ActionItem (map dump_ActionItem l) = Some l.
Proof.
  induction l as [|a l IH]; [reflexivity|].
  cbn [map validate_all]. now rewrite validate_dump_ActionItem, IH.
Qed.

Lemma validate_dump_ClaimVerification c :
  validate_ClaimVerification (dump_ClaimVerification c) = Some c.
Proof.
  destruct c as [c v s e].
  unfold validate_ClaimVerification, dump_ClaimVerification, required, dump_strs.
  cbn. now rewrite validate_strs.
Qed.

Lemma validate_dump_ClaimVerifications l :
  validate_all validate_ClaimVerification (map dump_ClaimVerification l) = Some l.
Proof.
  induction l as [|c l IH]; [reflexivity|].
  cbn [map validate_all]. now rewrite validate_dump_ClaimVerification, IH.
Qed.

(** C7, amended. The schema of [VerificationReport] declares the three
    corrected fields optional, with default null, and ties them to the
    verdict by no rule: validation accepts every report, whatever its
    verdict and whichever of its corrected fields are present, and
    returns it as it is. That corrections come with a verdict other than
    PASS is asked of the verifier in its instructions only. *)
Theorem schema_accepts_every_report r :
  validate_VerificationReport (dump_VerificationReport r) = Some r.
Proof.
  destruct r as [v vc uc sg ces cce cai].
  unfold validate_VerificationReport, dump_VerificationReport, required, optional,
    dump_strs.
  cbn. rewrite validate_dump_ClaimVerifications, !validate_strs.
  destruct ces, cce, cai; cbn; try rewrite validate_dump_ActionItems; reflexivity.
Qed.

(** C7 as stated fails: a report with verdict FAIL and none of the
    corrected fields passes the validation of the schema. *)
Lemma report_without_corrections_counterexample :
  exists r,
    validate_VerificationReport
      (JObject [("overall_verdict", JString "FAIL");
                ("verified_claims", JArray []);
                ("unsupported_claims", JArray [JString "Shrink fell by half."]);
                ("suggestions", JArray []);
                ("corrected_executive_summary", JNull);
                ("corrected_client_email", JNull)]) = Some r /\
    overall_verdict r = "FAIL" /\
    corrected_executive_summary r = None /\
    corrected_client_email r = None /\
    corrected_action_items r = None /\
    corrections_match_verdict r = false.
Proof. eexists. split; [reflexivity|]. repeat split. Qed.

(** C1. The merge of the deliver stage. With the verdict PASS the final
    deliverable is the draft. Otherwise the executive summary, the client
    email and the action items of the final deliverable are the corrected
    ones of the report where the report has them and those of the draft
    where it has not, and nothing else changes. *)
Theorem deliver_merge_law {Plan Notes} (p : Plan) (n : Notes) d v :
  draft (deliver p n d v) = d /\ verification (deliver p n d v) = v /\
  (overall_verdict v = "PASS" -> final_deliverable (deliver p n d v) = d) /\
  (overall_verdict v <> "PASS" ->
   executive_summary (final_deliverable (deliver p n d v))
   = match corrected_executive_summary v with
     | Some s => s
     | None => executive_summary d
     end /\
   client_email (final_deliverable (deliver p n d v))
   = match corrected_client_email v with
     | Some s => s
     | None => client_email d
     end /\
   action_items (final_deliverable (deliver p n d v))
   = match corrected_action_items v with
     | Some l => l
     | None => action_items d
     end /\
   sources (final_deliverable (deliver p n d v)) = sources d).
Proof.
  simpl. split; [reflexivity|]. split; [reflexivity|].
  unfold merge_corrections. split.
  - intros ->. reflexivity.
  - intros Hv. apply String.eqb_neq in Hv. rewrite Hv. simpl.
    destruct (corrected_executive_summary v), (corrected_client_email v),
      (corrected_action_items v); repeat split.
Qed.

(** On the sample report the final summary is the corrected text and the
    final email is that of the draft. *)
Lemma deliver_merge_law_witness :
  executive_summary (final_deliverable (deliver tt tt Samples.sample_draft Samples.sample_report))
  = "Not found in sources." /\
  client_email (final_deliverable (deliver tt tt Samples.sample_draft Samples.sample_report))
  = "Dear client, see the summary." /\
  action_items (final_deliverable (deliver tt tt Samples.sample_draft Samples.sample_report))
  = [] /\
  sources (final_deliverable (deliver tt tt Samples.sample_draft Samples.sample_report))
  = ["inventory.pdf, Page 3, Chunk 0"].
Proof.
  apply (proj2 (proj2 (proj2
           (deliver_merge_law tt tt Samples.sample_draft Samples.sample_report)))).
  discriminate.
Defined.

End ModelsFacts.

(** ** Chunker: samples *)

Module IngestionSamples.
Import Config Ingestion Samples.

(** The sample page has 208 characters. With windows of 150 characters
    and an overlap of 30, the first window is cut back to the space
    before position 150; the second window holds 88 characters and is
    dropped. *)
Example chunk_text_page :
  chunk_text 209 page_text 150 30
  = Some (Ok ["Cycle counts at the store level drifted from the system of record by four percent in the first quarter, and the gap widened wherever returns were"]).
Proof. vm_compute. reflexivity. Qed.

(** An overlap equal to the size of the window: the loop does not
    advance and no fuel is enough. *)
Example chunk_text_stuck : chunk_text 1000 page_text 50 50 = None.
Proof. vm_compute. reflexivity. Qed.

Lemma chunk_text_min_size_witness :
  exists chunks,
    (forall fuel, (String.length page_text < fuel)%nat ->
       chunk_text fuel page_text CHUNK_SIZE CHUNK_OVERLAP = Some (Ok chunks)) /\
    Forall (fun c => MIN_CHUNK_SIZE <= Py.len (Py.strip c) /\ Py.strip c = c) chunks /\
    (Py.len page_text < MIN_CHUNK_SIZE -> chunks = []).
Proof.
  apply (proj2 (IngestionFacts.chunk_text_min_size page_text CHUNK_SIZE CHUNK_OVERLAP)).
  unfold CHUNK_SIZE, CHUNK_OVERLAP. lia.
Defined.

End IngestionSamples.

(** ** Retriever and tools: samples *)

Module RetrievalSamples.
Import Config Retrieval Tools Samples.

(** A page shorter than [MIN_CHUNK_SIZE] yields no chunk. *)
Example short_page_no_chunk :
  Ingestion.chunk_text 30 "Cycle counts drifted." CHUNK_SIZE CHUNK_OVERLAP = Some (Ok []).
Proof. vm_compute. reflexivity. Qed.

(** One chunk of similarity 0.42 under a floor of 0.5: nothing is found. *)
Example below_floor_not_found :
  fst (retrieve_with_context env_single "inventory accuracy" 5 MIN_SIMILARITY_SCORE
         initial_state)
  = Ok {| found := false;
          message := "Not found in sources. The available documents do not contain information to answer this query.";
          chunks := [];
          context := "";
          citations := [];
          chunks_by_document := None |}.
Proof. vm_compute. reflexivity. Qed.

(** The same chunk under the floor 0.3 of the search tool. *)
Example search_tool_output :
  fst (search_retail_documents env_single Py.enum_insertion "inventory accuracy" 5
         initial_state)
  = Ok "# Retrieved Information

Found 1 relevant sources:


## Source 1
**Citation:** returns.pdf, Page 7, Chunk 2
**Relevance Score:** 0.420

**Content:**
Returns were restocked.

----------------------------------------------------------------------

## Citations
1. returns.pdf, Page 7, Chunk 2".
Proof. vm_compute. reflexivity. Qed.

(** A search records its three external calls and caches the
    collection; a tool call without a valid query records none. *)
Example search_calls :
  calls (snd (search_documents sample_env "stock counts" 3 (Float.lit (3 # 10)) COLLECTION_NAME
                initial_state))
  = [CallGetCollection COLLECTION_NAME;
     CallGenerateEmbeddings ["stock counts"] EMBEDDING_MODEL;
     CallQuery [2%Q] 3].
Proof. vm_compute. reflexivity. Qed.

Example blank_queries_no_call :
  calls (snd (multi_search_retail_documents sample_env Py.enum_insertion ",," initial_state))
  = [].
Proof. vm_compute. reflexivity. Qed.

End RetrievalSamples.

(** * Further properties *)

(** ** Chunker: windows *)

Module ChunkerFacts.
Import Config Ingestion.

Lemma length_substring_max s :
  forall n m, (String.length (substring n m s) <= m)%nat.
Proof.
  induction s as [|c s IH]; intros [|n] [|m]; simpl; try lia.
  - specialize (IH 0%nat m). lia.
  - apply (IH n 0%nat).
  - apply (IH n (S m)).
Qed.

Lemma substring_head s :
  forall m, exists post, s = substring 0 m s +:+ post.
Proof.
  induction s as [|c s IH]; intros [|m]; simpl.
  - now exists EmptyString.
  - now exists EmptyString.
  - now exists (String c s).
  - destruct (IH m) as [post Hp]. exists post. exact (f_equal (String c) Hp).
Qed.

Lemma substring_inside s :
  forall n m, exists pre post, s = pre +:+ substring n m s +:+ post.
Proof.
  induction s as [|c s IH]; intros n m.
  - exists EmptyString, EmptyString. now destruct n, m.
  - destruct n as [|n].
    + destruct (substring_head (String c s) m) as [post Hp].
      now exists EmptyString, post.
    + destruct (IH n m) as (pre & post & H).
      exists (String c pre), post. exact (f_equal (String c) H).
Qed.

Lemma lstrip_suffix s : exists pre, s = pre +:+ Py.lstrip s.
Proof.
  induction s as [|c s [pre IH]]; [now exists EmptyString|].
  simpl. destruct (Py.isspace c).
  - exists (String c pre). exact (f_equal (String c) IH).
  - now exists EmptyString.
Qed.

Lemma rstrip_prefix s : exists post, s = Py.rstrip s +:+ post.
Proof.
  induction s as [|c s [post IH]]; [now exists EmptyString|].
  rewrite PyFacts.rstrip_cons.
  destruct (Py.rstrip s) as [|a r] eqn:E.
  - destruct (Py.isspace c).
    + now exists (String c s).
    + exists s. reflexivity.
  - exists post. rewrite IH at 1. reflexivity.
Qed.

Lemma str_append_assoc (a b c : string) : (a +:+ b) +:+ c = a +:+ (b +:+ c).
Proof.
  induction a as [|x a IH]; [reflexivity | exact (f_equal (String x) IH)].
Qed.

Lemma strip_inside s : exists pre post, s = pre +:+ Py.strip s +:+ post.
Proof.
  unfold Py.strip.
  destruct (lstrip_suffix s) as [pre Hpre].
  destruct (rstrip_prefix (Py.lstrip s)) as [post Hpost].
  exists pre, post. now rewrite <- Hpost.
Qed.

Lemma strip_slice_inside text a b :
  exists pre post, text = pre +:+ Py.strip (Py.slice text a b) +:+ post.
Proof.
  unfold Py.slice.
  destruct (substring_inside text
              (Z.to_nat (Py.norm_index a (Py.len text)))
              (Z.to_nat (Py.norm_index b (Py.len text) - Py.norm_index a (Py.len text))))
    as (p1 & q1 & H1).
  destruct (strip_inside
              (substring (Z.to_nat (Py.norm_index a (Py.len text)))
                 (Z.to_nat (Py.norm_index b (Py.len text)
                            - Py.norm_index a (Py.len text))) text))
    as (p2 & q2 & H2).
  exists (p1 +:+ p2), (q2 +:+ q1).
  rewrite H1 at 1. rewrite H2 at 1.
  now rewrite !str_append_assoc.
Qed.

(** Every chunk of a result is a chunk that was there before or the
    stripped slice of a window: it starts a whole number of steps after
    the first window and ends at the right edge of [window_end]. *)
Lemma chunk_loop_windows text chunk_size chunk_overlap :
  forall fuel start chunks r,
    chunk_loop fuel text chunk_size chunk_overlap start chunks = Some (Ok r) ->
    Forall (fun c =>
              In c chunks \/
              exists (k : nat) e,
                window_end text chunk_size
                  (start + Z.of_nat k * (chunk_size - chunk_overlap)) = Ok e /\
                c = Py.strip (Py.slice text
                                (start + Z.of_nat k * (chunk_size - chunk_overlap)) e))
           r.
Proof.
  induction fuel as [|fuel IH]; intros start chunks r; simpl; [discriminate|].
  destruct (start <? Py.len text).
  - unfold chunk_body.
    destruct (window_end text chunk_size start) as [e|] eqn:He; [|discriminate].
    intros H. apply IH in H. eapply Forall_impl; [exact H|]. simpl.
    intros c [Hc|(k & e' & Hw & Hc)].
    + destruct (MIN_CHUNK_SIZE <=? Py.len (Py.strip (Py.slice text start e)));
        [|now left].
      apply in_app_iff in Hc as [Hc|[<-|[]]]; [now left|].
      right. exists 0%nat, e. now rewrite Z.mul_0_l, Z.add_0_r.
    + right. exists (S k), e'.
      replace (start + Z.of_nat (S k) * (chunk_size - chunk_overlap))
        with (start + (chunk_size - chunk_overlap)
              + Z.of_nat k * (chunk_size - chunk_overlap)) by lia.
      now split.
  - intros H. injection H as <-. apply List.Forall_forall. now left.
Qed.

(** The right edge of a window is at most [chunk_size] after its start. *)
Lemma rfind_from_bound c s :
  forall i lo hi, Py.rfind_from c s i lo hi = -1 \/ Py.rfind_from c s i lo hi < hi.
Proof.
  induction s as [|x s IH]; intros i lo hi; simpl; [now left|].
  destruct (IH (i + 1) lo hi) as [H|H].
  - rewrite H. simpl.
    destruct ((lo <=? i) && (i <? hi) && Ascii.eqb x c) eqn:Hc; [|now left].
    right. apply andb_true_iff in Hc as [Hc _]. apply andb_true_iff in Hc as [_ Hc].
    now apply Z.ltb_lt.
  - destruct (0 <=? Py.rfind_from c s (i + 1) lo hi); [now right|].
    destruct ((lo <=? i) && (i <? hi) && Ascii.eqb x c) eqn:Hc; [|now left].
    right. apply andb_true_iff in Hc as [Hc _]. apply andb_true_iff in Hc as [_ Hc].
    now apply Z.ltb_lt.
Qed.

Lemma window_end_bound text chunk_size start e :
  0 <= start -> 0 < chunk_size ->
  window_end text chunk_size start = Ok e ->
  start < e <= start + chunk_size.
Proof.
  intros Hs Hc. unfold window_end.
  destruct (start + chunk_size <? Py.len text) eqn:Hlt;
    [|intros H; injection H as <-; lia].
  apply Z.ltb_lt in Hlt.
  destruct (Py.getitem text (start + chunk_size)) as [x|]; [|discriminate].
  destruct (negb (Ascii.eqb x " ")); [|intros H; injection H as <-; lia].
  destruct (start <? Py.rfind_char " " text start (start + chunk_size)) eqn:Hr;
    intros H; injection H as <-; [|lia].
  apply Z.ltb_lt in Hr. split; [exact Hr|].
  unfold Py.rfind_char in *.
  destruct (rfind_from_bound " " text 0
              (Py.norm_index start (Py.len text))
              (Py.norm_index (start + chunk_size) (Py.len text))) as [H|H]; [lia|].
  assert (Hhi : Py.norm_index (start + chunk_size) (Py.len text) <= start + chunk_size).
  { unfold Py.norm_index.
    destruct (start + chunk_size <? 0) eqn:Hneg; [apply Z.ltb_lt in Hneg|]; lia. }
  lia.
Qed.

Lemma len_slice_bound text a b : 0 <= a -> 0 <= b -> Py.len (Py.slice text a b) <= Z.max 0 (b - a).
Proof.
  intros Ha Hb. unfold Py.slice, Py.len at 1.
  pose proof (length_substring_max text
                (Z.to_nat (Py.norm_index a (Py.len text)))
                (Z.to_nat (Py.norm_index b (Py.len text) - Py.norm_index a (Py.len text))))
    as H.
  assert (Hn : 0 <= Py.len text) by (unfold Py.len; lia).
  unfold Py.norm_index in *.
  destruct (a <? 0) eqn:Ea; [apply Z.ltb_lt in Ea; lia|].
  destruct (b <? 0) eqn:Eb; [apply Z.ltb_lt in Eb; lia|].
  lia.
Qed.

(** The chunks are bounded by the size of the window: with
    [0 <= chunk_overlap <= chunk_size] and [0 < chunk_size], every chunk
    that [chunk_text] returns has at most [chunk_size] characters. *)
Theorem chunk_text_size_bound fuel text chunk_size chunk_overlap chunks :
  0 < chunk_size -> 0 <= chunk_overlap <= chunk_size ->
  chunk_text fuel text chunk_size chunk_overlap = Some (Ok chunks) ->
  Forall (fun c => Py.len c <= chunk_size) chunks.
Proof.
  intros Hsize Hover H. unfold chunk_text in H.
  apply chunk_loop_windows in H. eapply Forall_impl; [exact H|]. simpl.
  intros c [[]|(k & e & Hw & ->)].
  apply window_end_bound in Hw; [|nia|lia].
  pose proof (PyFacts.len_strip
                (Py.slice text (0 + Z.of_nat k * (chunk_size - chunk_overlap)) e)).
  pose proof (len_slice_bound text (0 + Z.of_nat k * (chunk_size - chunk_overlap)) e).
  nia.
Qed.

Lemma chunk_text_size_bound_witness :
  Forall (fun c => Py.len c <= 150)
    ["Cycle counts at the store level drifted from the system of record by four percent in the first quarter, and the gap widened wherever returns were"].
Proof.
  apply (chunk_text_size_bound 209 Samples.page_text 150 30); [lia | lia |].
  vm_compute. reflexivity.
Defined.

(** Every chunk is a piece of the page: whatever the parameters, a chunk
    that [chunk_text] returns occurs in the text as a run of consecutive
    characters. *)
Theorem chunk_text_chunks_inside fuel text chunk_size chunk_overlap chunks :
  chunk_text fuel text chunk_size chunk_overlap = Some (Ok chunks) ->
  Forall (fun c => exists pre post, text = pre +:+ c +:+ post) chunks.
Proof.
  intros H. unfold chunk_text in H.
  apply chunk_loop_windows in H. eapply Forall_impl; [exact H|]. simpl.
  intros c [[]|(k & e & _ & ->)]. apply strip_slice_inside.
Qed.

Lemma chunk_text_chunks_inside_witness :
  Forall (fun c => exists pre post, Samples.page_text = pre +:+ c +:+ post)
    ["Cycle counts at the store level drifted from the system of record by four percent in the first quarter, and the gap widened wherever returns were"].
Proof.
  apply (chunk_text_chunks_inside 209 Samples.page_text 150 30).
  vm_compute. reflexivity.
Defined.

(** An overlap equal to the size of the window: on a text that is not
    empty the start of the window never moves, and the loop does not
    return, whatever the fuel. *)
Theorem chunk_text_zero_step_diverges fuel text chunk_size :
  0 < chunk_size -> text <> EmptyString ->
  chunk_text fuel text chunk_size chunk_size = None.
Proof.
  intros Hsize Htext. unfold chunk_text.
  assert (Hlen : (0 <? Py.len text) = true).
  { apply Z.ltb_lt. destruct text; [contradiction | unfold Py.len; simpl; lia]. }
  generalize (@nil string) as chunks.
  induction fuel as [|fuel IH]; intros chunks; [reflexivity|].
  simpl. rewrite Hlen.
  destruct (IngestionFacts.chunk_body_ok text chunk_size chunk_size 0 chunks)
    as [chunks' Hb]; [lia | lia |].
  rewrite Hb. replace (0 + (chunk_size - chunk_size)) with 0 by lia. apply IH.
Qed.

Lemma chunk_text_zero_step_diverges_witness :
  chunk_text 5000 Samples.page_text 50 50 = None.
Proof. apply chunk_text_zero_step_diverges; [lia | discriminate]. Defined.

(** *** The retraction of the right edge *)

Lemma rfind_from_spec c s :
  forall i lo hi,
    0 <= i ->
    (Py.rfind_from c s i lo hi = -1 /\
     forall j : nat, lo <= i + Z.of_nat j < hi -> String.get j s <> Some c) \/
    (exists j : nat,
       Py.rfind_from c s i lo hi = i + Z.of_nat j /\
       lo <= i + Z.of_nat j < hi /\
       String.get j s = Some c /\
       forall j' : nat, (j < j')%nat -> lo <= i + Z.of_nat j' < hi ->
                        String.get j' s <> Some c).
Proof.
  induction s as [|x s IH]; intros i lo hi Hi.
  - left. split; [reflexivity|]. intros j _. now destruct j.
  - cbn [Py.rfind_from].
    destruct (IH (i + 1) lo hi) as [[Hr Hnone]|(j & Hr & Hrange & Hget & Hlast)]; [lia | |].
    + rewrite Hr. cbn.
      destruct ((lo <=? i) && (i <? hi) && Ascii.eqb x c) eqn:Hc.
      * right. exists 0%nat.
        apply andb_true_iff in Hc as [Hc Hx]. apply andb_true_iff in Hc as [Hlo Hhi].
        apply Z.leb_le in Hlo. apply Z.ltb_lt in Hhi. apply Ascii.eqb_eq in Hx. subst x.
        split; [lia|]. split; [lia|]. split; [reflexivity|].
        intros [|j'] Hj' Hin; [lia|]. cbn. apply Hnone. lia.
      * left. split; [reflexivity|].
        intros [|j] Hin; cbn.
        -- intros Hx. injection Hx as ->.
           rewrite Ascii.eqb_refl, andb_true_r in Hc.
           apply andb_false_iff in Hc as [Hc|Hc];
             [apply Z.leb_gt in Hc | apply Z.ltb_ge in Hc]; lia.
        -- apply Hnone. lia.
    + rewrite Hr.
      replace (0 <=? i + 1 + Z.of_nat j) with true by (symmetry; apply Z.leb_le; lia).
      right. exists (S j).
      split; [lia|]. split; [lia|]. split; [exact Hget|].
      intros [|j'] Hj' Hin; [lia|]. cbn. apply Hlast; lia.
Qed.

Lemma getitem_get text j c :
  0 <= j < Py.len text ->
  Py.getitem text j = Ok c <-> String.get (Z.to_nat j) text = Some c.
Proof.
  intros Hj. unfold Py.getitem.
  destruct (j <? 0) eqn:Hneg; [apply Z.ltb_lt in Hneg; lia|].
  replace ((0 <=? j) && (j <? Py.len text)) with true
    by (symmetry; apply andb_true_iff; lia).
  destruct (String.get (Z.to_nat j) text); split; congruence.
Qed.

(** The right edge of a window, for [0 <= start] and [0 < chunk_size].
    It is the hard cut [start + chunk_size], or it is the last space of
    the window, strictly after the start. The hard cut is kept only when
    it falls at or after the end of the text, or on a space, or when the
    window holds no space after its first character. *)
Theorem window_end_retraction text chunk_size start e :
  0 <= start -> 0 < chunk_size ->
  window_end text chunk_size start = Ok e ->
  (e = start + chunk_size /\
   (Py.len text <= start + chunk_size \/
    Py.getitem text (start + chunk_size) = Ok " "%char \/
    forall j, start < j < start + chunk_size -> Py.getitem text j <> Ok " "%char)) \/
  (start < e < start + chunk_size /\
   start + chunk_size < Py.len text /\
   Py.getitem text e = Ok " "%char /\
   forall j, e < j < start + chunk_size -> Py.getitem text j <> Ok " "%char).
Proof.
  intros Hs Hc. unfold window_end.
  destruct (start + chunk_size <? Py.len text) eqn:Hlt;
    [|intros H; injection H as <-; left; split; [reflexivity|]; left;
      now apply Z.ltb_ge in Hlt].
  apply Z.ltb_lt in Hlt.
  destruct (PyFacts.getitem_in_range text (start + chunk_size)) as [x Hx]; [lia|].
  rewrite Hx.
  destruct (Ascii.eqb x " ") eqn:Hsp; cbn [negb].
  { apply Ascii.eqb_eq in Hsp. subst x.
    intros H. injection H as <-. left. split; [reflexivity|]. right. now left. }
  unfold Py.rfind_char.
  assert (Hlo : Py.norm_index start (Py.len text) = start).
  { unfold Py.norm_index.
    destruct (start <? 0) eqn:E; [apply Z.ltb_lt in E|]; lia. }
  assert (Hhi : Py.norm_index (start + chunk_size) (Py.len text) = start + chunk_size).
  { unfold Py.norm_index.
    destruct (start + chunk_size <? 0) eqn:E; [apply Z.ltb_lt in E|]; lia. }
  rewrite Hlo, Hhi.
  destruct (rfind_from_spec " " text 0 start (start + chunk_size))
    as [[Hr Hnone]|(j & Hr & Hrange & Hget & Hlast)]; [lia| |]; rewrite Hr.
  - replace (start <? -1) with false by (symmetry; apply Z.ltb_ge; lia).
    intros H. injection H as <-. left. split; [reflexivity|]. right. right.
    intros j Hj Hg. apply getitem_get in Hg; [|lia].
    apply (Hnone (Z.to_nat j)); [lia | exact Hg].
  - destruct (start <? 0 + Z.of_nat j) eqn:Hgt; intros H; injection H as <-.
    + apply Z.ltb_lt in Hgt. right.
      split; [lia|]. split; [lia|]. split.
      * apply getitem_get; [lia|]. now replace (Z.to_nat (0 + Z.of_nat j)) with j by lia.
      * intros j' Hj' Hg. apply getitem_get in Hg; [|lia].
        apply (Hlast (Z.to_nat j')); [lia | lia | exact Hg].
    + apply Z.ltb_ge in Hgt. left. split; [reflexivity|]. right. right.
      intros j' Hj' Hg. apply getitem_get in Hg; [|lia].
      apply (Hlast (Z.to_nat j')); [lia | lia | exact Hg].
Qed.

Lemma window_end_retraction_witness :
  0 < 19 < 0 + 22 /\
  0 + 22 < Py.len "four percent in the first quarter" /\
  Py.getitem "four percent in the first quarter" 19 = Ok " "%char /\
  forall j, 19 < j < 0 + 22 ->
            Py.getitem "four percent in the first quarter" j <> Ok " "%char.
Proof.
  destruct (window_end_retraction "four percent in the first quarter" 22 0 19)
    as [[H _]|H]; [lia | lia | reflexivity | discriminate H | exact H].
Defined.

(** *** The number of chunks *)

Lemma chunk_loop_count text chunk_size chunk_overlap :
  0 < chunk_size - chunk_overlap ->
  forall fuel start chunks r,
    chunk_loop fuel text chunk_size chunk_overlap start chunks = Some (Ok r) ->
    (length r <=
     length chunks
     + Z.to_nat ((Py.len text - start + (chunk_size - chunk_overlap) - 1)
                 / (chunk_size - chunk_overlap)))%nat.
Proof.
  intros Hstep.
  induction fuel as [|fuel IH]; intros start chunks r; simpl; [discriminate|].
  destruct (start <? Py.len text) eqn:Hlt.
  - apply Z.ltb_lt in Hlt.
    destruct (chunk_body text chunk_size chunk_overlap start chunks)
      as [[start' chunks']|] eqn:Hb; [|discriminate].
    intros H. apply IH in H.
    apply IngestionFacts.chunk_body_next in Hb as [-> Hchunks].
    set (step := chunk_size - chunk_overlap) in *.
    assert (Hdiv : (Py.len text - start + step - 1) / step
                   = (Py.len text - (start + step) + step - 1) / step + 1).
    { replace (Py.len text - start + step - 1)
        with (Py.len text - (start + step) + step - 1 + 1 * step) by lia.
      apply Z.div_add. lia. }
    assert (Hpos : 0 <= (Py.len text - (start + step) + step - 1) / step).
    { apply Z.div_pos; lia. }
    assert (Hlen : (length chunks' <= S (length chunks))%nat).
    { destruct Hchunks as [->|(c & -> & _)]; [lia|]. rewrite length_app. simpl. lia. }
    rewrite Hdiv. lia.
  - intros H. injection H as <-. lia.
Qed.

(** With a positive step, [chunk_text] returns at most one chunk per
    window: the length of the text divided by the step, rounded up. *)
Theorem chunk_text_count_bound fuel text chunk_size chunk_overlap chunks :
  chunk_overlap < chunk_size ->
  chunk_text fuel text chunk_size chunk_overlap = Some (Ok chunks) ->
  Z.of_nat (length chunks)
  <= (Py.len text + (chunk_size - chunk_overlap) - 1) / (chunk_size - chunk_overlap).
Proof.
  intros Hcfg H. unfold chunk_text in H.
  apply chunk_loop_count in H; [|lia]. simpl in H.
  rewrite Z.sub_0_r in H.
  assert (0 <= (Py.len text + (chunk_size - chunk_overlap) - 1)
               / (chunk_size - chunk_overlap)).
  { apply Z.div_pos; [unfold Py.len|]; lia. }
  lia.
Qed.

Lemma chunk_text_count_bound_witness :
  Z.of_nat (length ["Cycle counts at the store level drifted from the system of record by four percent in the first quarter, and the gap widened wherever returns were"])
  <= (Py.len Samples.page_text + (150 - 30) - 1) / (150 - 30).
Proof.
  apply (chunk_text_count_bound 209 Samples.page_text 150 30); [lia|].
  vm_compute. reflexivity.
Defined.

End ChunkerFacts.

(** ** Chunk identity *)

Module IdentityFacts.
Import Documents.

Lemma append_cons c (a b : string) : String c a +:+ b = String c (a +:+ b).
Proof. reflexivity. Qed.

Lemma has_char_append c (a b : string) :
  PyList.has_char c (a +:+ b) = PyList.has_char c a || PyList.has_char c b.
Proof.
  induction a as [|x a IH]; [reflexivity|].
  rewrite append_cons. cbn [PyList.has_char]. rewrite IH. now rewrite orb_assoc.
Qed.

Lemma digits_no_underscore d :
  PyList.has_char "_" (NilEmpty.string_of_uint d) = false.
Proof. induction d; cbn; auto. Qed.

Lemma str_of_int_no_underscore n : PyList.has_char "_" (Py.str_of_int n) = false.
Proof.
  unfold Py.str_of_int, NilZero.string_of_int, NilZero.string_of_uint.
  destruct (Z.to_int n) as [d|d]; destruct d; cbn; auto using digits_no_underscore.
Qed.

Lemma str_of_int_inj n n' : Py.str_of_int n = Py.str_of_int n' -> n = n'.
Proof.
  unfold Py.str_of_int. intros H.
  apply DecimalZ.to_int_inj.
  assert (Hparse : forall z, NilZero.int_of_string (NilZero.string_of_int (Z.to_int z))
                             = Some (Z.to_int z)).
  { intros z. apply NilZero.isi.
    - destruct z; cbn; try discriminate.
      intros E. injection E as E. now apply DecimalPos.Unsigned.to_uint_nonnil in E.
    - destruct z; cbn; try discriminate.
      intros E. injection E as E. now apply DecimalPos.Unsigned.to_uint_nonnil in E. }
  pose proof (Hparse n) as H1. pose proof (Hparse n') as H2.
  rewrite H in H1. congruence.
Qed.

(** A string is cut in one way only at its last underscore. *)
Lemma cut_at_last_underscore (a : string) :
  forall a' t t',
    PyList.has_char "_" t = false -> PyList.has_char "_" t' = false ->
    a +:+ String "_" t = a' +:+ String "_" t' ->
    a = a' /\ t = t'.
Proof.
  induction a as [|x a IH]; intros a' t t' Ht Ht' H.
  - destruct a' as [|x' a'].
    + change (String "_" t = String "_" t') in H. injection H as H. now split.
    + change (String "_" t = String x' (a' +:+ String "_" t')) in H.
      injection H as <- H.
      rewrite H, has_char_append in Ht. cbn in Ht.
      rewrite orb_true_r in Ht. discriminate.
  - destruct a' as [|x' a'].
    + change (String x (a +:+ String "_" t) = String "_" t') in H.
      injection H as -> H.
      rewrite <- H, has_char_append in Ht'. cbn in Ht'.
      rewrite orb_true_r in Ht'. discriminate.
    + change (String x (a +:+ String "_" t) = String x' (a' +:+ String "_" t')) in H.
      injection H as <- H.
      destruct (IH a' t t' Ht Ht' H) as [-> ->]. now split.
Qed.

Lemma id_string_inj name page index name' page' index' :
  id_string name page index = id_string name' page' index' ->
  name = name' /\ page = page' /\ index = index'.
Proof.
  unfold id_string. intros H.
  assert (Hre : forall (n p i : string),
            n +:+ "_" +:+ p +:+ "_" +:+ i = (n +:+ String "_" p) +:+ String "_" i).
  { intros n p i. rewrite ChunkerFacts.str_append_assoc. reflexivity. }
  rewrite !Hre in H.
  apply cut_at_last_underscore in H as [H Hi]; try apply str_of_int_no_underscore.
  apply cut_at_last_underscore in H as [Hn Hp]; try apply str_of_int_no_underscore.
  apply str_of_int_inj in Hi. apply str_of_int_inj in Hp. now split.
Qed.

(** The string that [generate_chunk_id] hashes determines the document
    name, the page number and the index in the page: the numbers are
    written in decimal and hold no underscore, so the string is read back
    from its end in one way only, also when the name has underscores. *)
Theorem id_string_injective name page index name' page' index' :
  id_string name page index = id_string name' page' index' ->
  name = name' /\ page = page' /\ index = index'.
Proof. apply id_string_inj. Qed.

Lemma id_string_injective_witness :
  "store_2" = "store_2" /\ 3 = 3 /\ 11 = 11.
Proof. apply (id_string_injective "store_2" 3 11 "store_2" 3 11). reflexivity. Defined.

(** The key by which [multi_query_retrieval] deduplicates is the string
    that [generate_chunk_id] hashes: two hits have the same key exactly
    when they have the same document name, page number and chunk index. *)
Theorem retrieval_chunk_id_key (c1 c2 : Retrieval.RetrievedChunk) :
  Retrieval.chunk_id c1
  = id_string (Retrieval.document_name c1) (Retrieval.page_number c1)
      (Retrieval.chunk_index c1) /\
  (Retrieval.chunk_id c1 = Retrieval.chunk_id c2 <->
   Retrieval.chunk_key c1 = Retrieval.chunk_key c2).
Proof.
  split; [reflexivity|]. unfold Retrieval.chunk_key. split.
  - intros H. apply id_string_inj in H as (-> & -> & ->). reflexivity.
  - intros H. injection H as H1 H2 H3. unfold Retrieval.chunk_id. now rewrite H1, H2, H3.
Qed.

End IdentityFacts.

(** ** Documents *)

Module DocumentFacts.
Import Config Ingestion Documents MoreSamples.

Lemma enumerate_In {A} (l : list A) :
  forall i n x,
    In (n, x) (PyList.enumerate i l) <->
    exists k : nat, n = i + Z.of_nat k /\ nth_error l k = Some x.
Proof.
  induction l as [|y l IH]; intros i n x; simpl.
  - split; [intros [] | intros ([|k] & _ & H); discriminate].
  - rewrite IH. split.
    + intros [H|(k & -> & H)].
      * injection H as <- <-. exists 0%nat. split; [lia | reflexivity].
      * exists (S k). split; [lia | exact H].
    + intros ([|k] & -> & H); simpl in H.
      * left. injection H as <-. f_equal. lia.
      * right. exists k. split; [lia | exact H].
Qed.

Lemma enumerate_sorted {A} (l : list A) :
  forall i, StronglySorted (fun a b => fst a < fst b) (PyList.enumerate i l).
Proof.
  induction l as [|y l IH]; intros i; simpl; constructor; [apply IH|].
  apply List.Forall_forall. intros [n x] H.
  apply enumerate_In in H as (k & -> & _). simpl. lia.
Qed.

Lemma filter_sorted {A} (R : A -> A -> Prop) (p : A -> bool) l :
  StronglySorted R l -> StronglySorted R (List.filter p l).
Proof.
  induction 1 as [|a l Hl IH Ha]; simpl; [constructor|].
  destruct (p a); [|exact IH].
  constructor; [exact IH|].
  apply List.Forall_forall. intros x Hx. apply filter_In in Hx as [Hx _].
  eapply List.Forall_forall in Ha; eassumption.
Qed.

Lemma truthy_nonempty s : Py.truthy s = true <-> s <> EmptyString.
Proof. destruct s; simpl; split; congruence. Qed.

Lemma load_pdf_spec f pages :
  load_pdf f = Ok pages ->
  exists texts,
    pdf_exists f = true /\ pdf_pages f = Ok texts /\
    (forall n t,
       In (n, t) pages <->
       exists k : nat, n = 1 + Z.of_nat k /\ nth_error texts k = Some t /\
                       Py.strip t <> EmptyString) /\
    StronglySorted (fun a b => fst a < fst b) pages.
Proof.
  unfold load_pdf.
  destruct (pdf_exists f); [|discriminate]. simpl.
  destruct (pdf_pages f) as [texts|]; [|discriminate].
  intros H. injection H as <-. exists texts.
  split; [reflexivity|]. split; [reflexivity|]. split.
  - intros n t. rewrite filter_In, enumerate_In. simpl.
    rewrite andb_true_iff, !truthy_nonempty. split.
    + intros [(k & -> & Hk) [_ Hs]]. now exists k.
    + intros (k & -> & Hk & Hs). split; [now exists k|]. split; [|exact Hs].
      intros ->. now apply Hs.
  - apply filter_sorted, enumerate_sorted.
Qed.

(** [load_pdf] numbers the pages by their place in the file, from 1, also
    when it leaves out pages without text: a pair [(n, t)] is returned
    exactly when [t] is the text of the [n]-th page and is not blank, and
    the pairs come with increasing page numbers. *)
Theorem load_pdf_pages f pages :
  load_pdf f = Ok pages ->
  exists texts,
    pdf_exists f = true /\ pdf_pages f = Ok texts /\
    (forall n t,
       In (n, t) pages <->
       exists k : nat, n = 1 + Z.of_nat k /\ nth_error texts k = Some t /\
                       Py.strip t <> EmptyString) /\
    StronglySorted (fun a b => fst a < fst b) pages.
Proof. apply load_pdf_spec. Qed.

Lemma load_pdf_pages_witness :
  exists texts,
    pdf_exists sample_pdf = true /\ pdf_pages sample_pdf = Ok texts /\
    (forall n t,
       In (n, t) [(2, Samples.page_text)] <->
       exists k : nat, n = 1 + Z.of_nat k /\ nth_error texts k = Some t /\
                       Py.strip t <> EmptyString) /\
    StronglySorted (fun a b => fst a < fst b) [(2, Samples.page_text)].
Proof. apply (load_pdf_pages sample_pdf). vm_compute. reflexivity. Defined.

(** *** [process_document] *)

(** The fuel of [chunk_text_default] is enough: its list is the one that
    [chunk_text] returns with the parameters of the configuration. *)
Lemma chunk_text_default_runs page_text :
  forall fuel, (String.length page_text < fuel)%nat ->
    chunk_text fuel page_text CHUNK_SIZE CHUNK_OVERLAP
    = Some (Ok (chunk_text_default page_text)).
Proof.
  destruct (IngestionFacts.chunk_loop_total page_text CHUNK_SIZE CHUNK_OVERLAP
              ltac:(unfold CHUNK_SIZE, CHUNK_OVERLAP; lia)
              (String.length page_text) 0 [])
    as [r Hr]; [lia | unfold Py.len; lia |].
  intros fuel Hf. unfold chunk_text_default, chunk_text.
  rewrite (Hr (S (String.length page_text))) by lia. now apply Hr.
Qed.

Lemma chunk_text_default_floor page_text :
  Forall (fun c => MIN_CHUNK_SIZE <= Py.len c /\ Py.strip c = c)
    (chunk_text_default page_text).
Proof.
  pose proof (chunk_text_default_runs page_text (S (String.length page_text))
                ltac:(lia)) as H.
  unfold chunk_text in H.
  eapply IngestionFacts.chunk_loop_invariant; [| constructor | exact H].
  intros c Hmin _. rewrite PyFacts.strip_idem. now split.
Qed.

Lemma sorted_app {A} (R : A -> A -> Prop) l1 l2 :
  StronglySorted R l1 -> StronglySorted R l2 ->
  (forall x y, In x l1 -> In y l2 -> R x y) ->
  StronglySorted R (l1 ++ l2).
Proof.
  induction 1 as [|a l1 Hl IH Ha]; intros H2 Hcross; simpl; [exact H2|].
  constructor.
  - apply IH; [exact H2|]. intros x y Hx Hy. apply Hcross; [now right | exact Hy].
  - apply Forall_app. split; [exact Ha|].
    apply List.Forall_forall. intros y Hy. apply Hcross; [now left | exact Hy].
Qed.

Lemma sorted_map {A B} (R : A -> A -> Prop) (R' : B -> B -> Prop) (g : A -> B) l :
  (forall a b, R a b -> R' (g a) (g b)) ->
  StronglySorted R l -> StronglySorted R' (map g l).
Proof.
  intros Hg. induction 1 as [|a l Hl IH Ha]; simpl; constructor; [exact IH|].
  apply List.Forall_forall. intros y Hy. apply in_map_iff in Hy as (x & <- & Hx).
  apply Hg. eapply List.Forall_forall in Ha; eassumption.
Qed.

(** What a chunk of one page looks like. *)
Lemma page_chunks_In md5 f page page_text c :
  In c (page_chunks md5 f page page_text) ->
  exists (k : nat) content,
    nth_error (chunk_text_default page_text) k = Some content /\
    c = {| chunk_id := generate_chunk_id md5 (pdf_name f) page (Z.of_nat k);
           text := content;
           document_name := pdf_name f;
           page_number := page;
           chunk_index := Z.of_nat k;
           metadata :=
             [("file_path", MStr (pdf_path f));
              ("total_chunks_on_page",
               MInt (Z.of_nat (length (chunk_text_default page_text))));
              ("chunk_size", MInt (Py.len content))] |}.
Proof.
  unfold page_chunks. intros H. apply in_map_iff in H as ([i content] & <- & H).
  apply enumerate_In in H as (k & -> & Hk). exists k, content.
  split; [exact Hk|]. simpl. now rewrite Z.add_0_l.
Qed.

Lemma process_document_spec md5 f :
  Forall (fun c =>
            document_name c = pdf_name f /\
            1 <= page_number c /\ 0 <= chunk_index c /\
            chunk_id c = md5 (id_string (pdf_name f) (page_number c) (chunk_index c)) /\
            MIN_CHUNK_SIZE <= Py.len (text c) /\ Py.strip (text c) = text c /\
            exists total,
              chunk_index c < total /\
              metadata c = [("file_path", MStr (pdf_path f));
                            ("total_chunks_on_page", MInt total);
                            ("chunk_size", MInt (Py.len (text c)))])
         (process_document md5 f) /\
  StronglySorted (fun a b => page_number a < page_number b \/
                             (page_number a = page_number b /\
                              chunk_index a < chunk_index b))
                 (process_document md5 f).
Proof.
  unfold process_document.
  destruct (load_pdf f) as [pages|] eqn:Hload; [|split; constructor].
  apply load_pdf_spec in Hload as (texts & _ & _ & Hin & Hsorted).
  assert (Hpage : forall n t, In (n, t) pages -> 1 <= n).
  { intros n t H. apply Hin in H as (k & -> & _). lia. }
  clear Hin. split.
  - apply List.Forall_forall. intros c Hc.
    apply in_flat_map in Hc as ([n t] & Hp & Hc). simpl in Hc.
    apply page_chunks_In in Hc as (k & content & Hk & ->). simpl.
    pose proof (chunk_text_default_floor t) as Hfloor.
    apply nth_error_In in Hk as Hmem.
    eapply List.Forall_forall in Hfloor as [Hmin Hstrip]; [|exact Hmem].
    repeat split; try lia; try assumption; [now apply (Hpage n t)|].
    exists (Z.of_nat (length (chunk_text_default t))). split; [|reflexivity].
    assert (k < length (chunk_text_default t))%nat; [|lia].
    apply nth_error_Some. congruence.
  - induction Hsorted as [|[n t] pages Hs IH Hn]; simpl; [constructor|].
    apply sorted_app.
    + unfold page_chunks.
      eapply sorted_map; [|apply (enumerate_sorted (chunk_text_default t) 0)].
      intros a b Hab. simpl. right. now split.
    + apply IH. intros n' t' H. apply (Hpage n' t'). now right.
    + intros x y Hx Hy. left.
      apply page_chunks_In in Hx as (k & content & _ & ->).
      apply in_flat_map in Hy as ([n' t'] & Hp' & Hy). simpl in Hy.
      apply page_chunks_In in Hy as (k' & content' & _ & ->). simpl.
      eapply List.Forall_forall in Hn; [|exact Hp']. exact Hn.
Qed.

(** [process_document] makes, of every page with text, the chunks of
    [chunk_text] numbered from 0. Each chunk carries the name of the file,
    the number of its page in the file, the identifier hashed from name,
    page and index, a stripped text of at least [MIN_CHUNK_SIZE]
    characters, the length of that text as [chunk_size] and the number of
    chunks of its page, which is above its index. The chunks come in the
    order of the document: by page, then by index. *)
Theorem process_document_chunks md5 f :
  Forall (fun c =>
            document_name c = pdf_name f /\
            1 <= page_number c /\ 0 <= chunk_index c /\
            chunk_id c = md5 (id_string (pdf_name f) (page_number c) (chunk_index c)) /\
            MIN_CHUNK_SIZE <= Py.len (text c) /\ Py.strip (text c) = text c /\
            exists total,
              chunk_index c < total /\
              metadata c = [("file_path", MStr (pdf_path f));
                            ("total_chunks_on_page", MInt total);
                            ("chunk_size", MInt (Py.len (text c)))])
         (process_document md5 f) /\
  StronglySorted (fun a b => page_number a < page_number b \/
                             (page_number a = page_number b /\
                              chunk_index a < chunk_index b))
                 (process_document md5 f).
Proof. apply process_document_spec. Qed.

(** A file that does not exist or cannot be read gives no chunk: the
    exception of [load_pdf] does not leave [process_document]. *)
Theorem process_document_unreadable md5 f :
  pdf_exists f = false \/ (exists e, pdf_pages f = Raise e) ->
  (exists e, load_pdf f = Raise e) /\ process_document md5 f = [].
Proof.
  intros H. unfold process_document, load_pdf.
  destruct (pdf_exists f); simpl.
  - destruct H as [H|[e ->]]; [discriminate|]. split; [eauto | reflexivity].
  - split; [eauto | reflexivity].
Qed.

Lemma process_document_unreadable_witness :
  (exists e, load_pdf {| pdf_name := "missing.pdf"; pdf_path := "data/missing.pdf";
                         pdf_exists := false; pdf_pages := Ok [] |} = Raise e) /\
  process_document sample_md5
    {| pdf_name := "missing.pdf"; pdf_path := "data/missing.pdf";
       pdf_exists := false; pdf_pages := Ok [] |} = [].
Proof. apply process_document_unreadable. now left. Defined.

End DocumentFacts.

(** ** Corpus and index *)

Module IndexingFacts.
Import Config Documents Indexing MoreSamples.

(** Strictly sorted lists have no repetition. *)
Lemma sorted_irrefl_NoDup {A} (R : A -> A -> Prop) l :
  (forall a, ~ R a a) -> StronglySorted R l -> List.NoDup l.
Proof.
  intros Hirr. induction 1 as [|a l Hl IH Ha]; constructor; [|exact IH].
  intros Hin. eapply List.Forall_forall in Ha; [|exact Hin]. now apply Hirr in Ha.
Qed.




(** *** The metadata of the index, read back *)

Lemma dict_get_set_other {V} k k' (v : V) (d : PyDict.dict V) :
  k <> k' -> dict_get k (PyDict.set k' v d) = dict_get k d.
Proof.
  intros Hne. unfold dict_get.
  induction d as [|[k0 v0] d IH]; simpl.
  - destruct (String.eqb_spec k' k); [congruence | reflexivity].
  - destruct (String.eqb_spec k0 k') as [->|Hk0]; simpl.
    + destruct (String.eqb_spec k' k); [congruence | reflexivity].
    + destruct (String.eqb_spec k0 k); [reflexivity | exact IH].
Qed.

Lemma dict_get_fold_set {V} k (kvs : list (string * V)) :
  forall d,
    Forall (fun kv => fst kv <> k) kvs ->
    dict_get k (fold_left (fun d kv => PyDict.set (fst kv) (snd kv) d) kvs d)
    = dict_get k d.
Proof.
  induction kvs as [|[k' v] kvs IH]; intros d Hall; [reflexivity|].
  apply Forall_cons_1 in Hall as [Hk Hall]. cbn [fst] in Hk.
  cbn [fold_left]. rewrite IH by exact Hall. apply dict_get_set_other.
  cbn [fst]. intros E. apply Hk. now symmetry.
Qed.

(** From ingestion to retrieval. When the metadata of a chunk has none
    of the four keys of the index, as is the case for the chunks of
    [process_document], the metadata that [index_chunks] stores reads back
    in [search_documents] as the chunk's document name, page number and
    chunk index, with the citation of [get_citation]; so the key by which
    [multi_query_retrieval] deduplicates the hit is the string hashed for
    the chunk's identifier. *)
Theorem index_metadata_roundtrip (c : DocumentChunk) (doc : string) (similarity : Q) :
  Forall (fun kv => ~ In (fst kv) ["document_name"; "page_number"; "chunk_index"; "citation"])
         (metadata c) ->
  exists md,
    metadata_view (stored_metadata c) = Some md /\
    Retrieval.document_name (Retrieval.make_chunk doc md similarity) = document_name c /\
    Retrieval.page_number (Retrieval.make_chunk doc md similarity) = page_number c /\
    Retrieval.chunk_index (Retrieval.make_chunk doc md similarity) = chunk_index c /\
    Retrieval.citation (Retrieval.make_chunk doc md similarity) = get_citation c /\
    Retrieval.chunk_id (Retrieval.make_chunk doc md similarity)
    = id_string (document_name c) (page_number c) (chunk_index c).
Proof.
  intros Hkeys.
  assert (Hget : forall k,
            In k ["document_name"; "page_number"; "chunk_index"; "citation"] ->
            dict_get k (stored_metadata c)
            = dict_get k
                [("document_name", MStr (document_name c));
                 ("page_number", MInt (page_number c));
                 ("chunk_index", MInt (chunk_index c));
                 ("citation", MStr (get_citation c))]).
  { intros k Hk. unfold stored_metadata. apply dict_get_fold_set.
    eapply Forall_impl; [exact Hkeys|]. cbn beta. intros kv Hkv E.
    apply Hkv. rewrite E. exact Hk. }
  eexists. split.
  - unfold metadata_view, str_field, int_field.
    rewrite !Hget by (simpl; tauto). reflexivity.
  - repeat split.
Qed.

Lemma index_metadata_roundtrip_witness :
  exists md,
    metadata_view (stored_metadata sample_document_chunk) = Some md /\
    Retrieval.document_name (Retrieval.make_chunk "text" md (Float.lit (9 # 10))) = "inventory.pdf" /\
    Retrieval.page_number (Retrieval.make_chunk "text" md (Float.lit (9 # 10))) = 2 /\
    Retrieval.chunk_index (Retrieval.make_chunk "text" md (Float.lit (9 # 10))) = 0 /\
    Retrieval.citation (Retrieval.make_chunk "text" md (Float.lit (9 # 10)))
    = get_citation sample_document_chunk /\
    Retrieval.chunk_id (Retrieval.make_chunk "text" md (Float.lit (9 # 10)))
    = id_string "inventory.pdf" 2 0.
Proof.
  apply (index_metadata_roundtrip sample_document_chunk "text" (Float.lit (9 # 10))).
  repeat constructor; simpl; intuition discriminate.
Defined.

(** *** Batches of embeddings *)

Lemma firstn_plus {A} (a b : nat) :
  forall l : list A, firstn (a + b) l = firstn a l ++ firstn b (skipn a l).
Proof.
  induction a as [|a IH]; intros l; [reflexivity|].
  destruct l as [|x l]; simpl; [now rewrite firstn_nil | now rewrite IH].
Qed.

Lemma concat_windows {A} (b : nat) (l : list A) :
  forall m,
    concat (map (fun k => firstn b (skipn (k * b) l)) (seq 0 m)) = firstn (m * b) l.
Proof.
  induction m as [|m IH]; [reflexivity|].
  rewrite seq_S, map_app, concat_app, IH. simpl.
  rewrite app_nil_r. replace (b + m * b)%nat with (m * b + b)%nat by lia.
  now rewrite firstn_plus.
Qed.

Lemma slice_window {A} (l : list A) (k : nat) (b : Z) :
  0 < b -> (k * Z.to_nat b <= length l)%nat ->
  PyList.slice l (Z.of_nat k * b) (Z.of_nat k * b + b)
  = firstn (Z.to_nat b) (skipn (k * Z.to_nat b) l).
Proof.
  intros Hb Hk. unfold PyList.slice, Py.norm_index.
  assert (Hi : 0 <= Z.of_nat k * b) by nia.
  destruct (Z.of_nat k * b <? 0) eqn:E1; [apply Z.ltb_lt in E1; lia|].
  destruct (Z.of_nat k * b + b <? 0) eqn:E2; [apply Z.ltb_lt in E2; lia|].
  assert (Hidx : Z.to_nat (Z.min (Z.of_nat k * b) (Z.of_nat (length l)))
                 = (k * Z.to_nat b)%nat) by nia.
  rewrite Hidx.
  destruct (Z.le_gt_cases (Z.of_nat k * b + b) (Z.of_nat (length l))) as [Hfit|Hover].
  - f_equal. nia.
  - rewrite !firstn_all2; [reflexivity | |]; rewrite length_skipn; nia.
Qed.

Lemma batches_of_windows texts batch_size :
  0 < batch_size ->
  batches_of texts batch_size
  = map (fun k => firstn (Z.to_nat batch_size) (skipn (k * Z.to_nat batch_size) texts))
        (seq 0 (Z.to_nat ((Z.of_nat (length texts) + batch_size - 1) / batch_size))).
Proof.
  intros Hb. unfold batches_of, PyList.range_from_zero.
  replace (0 <? batch_size) with true by (symmetry; now apply Z.ltb_lt).
  rewrite map_map. apply map_ext_in. intros k Hk. apply in_seq in Hk.
  apply slice_window; [exact Hb|].
  assert (Hm : Z.of_nat k < (Z.of_nat (length texts) + batch_size - 1) / batch_size) by lia.
  assert (Hmul : Z.of_nat k * batch_size + batch_size
                 <= Z.of_nat (length texts) + batch_size - 1).
  { pose proof (Z.mul_div_le (Z.of_nat (length texts) + batch_size - 1) batch_size Hb).
    nia. }
  nia.
Qed.

Lemma batches_spec texts batch_size :
  0 < batch_size ->
  concat (batches_of texts batch_size) = texts /\
  Forall (fun batch => 0 < Z.of_nat (length batch) <= batch_size)
         (batches_of texts batch_size) /\
  Z.of_nat (length (batches_of texts batch_size))
  = (Z.of_nat (length texts) + batch_size - 1) / batch_size.
Proof.
  intros Hb. rewrite batches_of_windows by exact Hb.
  set (n := Z.of_nat (length texts)).
  set (m := Z.to_nat ((n + batch_size - 1) / batch_size)).
  assert (Hq : 0 <= (n + batch_size - 1) / batch_size) by (apply Z.div_pos; lia).
  assert (Hhigh : n <= Z.of_nat m * batch_size).
  { pose proof (Z.mod_pos_bound (n + batch_size - 1) batch_size Hb).
    pose proof (Z.div_mod (n + batch_size - 1) batch_size ltac:(lia)). nia. }
  split; [|split].
  - rewrite concat_windows. apply firstn_all2. nia.
  - apply List.Forall_forall. intros batch Hbatch.
    apply in_map_iff in Hbatch as (k & <- & Hk). apply in_seq in Hk.
    assert (Hlow : Z.of_nat k * batch_size < n).
    { pose proof (Z.mul_div_le (n + batch_size - 1) batch_size Hb). nia. }
    rewrite length_firstn, length_skipn. nia.
  - rewrite length_map, length_seq. lia.
Qed.

(** The batches of [batch_generate_embeddings], for a positive batch
    size: put end to end they are the texts, in order; none is empty and
    none is longer than the batch size; and there are as many as the
    function announces, the number of texts divided by the batch size,
    rounded up. *)
Theorem batches_partition texts batch_size :
  0 < batch_size ->
  concat (batches_of texts batch_size) = texts /\
  Forall (fun batch => 0 < Z.of_nat (length batch) <= batch_size)
         (batches_of texts batch_size) /\
  Z.of_nat (length (batches_of texts batch_size))
  = (Z.of_nat (length texts) + batch_size - 1) / batch_size.
Proof. apply batches_spec. Qed.

Lemma batches_partition_witness :
  concat (batches_of ["a"; "b"; "c"; "d"; "e"] 2) = ["a"; "b"; "c"; "d"; "e"] /\
  Forall (fun batch => 0 < Z.of_nat (length batch) <= 2)
         (batches_of ["a"; "b"; "c"; "d"; "e"] 2) /\
  Z.of_nat (length (batches_of ["a"; "b"; "c"; "d"; "e"] 2))
  = (Z.of_nat (length ["a"; "b"; "c"; "d"; "e"]) + 2 - 1) / 2.
Proof. apply (batches_partition ["a"; "b"; "c"; "d"; "e"] 2). lia. Defined.

Lemma after_calls_nil st : after_calls st [] = st.
Proof. destruct st. unfold after_calls. simpl. now rewrite app_nil_r. Qed.

Lemma after_calls_app st cs cs' :
  after_calls (after_calls st cs) cs' = after_calls st (cs ++ cs').
Proof. unfold after_calls. simpl. now rewrite app_assoc. Qed.

Lemma embed_batches_ok env model (g : list string -> list Retrieval.Embedding) batches :
  forall all st,
    (forall batch, In batch batches ->
                   Retrieval.generate_embeddings env batch model = Ok (g batch)) ->
    embed_batches env batches model all st
    = (Ok (all ++ concat (map g batches)),
       after_calls st (map (fun batch => Retrieval.CallGenerateEmbeddings batch model)
                           batches)).
Proof.
  induction batches as [|batch batches IH]; intros all st Hg.
  - simpl. unfold Retrieval.ret. now rewrite app_nil_r, after_calls_nil.
  - cbn [embed_batches]. unfold Retrieval.bind, Retrieval.record_call, Retrieval.lift.
    rewrite (Hg batch) by now left.
    rewrite IH by (intros b Hb; apply Hg; now right).
    cbn [map concat]. rewrite <- app_assoc. f_equal.
    fold (after_calls st [Retrieval.CallGenerateEmbeddings batch model]).
    now rewrite after_calls_app.
Qed.

Lemma embed_batches_abort env model (g : list string -> list Retrieval.Embedding) pre :
  forall all st batch post e,
    (forall b, In b pre -> Retrieval.generate_embeddings env b model = Ok (g b)) ->
    Retrieval.generate_embeddings env batch model = Raise e ->
    embed_batches env (pre ++ batch :: post) model all st
    = (Raise e,
       after_calls st (map (fun b => Retrieval.CallGenerateEmbeddings b model)
                           (pre ++ [batch]))).
Proof.
  induction pre as [|b pre IH]; intros all st batch post e Hg He.
  - cbn [app embed_batches]. unfold Retrieval.bind, Retrieval.record_call, Retrieval.lift.
    now rewrite He.
  - cbn [app embed_batches]. unfold Retrieval.bind, Retrieval.record_call, Retrieval.lift.
    rewrite (Hg b) by now left.
    rewrite (IH _ _ batch post e) by (try (intros b' Hb'; apply Hg; now right); exact He).
    f_equal. fold (after_calls st [Retrieval.CallGenerateEmbeddings b model]).
    now rewrite after_calls_app.
Qed.

(** With a gateway that answers every batch with one embedding per text,
    [batch_generate_embeddings] returns one embedding per text, in the
    order of the texts, and asks for the batches one after the other. *)
Theorem batch_embeddings_in_order env texts batch_size model
    (f : string -> Retrieval.Embedding) st :
  0 < batch_size ->
  (forall batch, In batch (batches_of texts batch_size) ->
                 Retrieval.generate_embeddings env batch model = Ok (map f batch)) ->
  batch_generate_embeddings env texts batch_size model st
  = (Ok (map f texts),
     after_calls st (map (fun batch => Retrieval.CallGenerateEmbeddings batch model)
                         (batches_of texts batch_size))).
Proof.
  intros Hb Hg. unfold batch_generate_embeddings.
  replace (batch_size =? 0) with false by (symmetry; apply Z.eqb_neq; lia).
  rewrite (embed_batches_ok env model (map f)) by exact Hg.
  simpl. f_equal. f_equal.
  rewrite <- concat_map.
  destruct (batches_spec texts batch_size Hb) as [-> _]. reflexivity.
Qed.

Lemma batch_embeddings_in_order_witness :
  batch_generate_embeddings Samples.sample_env
    ["inventory accuracy"; "stock counts"; "restocking returns"] 2 EMBEDDING_MODEL
    Samples.initial_state
  = (Ok (map Samples.sample_embedding
           ["inventory accuracy"; "stock counts"; "restocking returns"]),
     after_calls Samples.initial_state
       (map (fun batch => Retrieval.CallGenerateEmbeddings batch EMBEDDING_MODEL)
            (batches_of ["inventory accuracy"; "stock counts"; "restocking returns"] 2))).
Proof.
  apply (batch_embeddings_in_order Samples.sample_env
           ["inventory accuracy"; "stock counts"; "restocking returns"] 2 EMBEDDING_MODEL
           Samples.sample_embedding Samples.initial_state); [lia|].
  intros batch _. reflexivity.
Defined.

(** A batch that fails ends the call: the exception of the gateway
    leaves [batch_generate_embeddings], the embeddings of the earlier
    batches are lost with it, and no later batch is asked for. *)
Theorem batch_embeddings_abort env texts batch_size model
    (f : string -> Retrieval.Embedding) st pre batch post e :
  batch_size <> 0 ->
  batches_of texts batch_size = pre ++ batch :: post ->
  (forall b, In b pre -> Retrieval.generate_embeddings env b model = Ok (map f b)) ->
  Retrieval.generate_embeddings env batch model = Raise e ->
  batch_generate_embeddings env texts batch_size model st
  = (Raise e,
     after_calls st (map (fun b => Retrieval.CallGenerateEmbeddings b model)
                         (pre ++ [batch]))).
Proof.
  intros Hb Hsplit Hpre He. unfold batch_generate_embeddings.
  replace (batch_size =? 0) with false by (symmetry; now apply Z.eqb_neq).
  rewrite Hsplit. now apply (embed_batches_abort env model (map f)).
Qed.

Lemma batch_embeddings_abort_witness :
  batch_generate_embeddings MoreSamples.env_flaky
    ["inventory accuracy"; "stock counts"; "restocking returns"] 1 EMBEDDING_MODEL
    Samples.initial_state
  = (Raise "RateLimitError",
     after_calls Samples.initial_state
       (map (fun b => Retrieval.CallGenerateEmbeddings b EMBEDDING_MODEL)
            ([["inventory accuracy"]] ++ [["stock counts"]]))).
Proof.
  apply (batch_embeddings_abort MoreSamples.env_flaky
           ["inventory accuracy"; "stock counts"; "restocking returns"] 1 EMBEDDING_MODEL
           Samples.sample_embedding Samples.initial_state
           [["inventory accuracy"]] ["stock counts"] [["restocking returns"]]
           "RateLimitError").
  - lia.
  - reflexivity.
  - intros b [<-|[]]. reflexivity.
  - reflexivity.
Defined.

(** A batch size that is not positive: zero raises [ZeroDivisionError]
    where the number of batches is computed; a negative size makes the
    range of the loop empty, and the call returns no embedding at all,
    whatever the texts. In both cases the gateway is not called. *)
Theorem batch_size_not_positive env texts batch_size model st :
  batch_size <= 0 ->
  batch_generate_embeddings env texts batch_size model st
  = (if batch_size =? 0 then Raise "ZeroDivisionError" else Ok [], st).
Proof.
  intros Hb. unfold batch_generate_embeddings, batches_of, PyList.range_from_zero.
  destruct (batch_size =? 0) eqn:E; [reflexivity|].
  replace (0 <? batch_size) with false by (symmetry; apply Z.ltb_ge; lia).
  reflexivity.
Qed.

Lemma batch_size_not_positive_witness :
  batch_generate_embeddings Samples.sample_env ["inventory accuracy"] (-4)
    EMBEDDING_MODEL Samples.initial_state
  = (Ok [], Samples.initial_state).
Proof.
  apply (batch_size_not_positive Samples.sample_env ["inventory accuracy"] (-4)
           EMBEDDING_MODEL Samples.initial_state).
  lia.
Defined.

End IndexingFacts.

(** ** Retriever: cache, rows and errors *)

Module RetrieverFacts.
Import Config Retrieval RetrievalRows RetrievalFacts.

(** The cache of collections. A handle that [get_collection] fetched is
    returned by every later call for that name, from the state it left,
    without a call to the client and without a change of the state, also
    when the client would fail by then. A failed fetch is not cached: the
    cache is as before and the call of the client is on record. *)
Theorem get_collection_caches env name st oc st1 :
  get_collection env name st = (Ok oc, st1) ->
  match oc with
  | Some c => forall env', get_collection env' name st1 = (Ok (Some c), st1)
  | None =>
      collection_cache st1 = collection_cache st /\
      calls st1 = calls st ++ [CallGetCollection name]
  end.
Proof.
  unfold get_collection, bind, try_except, cache_lookup, record_call, lift,
    cache_store, ret.
  simpl. destruct (collection_cache st !! name) as [c|] eqn:Hc.
  - intros H. injection H as <- <-. intros env'. simpl. now rewrite Hc.
  - destruct (client_get_collection env name) as [c|e]; intros H; injection H as <- <-.
    + intros env'. simpl. now rewrite lookup_insert_eq.
    + now split.
Qed.

Lemma get_collection_caches_witness :
  get_collection Samples.env_without_collection COLLECTION_NAME
    (snd (get_collection Samples.sample_env COLLECTION_NAME Samples.initial_state))
  = (Ok (Some Samples.sample_collection),
     snd (get_collection Samples.sample_env COLLECTION_NAME Samples.initial_state)).
Proof.
  apply (get_collection_caches Samples.sample_env COLLECTION_NAME Samples.initial_state
           (Some Samples.sample_collection)
           (snd (get_collection Samples.sample_env COLLECTION_NAME Samples.initial_state))).
  reflexivity.
Defined.

(** *** The rows of an answer *)

Lemma chunks_of_results_rows results min_score :
  chunks_of_results results min_score = collect_chunks (rows_of results) min_score [].
Proof.
  unfold chunks_of_results, rows_of.
  destruct (documents results) as [[|[|doc docs] rest]|]; reflexivity.
Qed.

Lemma collect_chunks_exact rows min_score :
  forall acc r,
    collect_chunks rows min_score acc = Ok r ->
    map (fun c => (text c, similarity_score c)) r
    = map (fun c => (text c, similarity_score c)) acc
      ++ map (fun row => (fst row, Float.sub 1 (snd (snd row))))
           (List.filter (passes min_score) rows).
Proof.
  induction rows as [|[doc [md d]] rows IH]; intros acc r; simpl.
  - intros H. injection H as <-. now rewrite app_nil_r.
  - unfold passes at 1. simpl.
    destruct (score_lt (Float.sub 1 d) min_score); simpl; [apply IH|].
    destruct md as [md|]; [|discriminate].
    intros H. apply IH in H. rewrite H, map_app, <- app_assoc. reflexivity.
Qed.

(** [search_documents] keeps the order of the index and drops nothing
    that reaches the floor: when the part after the query returns, the
    texts and scores of its chunks are those of the rows whose similarity
    is not below the minimum score, in the order of the rows, each with
    the float [1 - distance] as its similarity. *)
Theorem search_keeps_index_order results min_score r :
  chunks_of_results results min_score = Ok r ->
  map (fun c => (text c, similarity_score c)) r
  = map (fun row => (fst row, Float.sub 1 (snd (snd row))))
        (List.filter (passes min_score) (rows_of results)).
Proof.
  rewrite chunks_of_results_rows. intros H.
  now apply collect_chunks_exact in H.
Qed.

Lemma search_keeps_index_order_witness :
  map (fun c => (text c, similarity_score c))
    [Samples.chunk_inventory (Float.lit (9 # 10)); Samples.chunk_returns (Float.sub 1 (Float.lit (58 # 100)))]
  = map (fun row => (fst row, Float.sub 1 (snd (snd row))))
        (List.filter (passes (Float.lit (3 # 10)))
           (rows_of (Samples.hits ["Cycle counts drifted."; "Returns were restocked."]
                       [Some Samples.md_inventory; Some Samples.md_returns]
                       [Float.lit (1 # 10); Float.lit (58 # 100)]))).
Proof.
  apply (search_keeps_index_order
           (Samples.hits ["Cycle counts drifted."; "Returns were restocked."]
              [Some Samples.md_inventory; Some Samples.md_returns]
              [Float.lit (1 # 10); Float.lit (58 # 100)]) (Float.lit (3 # 10))).
  vm_compute. reflexivity.
Defined.

(** The answer of the index is read by [zip]: when it carries documents
    but no metadatas, or no distances, there is no row, and the search
    finds nothing instead of failing. *)
Theorem search_without_columns results min_score :
  metadatas results = None \/ metadatas results = Some [] \/
  distances results = None \/ distances results = Some [] ->
  chunks_of_results results min_score = Ok [].
Proof.
  rewrite chunks_of_results_rows. unfold rows_of.
  intros [H|[H|[H|H]]]; rewrite H; simpl.
  - now rewrite combine_nil.
  - now rewrite combine_nil.
  - destruct (first_or_empty (metadatas results)); simpl; now rewrite combine_nil.
  - destruct (first_or_empty (metadatas results)); simpl; now rewrite combine_nil.
Qed.

Lemma search_without_columns_witness :
  chunks_of_results
    {| documents := Some [["Cycle counts drifted."]];
       metadatas := None;
       distances := Some [[Float.lit (1 # 10)]] |} (Float.lit (3 # 10)) = Ok [].
Proof. apply search_without_columns. now left. Defined.

(** *** The similarity and the exact difference *)

(** The similarity that [search_documents] stores is the float
    [1 - distance], a rounded difference. For a cosine distance, which
    lies between 0 and 2, it is within [2^-53] of the exact [1 - d]; so
    the exact similarity of a kept chunk is at least the minimum score
    less [2^-53]. It need not reach the minimum score itself: at
    distance [0.1] and minimum score [0.9] the hit is kept, and the exact
    [1 - 0.1] is below the float [0.9]. *)
Theorem similarity_within_rounding results min_score r :
  chunks_of_results results min_score = Ok r ->
  Forall (fun row => (0 <= snd (snd row) <= 2)%Q) (rows_of results) ->
  Forall (fun c => exists doc md d,
            In (doc, (Some md, d)) (rows_of results) /\
            text c = doc /\
            (1 - d - Float.unit_roundoff <= similarity_score c
             <= 1 - d + Float.unit_roundoff)%Q /\
            (min_score - Float.unit_roundoff <= 1 - d)%Q) r.
Proof.
  rewrite chunks_of_results_rows. intros H Hrows.
  apply RetrievalClaims.collect_chunks_rows in H.
  eapply Forall_impl; [exact H|]. simpl.
  intros c [[]|(doc & md & d & Hin & -> & Hle)].
  exists doc, md, d. split; [exact Hin|]. split; [reflexivity|].
  assert (Hd : (0 <= d <= 2)%Q).
  { apply (proj1 (List.Forall_forall _ _) Hrows (doc, (Some md, d)) Hin). }
  pose proof (FloatFacts.sub_one_near d Hd) as Hnear.
  simpl. split; [exact Hnear|]. lra.
Qed.

Lemma similarity_within_rounding_witness :
  Forall (fun c => exists doc md d,
            In (doc, (Some md, d))
               (rows_of (Samples.hits ["Cycle counts drifted."]
                           [Some Samples.md_inventory] [Float.lit (1 # 10)])) /\
            text c = doc /\
            (1 - d - Float.unit_roundoff <= similarity_score c
             <= 1 - d + Float.unit_roundoff)%Q /\
            (Float.lit (9 # 10) - Float.unit_roundoff <= 1 - d)%Q)
    [Samples.chunk_inventory (Float.lit (9 # 10))] /\
  (1 - Float.lit (1 # 10) < Float.lit (9 # 10))%Q.
Proof.
  split; [|vm_compute; reflexivity].
  apply (similarity_within_rounding
           (Samples.hits ["Cycle counts drifted."] [Some Samples.md_inventory]
              [Float.lit (1 # 10)])
           (Float.lit (9 # 10))).
  - vm_compute. reflexivity.
  - repeat constructor; vm_compute; discriminate.
Defined.

(** *** A hit without metadata *)

Lemma collect_chunks_raises rows min_score doc d :
  In (doc, (None, d)) rows -> score_lt (Float.sub 1 d) min_score = false ->
  forall acc, collect_chunks rows min_score acc = Raise "AttributeError".
Proof.
  induction rows as [|[doc' [md d']] rows IH]; intros Hin Hpass acc; [destruct Hin|].
  simpl. destruct Hin as [Heq|Hin].
  - injection Heq as -> -> ->. now rewrite Hpass.
  - destruct (score_lt (Float.sub 1 d') min_score); [now apply IH|].
    destruct md; [now apply IH | reflexivity].
Qed.

(** Not every failure becomes an empty result. When the index answers
    with a hit whose similarity, the float [1 - distance], reaches the
    floor and that has no metadata,
    [search_documents] raises [AttributeError] at [metadata.get], outside
    its [try] blocks, and [retrieve_with_context] raises with it. *)
Theorem search_raises_without_metadata env query_text top_k min_score st
    c st1 emb rest results doc d :
  get_collection env COLLECTION_NAME st = (Ok (Some c), st1) ->
  generate_embeddings env [query_text] EMBEDDING_MODEL = Ok (emb :: rest) ->
  query c emb top_k = Ok results ->
  In (doc, (None, d)) (rows_of results) ->
  (min_score <= Float.sub 1 d)%Q ->
  fst (search_documents env query_text top_k min_score COLLECTION_NAME st)
  = Raise "AttributeError" /\
  fst (retrieve_with_context env query_text top_k min_score st) = Raise "AttributeError".
Proof.
  intros Hc Hemb Hq Hin Hle.
  assert (Hpass : score_lt (Float.sub 1 d) min_score = false).
  { unfold score_lt. apply negb_false_iff. now apply Qle_bool_iff. }
  assert (Hs : fst (search_documents env query_text top_k min_score COLLECTION_NAME st)
               = Raise "AttributeError").
  { unfold search_documents, bind at 1. rewrite Hc.
    unfold bind, try_except, embed_query, run_query, bind, record_call, lift, ret.
    simpl. rewrite Hemb. simpl. rewrite Hq. simpl.
    rewrite chunks_of_results_rows.
    now rewrite (collect_chunks_raises _ _ doc d Hin Hpass). }
  split; [exact Hs|].
  unfold retrieve_with_context, bind.
  destruct (search_documents env query_text top_k min_score COLLECTION_NAME st)
    as [[cs|e] st2]; simpl in Hs; [discriminate|]. simpl. now injection Hs as ->.
Qed.

Lemma search_raises_without_metadata_witness :
  fst (search_documents MoreSamples.env_bare_hit "inventory accuracy" 5 (Float.lit (3 # 10))
         COLLECTION_NAME Samples.initial_state) = Raise "AttributeError" /\
  fst (retrieve_with_context MoreSamples.env_bare_hit "inventory accuracy" 5 (Float.lit (3 # 10))
         Samples.initial_state) = Raise "AttributeError".
Proof.
  eapply (search_raises_without_metadata MoreSamples.env_bare_hit "inventory accuracy" 5
            (Float.lit (3 # 10)) Samples.initial_state _ _ _ _ _ "Cycle counts drifted." (Float.lit (1 # 10))).
  - vm_compute. reflexivity.
  - reflexivity.
  - reflexivity.
  - left. reflexivity.
  - vm_compute. discriminate.
Defined.

End RetrieverFacts.

(** ** Retriever: grouping, merging, sorting *)

Module MergeFacts.
Import Config Retrieval RetrievalFacts.

(** *** [chunks_by_document] *)

Lemma first_occurrences_snoc xs x :
  forall seen,
    Py.first_occurrences seen (xs ++ [x])
    = Py.first_occurrences seen xs
      ++ (if existsb (String.eqb x) (seen ++ xs) then [] else [x]).
Proof.
  induction xs as [|y xs IH]; intros seen; simpl.
  - rewrite app_nil_r. now destruct (existsb (String.eqb x) seen).
  - destruct (existsb (String.eqb y) seen) eqn:Hy.
    + rewrite IH. f_equal.
      assert (H : existsb (String.eqb x) (seen ++ xs)
                  = existsb (String.eqb x) (seen ++ y :: xs)).
      { rewrite !existsb_app. simpl.
        destruct (String.eqb_spec x y) as [->|_]; [|reflexivity].
        rewrite Hy. reflexivity. }
      now rewrite H.
    + simpl. rewrite IH. f_equal. f_equal.
      assert (H : existsb (String.eqb x) ((y :: seen) ++ xs)
                  = existsb (String.eqb x) (seen ++ y :: xs)).
      { simpl. rewrite !existsb_app. simpl.
        destruct (String.eqb x y), (existsb (String.eqb x) seen); reflexivity. }
      now rewrite H.
Qed.

Lemma keys_update {V} k (f : V -> V) (d : PyDict.dict V) :
  PyDict.keys (PyDict.update k f d) = PyDict.keys d.
Proof.
  induction d as [|[k' v] d IH]; [reflexivity|]. simpl.
  destruct (String.eqb k' k); simpl; [reflexivity | now rewrite IH].
Qed.

Lemma update_entries {V} k (f : V -> V) (d : PyDict.dict V) :
  List.NoDup (PyDict.keys d) ->
  forall k' v',
    In (k', v') (PyDict.update k f d) <->
    (k' <> k /\ In (k', v') d) \/ (k' = k /\ exists v, In (k, v) d /\ v' = f v).
Proof.
  induction d as [|[k0 v0] d IH]; intros Hnd k' v'; simpl.
  - split; [intros [] | intros [[_ []]|[_ (v & [] & _)]]].
  - simpl in Hnd. apply List.NoDup_cons_iff in Hnd as [Hk0 Hnd].
    destruct (String.eqb_spec k0 k) as [->|Hne]; simpl.
    + split.
      * intros [H|H].
        -- injection H as <- <-. right. split; [reflexivity|]. exists v0. now split; [left|].
        -- left. split; [|now right]. intros ->. apply Hk0.
           unfold PyDict.keys. change k with (fst (k, v')). now apply in_map.
      * intros [[Hk [H|H]]|[-> (v & [H|H] & ->)]].
        -- injection H as -> _. contradiction.
        -- now right.
        -- injection H as ->. now left.
        -- exfalso. apply Hk0. unfold PyDict.keys. change k with (fst (k, v)).
           now apply in_map.
    + rewrite (IH Hnd). split.
      * intros [H|[[Hk H]|[-> (v & H & ->)]]].
        -- injection H as <- <-. left. split; [exact Hne | now left].
        -- left. split; [exact Hk | now right].
        -- right. split; [reflexivity|]. exists v. split; [now right | reflexivity].
      * intros [[Hk [H|H]]|[-> (v & [H|H] & ->)]].
        -- now left.
        -- right. left. now split.
        -- injection H as -> _. contradiction.
        -- right. right. split; [reflexivity|]. now exists v.
Qed.

Lemma filter_snoc {A} (p : A -> bool) l x :
  List.filter p (l ++ [x]) = List.filter p l ++ (if p x then [x] else []).
Proof. rewrite List.filter_app. reflexivity. Qed.

(** The invariant of the loop that builds [chunks_by_doc]. *)
Lemma group_by_document_inv chunks :
  PyDict.keys (group_by_document chunks)
  = Py.first_occurrences [] (map document_name chunks) /\
  forall doc l,
    In (doc, l) (group_by_document chunks) ->
    l = List.filter (fun c => String.eqb (document_name c) doc) chunks.
Proof.
  unfold group_by_document.
  induction chunks as [|c chunks IH] using rev_ind; [split; [reflexivity | intros ? ? []]|].
  rewrite fold_left_app. cbn [fold_left].
  match goal with
  | H : context [fold_left ?f chunks []] |- _ => set (d := fold_left f chunks []) in *
  end.
  destruct IH as [Hkeys Hgroups].
  assert (Hnd : List.NoDup (PyDict.keys d)).
  { rewrite Hkeys. apply CitationFacts.first_occurrences_NoDup. }
  assert (Hin : PyDict.contains (document_name c) d
                = existsb (String.eqb (document_name c)) ([] ++ map document_name chunks)).
  { simpl. destruct (PyDict.contains (document_name c) d) eqn:E.
    - apply CitationFacts.contains_In in E. rewrite Hkeys in E.
      apply CitationFacts.first_occurrences_In in E as [E _].
      symmetry. now apply CitationFacts.existsb_eqb_In.
    - destruct (existsb (String.eqb (document_name c)) (map document_name chunks)) eqn:E';
        [|reflexivity].
      apply CitationFacts.existsb_eqb_In in E'.
      assert (Hk : In (document_name c) (PyDict.keys d)).
      { rewrite Hkeys. apply CitationFacts.first_occurrences_In. simpl. tauto. }
      apply CitationFacts.contains_In in Hk. congruence. }
  split.
  - rewrite keys_update, map_app. cbn [map]. rewrite first_occurrences_snoc, <- Hin.
    destruct (PyDict.contains (document_name c) d) eqn:E.
    + rewrite app_nil_r. exact Hkeys.
    + rewrite CitationFacts.keys_set, E, Hkeys. reflexivity.
  - intros doc l Hl. rewrite filter_snoc.
    destruct (PyDict.contains (document_name c) d) eqn:E.
    + apply (update_entries _ _ d Hnd) in Hl as [[Hne Hl]|[-> (v & Hv & ->)]].
      * apply Hgroups in Hl. rewrite Hl.
        destruct (String.eqb_spec (document_name c) doc); [congruence|].
        now rewrite app_nil_r.
      * apply Hgroups in Hv. rewrite Hv, String.eqb_refl. reflexivity.
    + assert (Hset : forall k v, In (k, v) (PyDict.set (document_name c) [] d) <->
                                 In (k, v) d \/ (k = document_name c /\ v = [])).
      { clear - E. induction d as [|[k0 v0] d IHd]; intros k v; simpl.
        - split; [intros [H|[]]; injection H as <- <-; now right
                 | intros [[]|[-> ->]]; now left].
        - unfold PyDict.contains in E. simpl in E. apply orb_false_iff in E as [E0 E].
          rewrite E0. simpl. rewrite (IHd E). tauto. }
      assert (Hnd' : List.NoDup (PyDict.keys (PyDict.set (document_name c) [] d))).
      { rewrite CitationFacts.keys_set, E. apply List.NoDup_app; [exact Hnd | |].
        - constructor; [intros [] | constructor].
        - intros x Hx [<-|[]]. apply CitationFacts.contains_In in Hx. congruence. }
      apply (update_entries _ _ _ Hnd') in Hl as [[Hne Hl]|[-> (v & Hv & ->)]].
      * apply Hset in Hl as [Hl|[-> _]]; [|contradiction].
        apply Hgroups in Hl. rewrite Hl.
        destruct (String.eqb_spec (document_name c) doc); [congruence|].
        now rewrite app_nil_r.
      * rewrite String.eqb_refl.
        apply Hset in Hv as [Hv|[_ ->]].
        -- exfalso. assert (Hk : In (document_name c) (PyDict.keys d)).
           { unfold PyDict.keys. change (document_name c) with (fst (document_name c, v)).
             now apply in_map. }
           apply CitationFacts.contains_In in Hk. congruence.
        -- assert (Hnone : List.filter
                             (fun c0 => String.eqb (document_name c0) (document_name c))
                             chunks = []).
           { destruct (List.filter _ chunks) as [|x xs] eqn:Hf; [reflexivity|].
             assert (Hx : In x (List.filter
                                  (fun c0 => String.eqb (document_name c0) (document_name c))
                                  chunks)) by (rewrite Hf; now left).
             apply filter_In in Hx as [Hx Hname]. apply String.eqb_eq in Hname.
             exfalso.
             assert (Hk : In (document_name c) (PyDict.keys d)).
             { rewrite Hkeys. apply CitationFacts.first_occurrences_In. split; [|tauto].
               rewrite <- Hname. now apply in_map. }
             apply CitationFacts.contains_In in Hk. congruence. }
           now rewrite Hnone.
Qed.

(** [chunks_by_document], the grouping that [retrieve_with_context]
    returns: its keys are the document names of the chunks, each once,
    in the order in which the documents first appear; under each name
    stand exactly the chunks of that document, in their order among the
    chunks. *)
Theorem chunks_by_document_groups env query_text top_k min_score st res st' groups :
  retrieve_with_context env query_text top_k min_score st = (Ok res, st') ->
  chunks_by_document res = Some groups ->
  Py.first_seen_order (map document_name (chunks res)) (PyDict.keys groups) /\
  forall doc l,
    In (doc, l) groups ->
    l = List.filter (fun c => String.eqb (document_name c) doc) (chunks res).
Proof.
  unfold retrieve_with_context. intros H Hg.
  apply bind_ok in H as (cs & st1 & _ & H).
  destruct cs as [|c cs]; injection H as <- _; cbn [chunks chunks_by_document] in *;
    [discriminate|].
  injection Hg as <-.
  destruct (group_by_document_inv (c :: cs)) as [Hkeys Hgroups].
  split; [|exact Hgroups].
  rewrite Hkeys. apply CitationFacts.first_occurrences_first_seen.
Qed.

Lemma chunks_by_document_groups_witness :
  Py.first_seen_order
    (map document_name [Samples.chunk_inventory (Float.lit (9 # 10)); Samples.chunk_returns (Float.sub 1 (Float.lit (58 # 100)))])
    (PyDict.keys [("inventory.pdf", [Samples.chunk_inventory (Float.lit (9 # 10))]);
                  ("returns.pdf", [Samples.chunk_returns (Float.sub 1 (Float.lit (58 # 100)))])]) /\
  forall doc l,
    In (doc, l) [("inventory.pdf", [Samples.chunk_inventory (Float.lit (9 # 10))]);
                 ("returns.pdf", [Samples.chunk_returns (Float.sub 1 (Float.lit (58 # 100)))])] ->
    l = List.filter (fun c => String.eqb (document_name c) doc)
          [Samples.chunk_inventory (Float.lit (9 # 10)); Samples.chunk_returns (Float.sub 1 (Float.lit (58 # 100)))].
Proof.
  eapply (chunks_by_document_groups Samples.sample_env "inventory accuracy" 5 (Float.lit (3 # 10))
            Samples.initial_state
            {| found := true;
               message := "Found 2 relevant chunks from 2 documents.";
               chunks := [Samples.chunk_inventory (Float.lit (9 # 10));
                          Samples.chunk_returns (Float.sub 1 (Float.lit (58 # 100)))];
               context := _;
               citations := _;
               chunks_by_document := _ |}).
  - vm_compute. reflexivity.
  - reflexivity.
Defined.

(** *** What the merge keeps *)

Lemma fold_add_unseen_ids l :
  forall acc,
    merge_inv acc ->
    forall x,
      In x (map chunk_id (fst (fold_left add_unseen l acc))) <->
      In x (map chunk_id (fst acc)) \/ In x (map chunk_id l).
Proof.
  induction l as [|c l IH]; intros acc Hinv x; simpl; [tauto|].
  rewrite (IH (add_unseen acc c) (add_unseen_inv acc c Hinv)).
  destruct acc as [all seen]. destruct Hinv as [_ Hseen]. unfold add_unseen.
  destruct (decide (chunk_id c ∈ seen)) as [Hin|Hout]; simpl in *.
  - apply Hseen in Hin. intuition congruence.
  - rewrite map_app, in_app_iff. simpl. tauto.
Qed.

Lemma collect_queries_results env queries top_k min_score :
  forall acc st acc' st',
    collect_queries env queries top_k min_score acc st = (Ok acc', st') ->
    exists results,
      Forall2 (fun q r => exists st1 st2,
                 search_documents env q top_k min_score COLLECTION_NAME st1 = (Ok r, st2))
              queries results /\
      acc' = fold_left add_unseen (concat results) acc.
Proof.
  induction queries as [|q queries IH]; intros acc st acc' st' H; simpl in H.
  - injection H as <- _. exists []. split; [constructor | reflexivity].
  - apply bind_ok in H as (r & st1 & Hs & H).
    apply IH in H as (results & Hall & ->).
    exists (r :: results). split.
    + constructor; [now exists st, st1 | exact Hall].
    + simpl. now rewrite fold_left_app.
Qed.

(** The merge of [multi_query_retrieval] loses no chunk identifier and
    invents none. The searches of the queries return lists of hits, one
    per query; every chunk of the merged result is one of these hits, a
    key (document, page, index) is in the merged result exactly when some
    hit has it, and the result reports [found = False] exactly when no
    query returned a hit. *)
Theorem merge_keeps_every_key env queries top_k min_score st res st' :
  multi_query_retrieval env queries top_k min_score st = (Ok res, st') ->
  exists results,
    Forall2 (fun q r => exists st1 st2,
               search_documents env q top_k min_score COLLECTION_NAME st1 = (Ok r, st2))
            queries results /\
    (forall c, In c (chunks res) -> In c (concat results)) /\
    (forall key, In key (map chunk_key (chunks res)) <->
                 In key (map chunk_key (concat results))) /\
    (found res = false <-> concat results = []).
Proof.
  intros H.
  assert (Hfound : found res = false <-> chunks res = []).
  { unfold multi_query_retrieval in H.
    apply bind_ok in H as (acc & st1 & _ & H).
    destruct (sort_by_score_desc (fst acc)); injection H as <- _; simpl;
      split; congruence. }
  apply multi_query_retrieval_ok in H as (acc & Hc & Hchunks).
  apply collect_queries_results in Hc as (results & Hall & ->).
  exists results. split; [exact Hall|].
  assert (Hsub : forall c, In c (chunks res) -> In c (concat results)).
  { intros c Hc. rewrite Hchunks in Hc.
    eapply Permutation_in in Hc; [|apply sort_by_score_desc_perm].
    apply fold_add_unseen_from in Hc as [[]|Hc]. exact Hc. }
  assert (Hids : forall x, In x (map chunk_id (chunks res)) <->
                           In x (map chunk_id (concat results))).
  { intros x. rewrite Hchunks. split; intros Hx.
    - eapply Permutation_in in Hx;
        [|apply Permutation_map, sort_by_score_desc_perm].
      apply (fold_add_unseen_ids _ _ merge_inv_init) in Hx as [[]|Hx]. exact Hx.
    - eapply Permutation_in;
        [apply Permutation_map; symmetry; apply sort_by_score_desc_perm|].
      apply (fold_add_unseen_ids _ _ merge_inv_init). now right. }
  split; [exact Hsub|]. split.
  - intros key. split.
    + intros Hk. apply in_map_iff in Hk as (c & <- & Hc). apply in_map. now apply Hsub.
    + intros Hk. apply in_map_iff in Hk as (h & <- & Hh).
      assert (Hid : In (chunk_id h) (map chunk_id (chunks res))).
      { apply Hids. now apply in_map. }
      apply in_map_iff in Hid as (c & Hid & Hc).
      assert (Hkey : chunk_key c = chunk_key h).
      { unfold chunk_key. unfold chunk_id in Hid.
        apply IdentityFacts.id_string_inj in Hid as (-> & -> & ->). reflexivity. }
      rewrite <- Hkey. now apply in_map.
  - rewrite Hfound. split.
    + intros Hnil. destruct (concat results) as [|h hs] eqn:Hcat; [reflexivity|].
      assert (Hid : In (chunk_id h) (map chunk_id (chunks res))).
      { apply Hids. try rewrite Hcat. now left. }
      rewrite Hnil in Hid. destruct Hid.
    + intros Hnil. destruct (chunks res) as [|c cs] eqn:Hres; [reflexivity|].
      assert (Hc : In c (concat results)) by (apply Hsub; try rewrite Hres; now left).
      rewrite Hnil in Hc. destruct Hc.
Qed.

Lemma merge_keeps_every_key_witness :
  exists res st',
    multi_query_retrieval Samples.sample_env ["stock counts"; "inventory accuracy"] 3
      (Float.lit (3 # 10)) Samples.initial_state = (Ok res, st') /\
    exists results,
      Forall2 (fun q r => exists st1 st2,
                 search_documents Samples.sample_env q 3 (Float.lit (3 # 10)) COLLECTION_NAME st1
                 = (Ok r, st2))
              ["stock counts"; "inventory accuracy"] results /\
      (forall c, In c (chunks res) -> In c (concat results)) /\
      (forall key, In key (map chunk_key (chunks res)) <->
                   In key (map chunk_key (concat results))) /\
      (found res = false <-> concat results = []).
Proof.
  eexists. eexists. split; [vm_compute; reflexivity|].
  eapply (merge_keeps_every_key Samples.sample_env ["stock counts"; "inventory accuracy"]
            3 (Float.lit (3 # 10)) Samples.initial_state).
  vm_compute. reflexivity.
Defined.

(** *** The sort is stable *)

Lemma filter_score_none q c (l : list RetrievedChunk) :
  Forall (fun x => (similarity_score x < similarity_score c)%Q) l ->
  Qeq_bool (similarity_score c) q = true ->
  List.filter (fun x => Qeq_bool (similarity_score x) q) l = [].
Proof.
  intros Hall Hc. apply Qeq_bool_iff in Hc.
  induction l as [|x l IH]; [reflexivity|].
  apply Forall_cons_1 in Hall as [Hx Hall]. simpl.
  destruct (Qeq_bool (similarity_score x) q) eqn:Hq; [|now apply IH].
  apply Qeq_bool_iff in Hq. exfalso.
  apply (Qlt_not_eq _ _ Hx). now rewrite Hq, Hc.
Qed.

Lemma insert_by_score_filter q c l :
  sorted_by_score_desc l ->
  List.filter (fun x => Qeq_bool (similarity_score x) q) (insert_by_score c l)
  = List.filter (fun x => Qeq_bool (similarity_score x) q) l
    ++ (if Qeq_bool (similarity_score c) q then [c] else []).
Proof.
  unfold sorted_by_score_desc.
  induction l as [|h t IH]; intros Hs; [reflexivity|].
  apply StronglySorted_inv in Hs as [Ht Hh]. cbn [insert_by_score].
  destruct (Qle_bool (similarity_score c) (similarity_score h)) eqn:Hle.
  - cbn [List.filter]. rewrite (IH Ht).
    now destruct (Qeq_bool (similarity_score h) q).
  - assert (Hlt : (similarity_score h < similarity_score c)%Q).
    { apply Qnot_le_lt. intros H. apply Qle_bool_iff in H. congruence. }
    change (List.filter (fun x => Qeq_bool (similarity_score x) q) (c :: h :: t))
      with (if Qeq_bool (similarity_score c) q
            then c :: List.filter (fun x => Qeq_bool (similarity_score x) q) (h :: t)
            else List.filter (fun x => Qeq_bool (similarity_score x) q) (h :: t)).
    destruct (Qeq_bool (similarity_score c) q) eqn:Hc; [|now rewrite app_nil_r].
    rewrite (filter_score_none q c (h :: t)); [reflexivity | | exact Hc].
    constructor; [exact Hlt|].
    eapply Forall_impl; [exact Hh|]. simpl. intros x Hx.
    eapply Qle_lt_trans; eassumption.
Qed.

(** Ties keep their order. The sort of [multi_query_retrieval] is stable:
    among the chunks of one similarity score, the sorted list has the
    order that the chunks had before, that is the order in which the
    queries first returned them. *)
Theorem sort_by_score_stable l q :
  List.filter (fun x => Qeq_bool (similarity_score x) q) (sort_by_score_desc l)
  = List.filter (fun x => Qeq_bool (similarity_score x) q) l.
Proof.
  unfold sort_by_score_desc.
  assert (H : forall acc,
            sorted_by_score_desc acc ->
            List.filter (fun x => Qeq_bool (similarity_score x) q)
              (fold_left (fun sorted chunk => insert_by_score chunk sorted) l acc)
            = List.filter (fun x => Qeq_bool (similarity_score x) q) acc
              ++ List.filter (fun x => Qeq_bool (similarity_score x) q) l).
  { induction l as [|c l IH]; intros acc Hacc; cbn [fold_left].
    - now rewrite app_nil_r.
    - rewrite (IH _ (insert_by_score_sorted c acc Hacc)).
      rewrite (insert_by_score_filter q c acc Hacc), <- app_assoc.
      cbn [List.filter]. now destruct (Qeq_bool (similarity_score c) q). }
  apply (H []). constructor.
Qed.

End MergeFacts.

(** ** Formatting and tools *)

Module FormatFacts.
Import Config Retrieval Prompting Tools RetrievalFacts.

Lemma append_nil_r (s : string) : s +:+ EmptyString = s.
Proof. induction s as [|c s IH]; [reflexivity | exact (f_equal (String c) IH)]. Qed.

Lemma prefix_refl_append (s t : string) : String.prefix s (s +:+ t) = true.
Proof.
  induction s as [|c s IH]; [change (EmptyString +:+ t) with t; now destruct t|].
  change (String.prefix (String c s) (String c (s +:+ t)) = true). cbn.
  destruct (ascii_dec c c); [exact IH | contradiction].
Qed.

Lemma prefix_extend (sub : string) :
  forall s b, String.prefix sub s = true -> String.prefix sub (s +:+ b) = true.
Proof.
  induction sub as [|c sub IH]; intros s b H; [now destruct (s +:+ b)|].
  destruct s as [|x s]; [discriminate|].
  change (String.prefix (String c sub) (String x (s +:+ b)) = true).
  cbn in *. destruct (ascii_dec c x); [now apply IH | discriminate].
Qed.

Lemma contains_here (sub t : string) : Py.contains sub (sub +:+ t) = true.
Proof.
  destruct (sub +:+ t) eqn:E; cbn [Py.contains];
    rewrite <- E, prefix_refl_append; reflexivity.
Qed.

Lemma contains_skip (sub a : string) :
  forall t, Py.contains sub t = true -> Py.contains sub (a +:+ t) = true.
Proof.
  induction a as [|x a IH]; intros t H; [exact H|].
  change (Py.contains sub (String x (a +:+ t)) = true). cbn [Py.contains].
  rewrite (IH t H). apply orb_true_r.
Qed.

Lemma contains_extend (sub : string) :
  forall s b, Py.contains sub s = true -> Py.contains sub (s +:+ b) = true.
Proof.
  induction s as [|x s IH]; intros b H.
  - cbn in H. rewrite orb_false_r in H.
    destruct sub; [|discriminate]. destruct b; reflexivity.
  - change (Py.contains sub (String x (s +:+ b)) = true).
    cbn [Py.contains] in *. apply orb_true_iff in H as [H|H].
    + change (String x (s +:+ b)) with (String x s +:+ b).
      now rewrite (prefix_extend sub (String x s) b H).
    + rewrite (IH b H). apply orb_true_r.
Qed.

Lemma contains_inside (sub a b : string) : Py.contains sub (a +:+ sub +:+ b) = true.
Proof. apply contains_skip, contains_here. Qed.

Lemma join_holds sep parts p :
  In p parts -> exists a b, Py.join sep parts = a +:+ p +:+ b.
Proof.
  induction parts as [|p0 parts IH]; intros Hin; [destruct Hin|].
  destruct parts as [|p1 parts].
  - destruct Hin as [->|[]]. exists EmptyString, EmptyString.
    cbn [Py.join]. now rewrite append_nil_r.
  - change (Py.join sep (p0 :: p1 :: parts))
      with (p0 +:+ sep +:+ Py.join sep (p1 :: parts)).
    destruct Hin as [->|Hin].
    + exists EmptyString. eexists. reflexivity.
    + destruct (IH Hin) as (a & b & ->).
      exists (p0 +:+ sep +:+ a), b.
      now rewrite !ChunkerFacts.str_append_assoc.
Qed.

Lemma source_sections_parts include_scores chunks c :
  In c chunks ->
  forall i,
    In ("**Citation:** " +:+ citation c) (source_sections include_scores i chunks) /\
    In (Py.nl +:+ "**Content:**" +:+ Py.nl +:+ text c)
       (source_sections include_scores i chunks).
Proof.
  induction chunks as [|x chunks IH]; intros Hin i; [destruct Hin|].
  cbn [source_sections]. destruct Hin as [->|Hin].
  - split.
    + apply in_app_iff. left. right. now left.
    + apply in_app_iff. right. apply in_app_iff. right.
      apply in_app_iff. left. now left.
  - destruct (IH Hin (i + 1)) as [H1 H2].
    split; apply in_app_iff; right; apply in_app_iff; right; apply in_app_iff; right;
      assumption.
Qed.

(** The context that [format_context_for_agent] hands to an agent holds,
    for every chunk, its citation and its whole text, whether or not the
    scores are shown: no source is left out and no text is cut. *)
Theorem context_holds_every_chunk chunks include_scores c :
  In c chunks ->
  Py.contains (citation c) (format_context_for_agent chunks include_scores) = true /\
  Py.contains (text c) (format_context_for_agent chunks include_scores) = true.
Proof.
  intros Hin. unfold format_context_for_agent.
  destruct chunks as [|x chunks]; [destruct Hin|].
  destruct (source_sections_parts include_scores (x :: chunks) c Hin 1) as [H1 H2].
  split.
  - destruct (join_holds Py.nl
                (["# Retrieved Information" +:+ Py.nl;
                  "Found " +:+ Py.str_of_int (Z.of_nat (length (x :: chunks)))
                  +:+ " relevant sources:" +:+ Py.nl]
                 ++ source_sections include_scores 1 (x :: chunks))
                ("**Citation:** " +:+ citation c)) as (a & b & ->).
    { apply in_app_iff. now right. }
    apply contains_skip, contains_extend, contains_skip.
    rewrite <- (append_nil_r (citation c)) at 2. apply contains_here.
  - destruct (join_holds Py.nl
                (["# Retrieved Information" +:+ Py.nl;
                  "Found " +:+ Py.str_of_int (Z.of_nat (length (x :: chunks)))
                  +:+ " relevant sources:" +:+ Py.nl]
                 ++ source_sections include_scores 1 (x :: chunks))
                (Py.nl +:+ "**Content:**" +:+ Py.nl +:+ text c)) as (a & b & ->).
    { apply in_app_iff. now right. }
    apply contains_skip, contains_extend, contains_skip, contains_skip, contains_skip.
    rewrite <- (append_nil_r (text c)) at 2. apply contains_here.
Qed.

Lemma context_holds_every_chunk_witness :
  Py.contains (citation (Samples.chunk_returns (Float.sub 1 (Float.lit (58 # 100)))))
    (format_context_for_agent
       [Samples.chunk_inventory (Float.lit (9 # 10)); Samples.chunk_returns (Float.sub 1 (Float.lit (58 # 100)))] true) = true /\
  Py.contains (text (Samples.chunk_returns (Float.sub 1 (Float.lit (58 # 100)))))
    (format_context_for_agent
       [Samples.chunk_inventory (Float.lit (9 # 10)); Samples.chunk_returns (Float.sub 1 (Float.lit (58 # 100)))] true) = true.
Proof. apply context_holds_every_chunk. right. now left. Defined.

(** *** The list of queries of the multi-query tool *)

Lemma split_no_separator sep s :
  Forall (fun piece => PyList.has_char sep piece = false) (Py.split sep s).
Proof.
  induction s as [|c s IH]; [repeat constructor|].
  cbn [Py.split]. destruct (Ascii.eqb c sep) eqn:Hc.
  - constructor; [reflexivity | exact IH].
  - destruct (Py.split sep s) as [|piece pieces].
    + constructor; [cbn; now rewrite Hc | constructor].
    + apply Forall_cons_1 in IH as [Hp Hps].
      constructor; [cbn; now rewrite Hc, Hp | exact Hps].
Qed.

Lemma has_char_strip c s :
  PyList.has_char c s = false -> PyList.has_char c (Py.strip s) = false.
Proof.
  intros H. destruct (ChunkerFacts.strip_inside s) as (pre & post & Hs).
  rewrite Hs, !IdentityFacts.has_char_append in H.
  apply orb_false_iff in H as [_ H]. now apply orb_false_iff in H as [H _].
Qed.

(** The queries that [multi_search_retail_documents] runs: each is a
    piece of the input between commas, stripped; none is empty, none has
    a comma or whitespace at its ends; and they are at most as many as
    the pieces. *)
Theorem query_list_clean queries :
  Forall (fun q => q <> EmptyString /\ Py.strip q = q /\ PyList.has_char "," q = false /\
                   exists piece, In piece (Py.split "," queries) /\ q = Py.strip piece)
         (query_list_of queries) /\
  (length (query_list_of queries) <= length (Py.split "," queries))%nat.
Proof.
  unfold query_list_of. split.
  - apply List.Forall_forall. intros q Hq.
    apply in_map_iff in Hq as (piece & <- & Hpiece).
    apply filter_In in Hpiece as [Hin Htruthy].
    split; [now apply DocumentFacts.truthy_nonempty|].
    split; [apply PyFacts.strip_idem|]. split.
    + apply has_char_strip.
      pose proof (split_no_separator "," queries) as Hsep.
      eapply List.Forall_forall in Hsep; eassumption.
    + now exists piece.
  - rewrite length_map. apply List.filter_length_le.
Qed.

(** *** The sentinel of the search tools *)

(** The output of [search_retail_documents], when the search returns:
    it starts with the sentinel [Not found in sources] exactly when no
    chunk was found at the floor 0.3 of the tool, and with the heading of
    the context otherwise. *)
Theorem search_tool_sentinel env enum query_text top_k st cs st' :
  search_documents env query_text top_k (Float.lit (3 # 10)) COLLECTION_NAME st = (Ok cs, st') ->
  exists out,
    search_retail_documents env enum query_text top_k st = (Ok out, st') /\
    (String.prefix NOT_FOUND_SENTINEL out = true <-> cs = []) /\
    (cs <> [] -> String.prefix "# Retrieved Information" out = true).
Proof.
  intros Hs. unfold search_retail_documents, bind, retrieve_with_context, bind.
  rewrite Hs. destruct cs as [|c cs]; cbn [ret found negb chunks].
  - eexists. split; [reflexivity|]. split; [split; reflexivity | congruence].
  - eexists. split; [reflexivity|].
    unfold format_context_for_agent. cbn [app].
    change (Py.join Py.nl
              (("# Retrieved Information" +:+ Py.nl)
               :: ("Found " +:+ Py.str_of_int (Z.of_nat (length (c :: cs)))
                   +:+ " relevant sources:" +:+ Py.nl)
               :: source_sections true 1 (c :: cs)))
      with (("# Retrieved Information" +:+ Py.nl) +:+ Py.nl
            +:+ Py.join Py.nl
                  (("Found " +:+ Py.str_of_int (Z.of_nat (length (c :: cs)))
                    +:+ " relevant sources:" +:+ Py.nl)
                   :: source_sections true 1 (c :: cs))).
    split; [split; [intros H; vm_compute in H; discriminate H | discriminate]|].
    intros _. vm_compute. reflexivity.
Qed.

Lemma search_tool_sentinel_witness :
  exists out,
    search_retail_documents Samples.env_single Py.enum_insertion "inventory accuracy" 5
      Samples.initial_state
    = (Ok out,
       snd (search_documents Samples.env_single "inventory accuracy" 5 (Float.lit (3 # 10))
              COLLECTION_NAME Samples.initial_state)) /\
    (String.prefix NOT_FOUND_SENTINEL out = true
     <-> [Samples.chunk_returns (Float.sub 1 (Float.lit (58 # 100)))] = []) /\
    ([Samples.chunk_returns (Float.sub 1 (Float.lit (58 # 100)))] <> [] ->
     String.prefix "# Retrieved Information" out = true).
Proof.
  apply (search_tool_sentinel Samples.env_single Py.enum_insertion "inventory accuracy" 5
           Samples.initial_state).
  vm_compute. reflexivity.
Defined.

Lemma multi_found_chunks env queries top_k min_score st res st' :
  multi_query_retrieval env queries top_k min_score st = (Ok res, st') ->
  found res = false <-> chunks res = [].
Proof.
  unfold multi_query_retrieval. intros H.
  apply bind_ok in H as (acc & st1 & _ & H).
  destruct (sort_by_score_desc (fst acc)); injection H as <- _; simpl; split; congruence.
Qed.

(** The output of [multi_search_retail_documents] for an input with at
    least one query, when the retrieval returns: it starts with the
    sentinel [Not found in sources] exactly when the merge of the queries
    is empty, and with [Combined results from] otherwise. *)
Theorem multi_tool_sentinel env enum queries st res st' :
  query_list_of queries <> [] ->
  multi_query_retrieval env (query_list_of queries) 3 (Float.lit (3 # 10)) st = (Ok res, st') ->
  exists out,
    multi_search_retail_documents env enum queries st = (Ok out, st') /\
    (String.prefix NOT_FOUND_SENTINEL out = true <-> chunks res = []) /\
    (chunks res <> [] -> String.prefix "Combined results from " out = true).
Proof.
  intros Hq Hm. unfold multi_search_retail_documents.
  destruct (query_list_of queries) as [|q qs] eqn:Hlist; [contradiction|].
  unfold bind. rewrite Hm.
  pose proof (multi_found_chunks _ _ _ _ _ _ _ Hm) as Hfound.
  destruct (found res) eqn:Hf; cbn [negb ret].
  - assert (Hne : chunks res <> []) by (intros E; apply Hfound in E; discriminate).
    eexists. split; [reflexivity|]. split.
    + split; [intros H; vm_compute in H; discriminate H | contradiction].
    + intros _. apply prefix_refl_append.
  - eexists. split; [reflexivity|]. split.
    + split; [intros _; now apply Hfound | reflexivity].
    + intros Hne. exfalso. apply Hne. now apply Hfound.
Qed.

Lemma multi_tool_sentinel_witness :
  exists out,
    multi_search_retail_documents Samples.sample_env Py.enum_insertion
      "no such topic, nothing here" Samples.initial_state
    = (Ok out,
       snd (multi_query_retrieval Samples.sample_env ["no such topic"; "nothing here"]
              3 (Float.lit (3 # 10)) Samples.initial_state)) /\
    (String.prefix NOT_FOUND_SENTINEL out = true <-> @nil RetrievedChunk = []) /\
    (@nil RetrievedChunk <> [] -> String.prefix "Combined results from " out = true).
Proof.
  apply (multi_tool_sentinel Samples.sample_env Py.enum_insertion
           "no such topic, nothing here" Samples.initial_state
           {| found := false; message := "Not found in sources."; chunks := [];
              context := ""; citations := []; chunks_by_document := None |}).
  - vm_compute. discriminate.
  - vm_compute. reflexivity.
Defined.

End FormatFacts.

(** ** The schema of the verification report *)

Module SchemaFacts.
Import Models.

(** *** Repeated keys *)



(** *** What an accepted report holds *)









End SchemaFacts.
